(** * Vacation request lifecycle of Server-Horarios-App

    A shallow embedding of the Mongoose model [Vacation]
    (models/Vacation.js), of the authorisation middleware
    (middleware/auth.js) and of the Express routes mounted on
    [/api/vacations] (routes/vacations.js), followed by the properties
    of the vacation lifecycle that hold, or fail, on that code.

    Conventions of the embedding.
    - A JavaScript [Date] is its time value: an integer number of
      milliseconds since 1970-01-01T00:00:00Z, in [Z].  The server is
      taken to run in UTC, so that [getDay], [getDate]/[setDate] and
      [getFullYear] read the UTC calendar.
    - JavaScript numbers that hold day counts are integers in [Z]; an
      absent ([undefined]) field is [None].
    - A MongoDB collection is a finite map from [_id] to document; the
      [_id] is the key and is not repeated inside the document.
    - A route is a function from the request and the database to a
      response and the database after the request. *)

From Stdlib Require Import ZArith List Bool Ascii String Lia.
From stdpp Require Import base option list gmap fin_maps strings.

Local Open Scope Z_scope.

(** ** JavaScript dates (UTC) *)

Module JsDate.

(** [1000 * 60 * 60 * 24], the divisor used by [diasTotales]. *)
Definition MS_PER_DAY : Z := 1000 * 60 * 60 * 24.

(** Number of the UTC day that contains time value [t]:
    ECMAScript's [Day(t) = floor(t / msPerDay)]. *)
Definition Day (t : Z) : Z := t / MS_PER_DAY.

(** [Date.prototype.getDay]: ECMAScript's
    [WeekDay(t) = (Day(t) + 4) modulo 7]; 0 is Sunday, 6 is Saturday. *)
Definition getDay (t : Z) : Z := (Day t + 4) mod 7.

(** [date.setDate(date.getDate() + 1)]: the same time of day on the
    following calendar day. *)
Definition nextDay (t : Z) : Z := t + MS_PER_DAY.

(** [Math.ceil(a / b)] for integers [a] and [b > 0]. *)
Definition ceilDiv (a b : Z) : Z := - ((- a) / b).

(** Days from 1970-01-01 to the civil date [y]-[m]-[d] of the
    proleptic Gregorian calendar (ECMAScript's [MakeDay]). *)
Definition daysFromCivil (y m d : Z) : Z :=
  let y' := if m <=? 2 then y - 1 else y in
  let era := y' / 400 in
  let yoe := y' - era * 400 in
  let mp := if m <=? 2 then m + 9 else m - 3 in
  let doy := (153 * mp + 2) / 5 + d - 1 in
  let doe := yoe * 365 + yoe / 4 - yoe / 100 + doy in
  era * 146097 + doe - 719468.

(** [Date.UTC(y, m - 1, d)], which is also what [new Date("y-m-d")]
    denotes: midnight UTC of that civil date. *)
Definition utc (y m d : Z) : Z := daysFromCivil y m d * MS_PER_DAY.

(** [Date.UTC(y, m - 1, d, h)]. *)
Definition utcHour (y m d h : Z) : Z := utc y m d + h * (1000 * 60 * 60).

(** ECMAScript's [YearFromTime], through the civil date of the day. *)
Definition yearFromDay (z0 : Z) : Z :=
  let z := z0 + 719468 in
  let era := z / 146097 in
  let doe := z - era * 146097 in
  let yoe := (doe - doe / 1460 + doe / 36524 - doe / 146096) / 365 in
  let doy := doe - (365 * yoe + yoe / 4 - yoe / 100) in
  let mp := (5 * doy + 2) / 153 in
  let m := if mp <? 10 then mp + 3 else mp - 9 in
  if m <=? 2 then yoe + era * 400 + 1 else yoe + era * 400.

(** [Date.prototype.getFullYear]. *)
Definition getFullYear (t : Z) : Z := yearFromDay (Day t).

End JsDate.

Import JsDate.

(** ** Strings as the validators see them *)

Module Str.

(** The characters matched by [\s] within ASCII: tab, line feed,
    vertical tab, form feed, carriage return and space. *)
Definition is_space (c : ascii) : bool :=
  let n := nat_of_ascii c in
  Nat.eqb n 32 || (Nat.leb 9 n && Nat.leb n 13).

Fixpoint ltrim (s : string) : string :=
  match s with
  | EmptyString => EmptyString
  | String c s' => if is_space c then ltrim s' else s
  end.

Fixpoint rtrim (s : string) : string :=
  match s with
  | EmptyString => EmptyString
  | String c s' =>
      match rtrim s' with
      | EmptyString => if is_space c then EmptyString else String c EmptyString
      | r => String c r
      end
  end.

(** The [trim()] sanitizer of express-validator and the [trim: true]
    setter of a Mongoose string path. *)
Definition trim (s : string) : string := rtrim (ltrim s).

(** [notEmpty()]. *)
Definition notEmpty (s : string) : bool :=
  match s with EmptyString => false | _ => true end.

(** [isLength({ max })] and a schema's [maxlength]. *)
Definition maxLength (max : nat) (s : string) : bool :=
  Nat.leb (String.length s) max.

(** A field that is absent reaches a validator as the empty string. *)
Definition orEmpty (o : option string) : string :=
  match o with Some s => s | None => EmptyString end.

End Str.

(** ** The Vacation model (models/Vacation.js) *)

(** MongoDB [ObjectId]s. *)
Abbreviation Id := nat.

(** The [enum] of [tipoVacacion]. *)
Inductive TipoVacacion :=
| vacaciones | permiso_personal | licencia_medica | permiso_matrimonio
| permiso_maternidad | permiso_paternidad | licencia_sin_goce | otro.

(** The [enum] of [estado]. *)
Inductive Estado :=
| pendiente | aprobada | rechazada | cancelada | en_curso | completada.

Definition Estado_eqb (a b : Estado) : bool :=
  match a, b with
  | pendiente, pendiente | aprobada, aprobada | rechazada, rechazada
  | cancelada, cancelada | en_curso, en_curso | completada, completada => true
  | _, _ => false
  end.

(** A document of the collection.  [documentoSoporte], [afectaSalario],
    [fechaSolicitud] and the timestamps are left out: no route of the
    vacation lifecycle reads them. *)
Record Vacation := mkVacation {
  empleado : Id;
  fechaInicio : Z;
  fechaFin : Z;
  tipoVacacion : TipoVacacion;
  estado : Estado;
  motivo : string;
  observaciones : option string;
  aprobadoPor : option Id;
  fechaAprobacion : option Z;
  motivoRechazo : option string;
  diasSolicitados : option Z;
  diasHabiles : option Z;
  reemplazo : option Id;
  instruccionesReemplazo : option string;
  urgente : bool;
  anoVacacional : Z;
  creadoPor : Id;
  modificadoPor : option Id
}.

(** Assignments to the paths of a document. *)
Definition set_fechaInicio (x : Z) (v : Vacation) : Vacation :=
  mkVacation (empleado v) x (fechaFin v) (tipoVacacion v) (estado v) (motivo v)
    (observaciones v) (aprobadoPor v) (fechaAprobacion v) (motivoRechazo v)
    (diasSolicitados v) (diasHabiles v) (reemplazo v) (instruccionesReemplazo v)
    (urgente v) (anoVacacional v) (creadoPor v) (modificadoPor v).

Definition set_fechaFin (x : Z) (v : Vacation) : Vacation :=
  mkVacation (empleado v) (fechaInicio v) x (tipoVacacion v) (estado v) (motivo v)
    (observaciones v) (aprobadoPor v) (fechaAprobacion v) (motivoRechazo v)
    (diasSolicitados v) (diasHabiles v) (reemplazo v) (instruccionesReemplazo v)
    (urgente v) (anoVacacional v) (creadoPor v) (modificadoPor v).

Definition set_tipoVacacion (x : TipoVacacion) (v : Vacation) : Vacation :=
  mkVacation (empleado v) (fechaInicio v) (fechaFin v) x (estado v) (motivo v)
    (observaciones v) (aprobadoPor v) (fechaAprobacion v) (motivoRechazo v)
    (diasSolicitados v) (diasHabiles v) (reemplazo v) (instruccionesReemplazo v)
    (urgente v) (anoVacacional v) (creadoPor v) (modificadoPor v).

Definition set_estado (x : Estado) (v : Vacation) : Vacation :=
  mkVacation (empleado v) (fechaInicio v) (fechaFin v) (tipoVacacion v) x (motivo v)
    (observaciones v) (aprobadoPor v) (fechaAprobacion v) (motivoRechazo v)
    (diasSolicitados v) (diasHabiles v) (reemplazo v) (instruccionesReemplazo v)
    (urgente v) (anoVacacional v) (creadoPor v) (modificadoPor v).

Definition set_motivo (x : string) (v : Vacation) : Vacation :=
  mkVacation (empleado v) (fechaInicio v) (fechaFin v) (tipoVacacion v) (estado v) x
    (observaciones v) (aprobadoPor v) (fechaAprobacion v) (motivoRechazo v)
    (diasSolicitados v) (diasHabiles v) (reemplazo v) (instruccionesReemplazo v)
    (urgente v) (anoVacacional v) (creadoPor v) (modificadoPor v).

Definition set_observaciones (x : option string) (v : Vacation) : Vacation :=
  mkVacation (empleado v) (fechaInicio v) (fechaFin v) (tipoVacacion v) (estado v) (motivo v)
    x (aprobadoPor v) (fechaAprobacion v) (motivoRechazo v)
    (diasSolicitados v) (diasHabiles v) (reemplazo v) (instruccionesReemplazo v)
    (urgente v) (anoVacacional v) (creadoPor v) (modificadoPor v).

Definition set_aprobadoPor (x : option Id) (v : Vacation) : Vacation :=
  mkVacation (empleado v) (fechaInicio v) (fechaFin v) (tipoVacacion v) (estado v) (motivo v)
    (observaciones v) x (fechaAprobacion v) (motivoRechazo v)
    (diasSolicitados v) (diasHabiles v) (reemplazo v) (instruccionesReemplazo v)
    (urgente v) (anoVacacional v) (creadoPor v) (modificadoPor v).

Definition set_fechaAprobacion (x : option Z) (v : Vacation) : Vacation :=
  mkVacation (empleado v) (fechaInicio v) (fechaFin v) (tipoVacacion v) (estado v) (motivo v)
    (observaciones v) (aprobadoPor v) x (motivoRechazo v)
    (diasSolicitados v) (diasHabiles v) (reemplazo v) (instruccionesReemplazo v)
    (urgente v) (anoVacacional v) (creadoPor v) (modificadoPor v).

Definition set_motivoRechazo (x : option string) (v : Vacation) : Vacation :=
  mkVacation (empleado v) (fechaInicio v) (fechaFin v) (tipoVacacion v) (estado v) (motivo v)
    (observaciones v) (aprobadoPor v) (fechaAprobacion v) x
    (diasSolicitados v) (diasHabiles v) (reemplazo v) (instruccionesReemplazo v)
    (urgente v) (anoVacacional v) (creadoPor v) (modificadoPor v).

Definition set_diasSolicitados (x : option Z) (v : Vacation) : Vacation :=
  mkVacation (empleado v) (fechaInicio v) (fechaFin v) (tipoVacacion v) (estado v) (motivo v)
    (observaciones v) (aprobadoPor v) (fechaAprobacion v) (motivoRechazo v)
    x (diasHabiles v) (reemplazo v) (instruccionesReemplazo v)
    (urgente v) (anoVacacional v) (creadoPor v) (modificadoPor v).

Definition set_diasHabiles (x : option Z) (v : Vacation) : Vacation :=
  mkVacation (empleado v) (fechaInicio v) (fechaFin v) (tipoVacacion v) (estado v) (motivo v)
    (observaciones v) (aprobadoPor v) (fechaAprobacion v) (motivoRechazo v)
    (diasSolicitados v) x (reemplazo v) (instruccionesReemplazo v)
    (urgente v) (anoVacacional v) (creadoPor v) (modificadoPor v).

Definition set_reemplazo (x : option Id) (v : Vacation) : Vacation :=
  mkVacation (empleado v) (fechaInicio v) (fechaFin v) (tipoVacacion v) (estado v) (motivo v)
    (observaciones v) (aprobadoPor v) (fechaAprobacion v) (motivoRechazo v)
    (diasSolicitados v) (diasHabiles v) x (instruccionesReemplazo v)
    (urgente v) (anoVacacional v) (creadoPor v) (modificadoPor v).

Definition set_instruccionesReemplazo (x : option string) (v : Vacation) : Vacation :=
  mkVacation (empleado v) (fechaInicio v) (fechaFin v) (tipoVacacion v) (estado v) (motivo v)
    (observaciones v) (aprobadoPor v) (fechaAprobacion v) (motivoRechazo v)
    (diasSolicitados v) (diasHabiles v) (reemplazo v) x
    (urgente v) (anoVacacional v) (creadoPor v) (modificadoPor v).

Definition set_urgente (x : bool) (v : Vacation) : Vacation :=
  mkVacation (empleado v) (fechaInicio v) (fechaFin v) (tipoVacacion v) (estado v) (motivo v)
    (observaciones v) (aprobadoPor v) (fechaAprobacion v) (motivoRechazo v)
    (diasSolicitados v) (diasHabiles v) (reemplazo v) (instruccionesReemplazo v)
    x (anoVacacional v) (creadoPor v) (modificadoPor v).

Definition set_anoVacacional (x : Z) (v : Vacation) : Vacation :=
  mkVacation (empleado v) (fechaInicio v) (fechaFin v) (tipoVacacion v) (estado v) (motivo v)
    (observaciones v) (aprobadoPor v) (fechaAprobacion v) (motivoRechazo v)
    (diasSolicitados v) (diasHabiles v) (reemplazo v) (instruccionesReemplazo v)
    (urgente v) x (creadoPor v) (modificadoPor v).

Definition set_modificadoPor (x : option Id) (v : Vacation) : Vacation :=
  mkVacation (empleado v) (fechaInicio v) (fechaFin v) (tipoVacacion v) (estado v) (motivo v)
    (observaciones v) (aprobadoPor v) (fechaAprobacion v) (motivoRechazo v)
    (diasSolicitados v) (diasHabiles v) (reemplazo v) (instruccionesReemplazo v)
    (urgente v) (anoVacacional v) (creadoPor v) x.

(** *** Virtuals *)

(** The virtual [diasTotales].  The guard on missing dates never fires:
    both paths are required and a [Date] object is truthy. *)
Definition diasTotales (inicio fin : Z) : Z :=
  let diferencia := fin - inicio in
  ceilDiv diferencia MS_PER_DAY + 1.

(** [dayOfWeek !== 0 && dayOfWeek !== 6]. *)
Definition esHabil (date : Z) : bool :=
  negb (getDay date =? 0) && negb (getDay date =? 6).

(** The [for] loop of the virtual [diasHabilesCalculados]:
    [for (date = inicio; date <= fin; date.setDate(date.getDate() + 1))].
    One unit of [fuel] is spent per test of the loop condition. *)
Fixpoint contarHabiles (fuel : nat) (date fin count : Z) : option Z :=
  match fuel with
  | O => None
  | S fuel' =>
      if date <=? fin
      then contarHabiles fuel' (nextDay date) fin
             (if esHabil date then count + 1 else count)
      else Some count
  end.

(** Number of times the loop condition holds, plus the final test. *)
Definition vueltas (inicio fin : Z) : nat :=
  Z.to_nat ((fin - inicio) / MS_PER_DAY + 1) + 1.

(** The virtual [diasHabilesCalculados]; [contarHabiles_total] below
    shows that the loop always ends within [vueltas] tests. *)
Definition diasHabilesCalculados (inicio fin : Z) : Z :=
  match contarHabiles (vueltas inicio fin) inicio fin 0 with
  | Some count => count
  | None => 0
  end.

(** *** The collections and the clock *)

(** The [role] of a user (models/User.js). *)
Inductive Role := rol_empleado | rol_admin | rol_rrhh.

(** [req.user], as [authenticateToken] leaves it: the authenticated,
    active user. *)
Record User := mkUser { _id : Id; role : Role }.

(** The database: the ids present in the [User] collection, the
    [diasVacaciones] of each employee's contract (models/Contract.js)
    and the [Vacation] collection. *)
Record Db := mkDb {
  users : gset nat;
  contratos : gmap nat Z;
  vacations : gmap nat Vacation
}.

(** The database after a write to the [Vacation] collection. *)
Definition conVacations (vs : gmap nat Vacation) (db : Db) : Db :=
  mkDb (users db) (contratos db) vs.

(** What a request reads from outside the database: the wall clock
    ([new Date()]) and the [ObjectId] that [new Vacation(...)] draws. *)
Record Env := mkEnv { now : Z; newId : Id }.

(** [User.findById(id)], as a truth value. *)
Definition userExists (db : Db) (id : Id) : bool := bool_decide (id ∈ users db).

(** [Vacation.findOne(query)]: some document that matches, if any. *)
Definition findOne (query : Id -> Vacation -> bool) (vs : gmap nat Vacation)
  : option (Id * Vacation) :=
  List.find (fun d => query (fst d) (snd d)) (map_to_list vs).

(** [Vacation.find(query)]: every document that matches. *)
Definition findAll (query : Id -> Vacation -> bool) (vs : gmap nat Vacation)
  : list Vacation :=
  List.map snd (List.filter (fun d => query (fst d) (snd d)) (map_to_list vs)).

(** [estado: { $in: ['aprobada', 'pendiente', 'en_curso'] }]. *)
Definition estadoActivo (e : Estado) : bool :=
  match e with
  | aprobada | pendiente | en_curso => true
  | _ => false
  end.

(** The query of the overlap check in [POST /]:
    [{ empleado, estado: {$in: ...},
       $or: [{ fechaInicio: {$lte: fechaFin}, fechaFin: {$gte: fechaInicio} }] }]. *)
Definition solapaQuery (empleadoId : Id) (inicio fin : Z)
  (i : Id) (d : Vacation) : bool :=
  Nat.eqb (empleado d) empleadoId && estadoActivo (estado d) &&
  (fechaInicio d <=? fin) && (fechaFin d >=? inicio).

(** The query of the overlap check in the second [pre('save')]
    middleware: the same, with [_id: { $ne: this._id }]. *)
Definition solapaOtraQuery (self : Id) (this : Vacation)
  (i : Id) (d : Vacation) : bool :=
  negb (Nat.eqb i self) &&
  solapaQuery (empleado this) (fechaInicio this) (fechaFin this) i d.

(** *** Schema validation and middleware *)

(** [!x] for a numeric path: [undefined] and [0] are falsy. *)
Definition falsy (x : option Z) : bool :=
  match x with None => true | Some n => n =? 0 end.

(** [!x] for a path that holds an object (a [Date]): only [undefined]
    is falsy. *)
Definition ausente {A : Type} (x : option A) : bool :=
  match x with None => true | Some _ => false end.

(** The validators of [diasSolicitados] ([min: 0.5], [max: 365]) and of
    [diasHabiles] ([min: 0]) on integer values; an absent value passes. *)
Definition diasSolicitadosValido (x : option Z) : bool :=
  match x with None => true | Some n => (1 <=? n) && (n <=? 365) end.

Definition diasHabilesValido (x : option Z) : bool :=
  match x with None => true | Some n => 0 <=? n end.

(** [value > other], where [other] may be [undefined]: a [Date]
    compared with [undefined] is compared with [NaN], which is false. *)
Definition mayorQue (value : Z) (other : option Z) : bool :=
  match other with Some o => value >? o | None => false end.

(** The validator of [fechaFin],
    [function(value) { return value > this.fechaInicio; }];
    [thisFechaInicio] is what [this.fechaInicio] evaluates to where the
    validator is called. *)
Definition fechaFinValidator (thisFechaInicio : option Z) (value : Z) : bool :=
  mayorQue value thisFechaInicio.

(** Document validation, which [document.save()] runs before the
    [pre('save')] middleware, on a new document and on a loaded one
    alike: the schema sets no [validateModifiedOnly], so the paths that
    were loaded are validated again together with those that were
    assigned.  [this] is the document: the required paths ([motivo] is
    the one that can be empty), the [fechaFin] validator, the
    [maxlength]s and the bounds of the day counts.  The enum paths are
    typed. *)
Definition validarDocumento (this : Vacation) : bool :=
  fechaFinValidator (Some (fechaInicio this)) (fechaFin this) &&
  Str.notEmpty (motivo this) && Str.maxLength 500 (motivo this) &&
  Str.maxLength 1000 (Str.orEmpty (observaciones this)) &&
  Str.maxLength 500 (Str.orEmpty (motivoRechazo this)) &&
  Str.maxLength 1000 (Str.orEmpty (instruccionesReemplazo this)) &&
  diasSolicitadosValido (diasSolicitados this) &&
  diasHabilesValido (diasHabiles this).

(** First [pre('save')] middleware: the day counts and the approval
    date. *)
Definition preSaveDias (ahora : Z) (this : Vacation) : Vacation :=
  let this1 :=
    if falsy (diasSolicitados this)
    then set_diasSolicitados
           (Some (diasTotales (fechaInicio this) (fechaFin this))) this
    else this in
  let this2 :=
    if falsy (diasHabiles this1)
    then set_diasHabiles
           (Some (diasHabilesCalculados (fechaInicio this1) (fechaFin this1))) this1
    else this1 in
  if Estado_eqb (estado this2) aprobada && ausente (fechaAprobacion this2)
  then set_fechaAprobacion (Some ahora) this2
  else this2.

(** Second [pre('save')] middleware: [true] when it calls [next()]
    without an error.  [vs] is the collection at the time of the save. *)
Definition preSaveValidaciones (ahora : Z) (isNew : bool)
  (vs : gmap nat Vacation) (self : Id) (this : Vacation) : bool :=
  if isNew && (fechaInicio this <? ahora) then false
  else if Estado_eqb (estado this) aprobada || Estado_eqb (estado this) pendiente
  then ausente (findOne (solapaOtraQuery self this) vs)
  else true.

(** [document.save()]: document validation, the two middlewares in the
    order of their registration, then the write.  [None] is a rejected
    promise; the collection is then left as it was.  Inserting a new
    document under an [_id] that is taken is a duplicate-key error. *)
Definition save (ahora : Z) (isNew : bool)
  (self : Id) (this : Vacation) (vs : gmap nat Vacation)
  : option (Vacation * gmap nat Vacation) :=
  if negb (validarDocumento this) then None
  else
    let this' := preSaveDias ahora this in
    if negb (preSaveValidaciones ahora isNew vs self this') then None
    else if isNew && negb (ausente (vs !! self)) then None
    else Some (this', <[self := this']> vs).

(** ** The routes (routes/vacations.js) *)

(** The [error] field of a failure response; the comment gives the HTTP
    status and the error kind of the specification it stands for. *)
Inductive Error :=
| DatosDeEntradaInvalidos   (* 400, ValidationError *)
| EmpleadoNoEncontrado      (* 404, EmployeeNotFound *)
| ReemplazoNoEncontrado     (* 404, ReplacementNotFound *)
| FechasInvalidas           (* 400, InvalidDateRange *)
| FechasEnConflicto         (* 409, OverlappingRequest *)
| VacacionNoEncontrada      (* 404, NotFound *)
| NoSePuedeModificar        (* 400, ImmutableState *)
| AccesoDenegado            (* 403, Forbidden *)
| EstadoInvalido            (* 400, InvalidTransition *)
| ErrorInternoDelServidor.  (* 500 *)

Definition status (e : Error) : Z :=
  match e with
  | DatosDeEntradaInvalidos | FechasInvalidas | NoSePuedeModificar
  | EstadoInvalido => 400
  | AccesoDenegado => 403
  | EmpleadoNoEncontrado | ReemplazoNoEncontrado | VacacionNoEncontrada => 404
  | FechasEnConflicto => 409
  | ErrorInternoDelServidor => 500
  end.

(** A response: the body of a 2xx answer, or the error of a failure. *)
Inductive Response (A : Type) :=
| Ok (body : A)
| Fail (e : Error).
Arguments Ok {A} body.
Arguments Fail {A} e.

(** [authorizeRoles('admin', 'rrhh')] of middleware/auth.js:
    [roles.includes(req.user.role)]. *)
Definition authorizeRoles (roles : list Role) (user : User) : bool :=
  existsb (fun r => match r, role user with
                    | rol_empleado, rol_empleado | rol_admin, rol_admin
                    | rol_rrhh, rol_rrhh => true
                    | _, _ => false
                    end) roles.

(** [req.user.role === 'empleado']. *)
Definition esEmpleado (user : User) : bool :=
  match role user with rol_empleado => true | _ => false end.

(** The body of [POST /].  The first nine fields are those the
    validation chain of the route names.  The route spreads the whole
    body into the new document ([...vacationData]), so the other
    paths of the schema are taken from the body too when the client
    sends them: [estado], [diasSolicitados], [diasHabiles] and
    [anoVacacional] are modelled; a body is assumed not to carry
    [_id], [aprobadoPor], [fechaAprobacion], [motivoRechazo] or
    [modificadoPor]. *)
Record CreateBody := mkCreateBody {
  b_empleado : option Id;
  b_fechaInicio : Z;
  b_fechaFin : Z;
  b_tipoVacacion : TipoVacacion;
  b_motivo : string;
  b_observaciones : option string;
  b_reemplazo : option Id;
  b_instruccionesReemplazo : option string;
  b_urgente : option bool;
  b_estado : option Estado;
  b_diasSolicitados : option Z;
  b_diasHabiles : option Z;
  b_anoVacacional : option Z
}.

(** The validation chain of [POST /].  Malformed ids, dates, enum values
    and booleans are excluded by the types; what is left are the checks
    on strings.  [motivo] is trimmed by the chain before it is
    checked. *)
Definition validarCreate (b : CreateBody) : bool :=
  Str.notEmpty (Str.trim (b_motivo b)) && Str.maxLength 500 (Str.trim (b_motivo b)) &&
  Str.maxLength 1000 (Str.orEmpty (b_observaciones b)) &&
  Str.maxLength 1000 (Str.orEmpty (b_instruccionesReemplazo b)).

(** [new Vacation({ ...vacationData, empleado: empleadoId,
    creadoPor: req.user._id })]: the paths of the body, the schema's
    setters ([trim]) and the schema's defaults for the paths the body
    leaves out. *)
Definition nuevaVacation (ahora : Z) (user : User) (empleadoId : Id)
  (b : CreateBody) : Vacation :=
  {| empleado := empleadoId;
     fechaInicio := b_fechaInicio b;
     fechaFin := b_fechaFin b;
     tipoVacacion := b_tipoVacacion b;
     estado := default pendiente (b_estado b);
     motivo := Str.trim (b_motivo b);
     observaciones := Str.trim <$> b_observaciones b;
     aprobadoPor := None;
     fechaAprobacion := None;
     motivoRechazo := None;
     diasSolicitados := b_diasSolicitados b;
     diasHabiles := b_diasHabiles b;
     reemplazo := b_reemplazo b;
     instruccionesReemplazo := Str.trim <$> b_instruccionesReemplazo b;
     urgente := default false (b_urgente b);
     anoVacacional := default (getFullYear ahora) (b_anoVacacional b);
     creadoPor := _id user;
     modificadoPor := None |}.

(** [req.user.role === 'empleado' ? req.user._id
      : (vacationData.empleado || req.user._id)]. *)
Definition empleadoIdDe (user : User) (b : CreateBody) : Id :=
  if esEmpleado user then _id user else default (_id user) (b_empleado b).

(** [POST /api/vacations]. *)
Definition create (env : Env) (user : User) (b : CreateBody) (db : Db)
  : Response (Id * Vacation) * Db :=
  if negb (validarCreate b) then (Fail DatosDeEntradaInvalidos, db)
  else
    let empleadoId := empleadoIdDe user b in
    if negb (userExists db empleadoId) then (Fail EmpleadoNoEncontrado, db)
    else if match b_reemplazo b with
            | Some r => negb (userExists db r)
            | None => false
            end
    then (Fail ReemplazoNoEncontrado, db)
    else if b_fechaFin b <=? b_fechaInicio b then (Fail FechasInvalidas, db)
    else
      match findOne (solapaQuery empleadoId (b_fechaInicio b) (b_fechaFin b))
              (vacations db) with
      | Some _ => (Fail FechasEnConflicto, db)
      | None =>
          match save (now env) true (newId env)
                  (nuevaVacation (now env) user empleadoId b) (vacations db) with
          | Some (vacation, vs) => (Ok (newId env, vacation), conVacations vs db)
          | None => (Fail ErrorInternoDelServidor, db)
          end
      end.

(** [GET /api/vacations/:id], which is [Vacation.findById] behind the
    access check. *)
Definition findById (user : User) (id : Id) (db : Db) : Response Vacation :=
  match vacations db !! id with
  | None => Fail VacacionNoEncontrada
  | Some vacation =>
      if esEmpleado user && negb (Nat.eqb (empleado vacation) (_id user))
      then Fail AccesoDenegado
      else Ok vacation
  end.

(** The body of [PUT /:id]: the validated fields, then the other paths
    of the schema that [{ ...req.body }] carries into the update when
    the client sends them (as for [CreateBody]). *)
Record UpdateBody := mkUpdateBody {
  u_fechaInicio : option Z;
  u_fechaFin : option Z;
  u_tipoVacacion : option TipoVacacion;
  u_motivo : option string;
  u_observaciones : option string;
  u_reemplazo : option Id;
  u_instruccionesReemplazo : option string;
  u_urgente : option bool;
  u_estado : option Estado;
  u_diasSolicitados : option Z;
  u_diasHabiles : option Z;
  u_anoVacacional : option Z
}.

(** The validation chain of [PUT /:id]. *)
Definition validarUpdate (u : UpdateBody) : bool :=
  match u_motivo u with
  | Some m => Str.notEmpty (Str.trim m) && Str.maxLength 500 (Str.trim m)
  | None => true
  end &&
  Str.maxLength 1000 (Str.orEmpty (u_observaciones u)) &&
  Str.maxLength 1000 (Str.orEmpty (u_instruccionesReemplazo u)).

(** The update validators that [runValidators: true] turns on: the
    validators of the paths named in the update, each called on the
    value of the update.  There [this] is the query and not a document:
    a query has no property [fechaInicio], so the [fechaFin] validator
    reads [this.fechaInicio] as [undefined]. *)
Definition fechaInicioDeLaQuery : option Z := None.

Definition validarUpdateQuery (u : UpdateBody) : bool :=
  match u_fechaFin u with
  | Some value => fechaFinValidator fechaInicioDeLaQuery value
  | None => true
  end &&
  Str.maxLength 500 (Str.trim (Str.orEmpty (u_motivo u))) &&
  Str.maxLength 1000 (Str.trim (Str.orEmpty (u_observaciones u))) &&
  Str.maxLength 1000 (Str.trim (Str.orEmpty (u_instruccionesReemplazo u))) &&
  diasSolicitadosValido (u_diasSolicitados u) &&
  diasHabilesValido (u_diasHabiles u).

(** Assign [x] when the update names the path. *)
Definition patch {A : Type} (set : A -> Vacation -> Vacation) (x : option A)
  (v : Vacation) : Vacation :=
  match x with Some a => set a v | None => v end.

(** The [$set] that [findByIdAndUpdate(id, updates)] performs.  No
    [save] middleware runs for this operation. *)
Definition aplicarUpdate (user : User) (u : UpdateBody) (v : Vacation) : Vacation :=
  set_modificadoPor (Some (_id user))
    (patch set_anoVacacional (u_anoVacacional u)
    (patch (fun x => set_diasHabiles (Some x)) (u_diasHabiles u)
    (patch (fun x => set_diasSolicitados (Some x)) (u_diasSolicitados u)
    (patch set_estado (u_estado u)
    (patch set_urgente (u_urgente u)
    (patch (fun x => set_instruccionesReemplazo (Some (Str.trim x)))
       (u_instruccionesReemplazo u)
    (patch (fun x => set_reemplazo (Some x)) (u_reemplazo u)
    (patch (fun x => set_observaciones (Some (Str.trim x))) (u_observaciones u)
    (patch (fun x => set_motivo (Str.trim x)) (u_motivo u)
    (patch set_tipoVacacion (u_tipoVacacion u)
    (patch set_fechaFin (u_fechaFin u)
    (patch set_fechaInicio (u_fechaInicio u) v)))))))))))).

(** [PUT /api/vacations/:id]. *)
Definition update (user : User) (id : Id) (u : UpdateBody) (db : Db)
  : Response Vacation * Db :=
  if negb (validarUpdate u) then (Fail DatosDeEntradaInvalidos, db)
  else
    match vacations db !! id with
    | None => (Fail VacacionNoEncontrada, db)
    | Some vacation =>
        if negb (Estado_eqb (estado vacation) pendiente)
        then (Fail NoSePuedeModificar, db)
        else if esEmpleado user && negb (Nat.eqb (empleado vacation) (_id user))
        then (Fail AccesoDenegado, db)
        else if match u_reemplazo u with
                | Some r => negb (userExists db r)
                | None => false
                end
        then (Fail ReemplazoNoEncontrado, db)
        else if negb (validarUpdateQuery u)
        then (Fail ErrorInternoDelServidor, db)
        else
          let updatedVacation := aplicarUpdate user u vacation in
          (Ok updatedVacation,
           conVacations (<[id := updatedVacation]> (vacations db)) db)
    end.

(** [POST /api/vacations/:id/approve]. *)
Definition approve (env : Env) (user : User) (id : Id) (db : Db)
  : Response Vacation * Db :=
  if negb (authorizeRoles [rol_admin; rol_rrhh] user) then (Fail AccesoDenegado, db)
  else
    match vacations db !! id with
    | None => (Fail VacacionNoEncontrada, db)
    | Some vacation =>
        if negb (Estado_eqb (estado vacation) pendiente)
        then (Fail EstadoInvalido, db)
        else
          let vacation' :=
            set_modificadoPor (Some (_id user))
              (set_fechaAprobacion (Some (now env))
                 (set_aprobadoPor (Some (_id user))
                    (set_estado aprobada vacation))) in
          match save (now env) false id vacation' (vacations db) with
          | Some (saved, vs) => (Ok saved, conVacations vs db)
          | None => (Fail ErrorInternoDelServidor, db)
          end
    end.

(** The validation chain of [POST /:id/reject]:
    [body('motivoRechazo').trim().notEmpty().isLength({ max: 500 })]. *)
Definition validarReject (motivoRechazoBody : option string) : bool :=
  Str.notEmpty (Str.trim (Str.orEmpty motivoRechazoBody)) &&
  Str.maxLength 500 (Str.trim (Str.orEmpty motivoRechazoBody)).

(** [POST /api/vacations/:id/reject].  The handler reads the body after
    the chain has trimmed it. *)
Definition reject (env : Env) (user : User) (id : Id)
  (motivoRechazoBody : option string) (db : Db) : Response Vacation * Db :=
  if negb (authorizeRoles [rol_admin; rol_rrhh] user) then (Fail AccesoDenegado, db)
  else if negb (validarReject motivoRechazoBody)
  then (Fail DatosDeEntradaInvalidos, db)
  else
    match vacations db !! id with
    | None => (Fail VacacionNoEncontrada, db)
    | Some vacation =>
        if negb (Estado_eqb (estado vacation) pendiente)
        then (Fail EstadoInvalido, db)
        else
          let vacation' :=
            set_modificadoPor (Some (_id user))
              (set_fechaAprobacion (Some (now env))
                 (set_aprobadoPor (Some (_id user))
                    (set_motivoRechazo
                       (Some (Str.trim (Str.trim (Str.orEmpty motivoRechazoBody))))
                       (set_estado rechazada vacation)))) in
          match save (now env) false id vacation' (vacations db) with
          | Some (saved, vs) => (Ok saved, conVacations vs db)
          | None => (Fail ErrorInternoDelServidor, db)
          end
    end.

(** [POST /api/vacations/:id/cancel]. *)
Definition cancel (env : Env) (user : User) (id : Id) (db : Db)
  : Response Vacation * Db :=
  match vacations db !! id with
  | None => (Fail VacacionNoEncontrada, db)
  | Some vacation =>
      if esEmpleado user && negb (Nat.eqb (empleado vacation) (_id user))
      then (Fail AccesoDenegado, db)
      else if negb (existsb (Estado_eqb (estado vacation)) [pendiente; aprobada])
      then (Fail EstadoInvalido, db)
      else
        let vacation' :=
          set_modificadoPor (Some (_id user)) (set_estado cancelada vacation) in
        match save (now env) false id vacation' (vacations db) with
        | Some (saved, vs) => (Ok saved, conVacations vs db)
        | None => (Fail ErrorInternoDelServidor, db)
        end
  end.

(** The body of the balance response. *)
Record Balance := mkBalance {
  ano : Z;
  diasDisponibles : Z;
  diasUtilizados : option Z;
  diasRestantes : option Z;
  vacacionesDelAno : list Vacation
}.

(** [estado: { $in: ['aprobada', 'en_curso', 'completada'] }]. *)
Definition estadoConsumido (e : Estado) : bool :=
  match e with
  | aprobada | en_curso | completada => true
  | _ => false
  end.

(** The query of the balance:
    [{ empleado: empleadoId, anoVacacional: year, estado: {$in: ...} }]. *)
Definition balanceQuery (empleadoId : Id) (year : Z) (i : Id) (d : Vacation) : bool :=
  Nat.eqb (empleado d) empleadoId && (anoVacacional d =? year) &&
  estadoConsumido (estado d).

(** [total + vacation.diasHabiles]; [None] is [NaN], which is what the
    sum becomes once a document without [diasHabiles] is met. *)
Definition sumarDias (total : option Z) (vacation : Vacation) : option Z :=
  match total, diasHabiles vacation with
  | Some t, Some d => Some (t + d)
  | _, _ => None
  end.

(** [GET /api/vacations/employee/:id/balance].  The route does not
    read the contracts: [diasDisponibles] is the literal [22]
    ("Por defecto, debería obtenerse del contrato"). *)
Definition balance (env : Env) (user : User) (empleadoId : Id)
  (queryYear : option Z) (db : Db) : Response Balance :=
  let year := default (getFullYear (now env)) queryYear in
  if esEmpleado user && negb (Nat.eqb empleadoId (_id user))
  then Fail AccesoDenegado
  else if negb (userExists db empleadoId) then Fail EmpleadoNoEncontrado
  else
    let vacaciones := findAll (balanceQuery empleadoId year) (vacations db) in
    let diasUtilizados := fold_left sumarDias vacaciones (Some 0) in
    let diasDisponibles := 22 in
    Ok {| ano := year;
          diasDisponibles := diasDisponibles;
          diasUtilizados := diasUtilizados;
          diasRestantes := (fun u => diasDisponibles - u) <$> diasUtilizados;
          vacacionesDelAno := vacaciones |}.

(** ** The vocabulary of the specification *)

(** [intervalsOverlap(aStart, aEnd, bStart, bEnd)]: true iff
    [aStart ≤ bEnd AND bStart ≤ aEnd]. *)
Definition intervalsOverlap (aStart aEnd bStart bEnd : Z) : bool :=
  (aStart <=? bEnd) && (bStart <=? aEnd).

(** The first [n] calendar days from [date] on, one per day. *)
Fixpoint diasDesde (n : nat) (date : Z) : list Z :=
  match n with
  | O => []
  | S n' => date :: diasDesde n' (nextDay date)
  end.

(** "Each calendar day in [start, end] inclusive": [start], the day
    after, and so on while the day is not after [end]. *)
Definition spanDays (start end_ : Z) : list Z :=
  diasDesde (Z.to_nat ((end_ - start) / MS_PER_DAY + 1)) start.

Definition isWeekend (date : Z) : bool :=
  (getDay date =? 0) || (getDay date =? 6).

(** [totalDaySpan]: [ceil((end - start) / 1 day) + 1]. *)
Definition totalDaySpan (start end_ : Z) : Z :=
  ceilDiv (end_ - start) MS_PER_DAY + 1.

(** [businessDaySpan]: the days of the span that are neither Saturday
    nor Sunday. *)
Definition businessDaySpan (start end_ : Z) : Z :=
  Z.of_nat (length (List.filter (fun d => negb (isWeekend d)) (spanDays start end_))).

(** Modelled from the spec: [weekendDaysInSpan], which the source does
    not compute: the number of Saturdays and Sundays in the span. *)
Definition weekendDaysInSpan (start end_ : Z) : Z :=
  Z.of_nat (length (List.filter isWeekend (spanDays start end_))).

(** The invariant of the data model: two distinct documents of one
    employee whose [estado] is among aprobada, pendiente and en_curso do
    not overlap. *)
Definition sinSolapes (vs : gmap nat Vacation) : Prop :=
  forall (i j : Id) (a b : Vacation),
    i <> j -> vs !! i = Some a -> vs !! j = Some b ->
    empleado a = empleado b ->
    estadoActivo (estado a) = true -> estadoActivo (estado b) = true ->
    intervalsOverlap (fechaInicio a) (fechaFin a) (fechaInicio b) (fechaFin b) = false.

(** The requests that pass the checks of [POST /] that come before the
    overlap check. *)
Definition createAdmisible (user : User) (b : CreateBody) (db : Db) : Prop :=
  validarCreate b = true /\
  userExists db (empleadoIdDe user b) = true /\
  (forall r : Id, b_reemplazo b = Some r -> userExists db r = true) /\
  b_fechaInicio b < b_fechaFin b.

(** ** Sample data *)

Definition ana : User := mkUser 1 rol_empleado.
Definition beto : User := mkUser 2 rol_empleado.
Definition rosa : User := mkUser 9 rol_rrhh.

(** The body of the API documentation's "Solicitar Vacaciones", for the
    given dates. *)
Definition solicitud (inicio fin : Z) : CreateBody :=
  {| b_empleado := None;
     b_fechaInicio := inicio;
     b_fechaFin := fin;
     b_tipoVacacion := vacaciones;
     b_motivo := "Vacaciones de verano";
     b_observaciones := None;
     b_reemplazo := None;
     b_instruccionesReemplazo := None;
     b_urgente := None;
     b_estado := None;
     b_diasSolicitados := None;
     b_diasHabiles := None;
     b_anoVacacional := None |}.

(** A stored document of employee [emp], as a successful create leaves
    it, in estado [e]. *)
Definition documento (emp : Id) (inicio fin : Z) (e : Estado) : Vacation :=
  {| empleado := emp;
     fechaInicio := inicio;
     fechaFin := fin;
     tipoVacacion := vacaciones;
     estado := e;
     motivo := "Vacaciones de verano";
     observaciones := None;
     aprobadoPor := None;
     fechaAprobacion := None;
     motivoRechazo := None;
     diasSolicitados := Some (diasTotales inicio fin);
     diasHabiles := Some (diasHabilesCalculados inicio fin);
     reemplazo := None;
     instruccionesReemplazo := None;
     urgente := false;
     anoVacacional := getFullYear inicio;
     creadoPor := emp;
     modificadoPor := None |}.

(** A database with users 1, 2 and 9, a contract of 30 days for
    employee 1, and the given vacations. *)
Definition dbCon (vs : gmap nat Vacation) : Db :=
  mkDb {[ 1%nat; 2%nat; 9%nat ]} {[ 1%nat := 30 ]} vs.

Definition unDocumento (i : Id) (d : Vacation) : gmap nat Vacation := {[ i := d ]}.

(** The same body with an [estado] of the client's choosing. *)
Definition solicitudConEstado (e : Estado) (inicio fin : Z) : CreateBody :=
  {| b_empleado := None;
     b_fechaInicio := inicio;
     b_fechaFin := fin;
     b_tipoVacacion := vacaciones;
     b_motivo := "Vacaciones de verano";
     b_observaciones := None;
     b_reemplazo := None;
     b_instruccionesReemplazo := None;
     b_urgente := None;
     b_estado := Some e;
     b_diasSolicitados := None;
     b_diasHabiles := None;
     b_anoVacacional := None |}.

(** The requests that [POST /] accepts: they pass the checks of the
    route, no active document of the employee overlaps them, they do
    not start before now, the day counts the body supplies (if any) are
    within the bounds of the schema, and the [ObjectId] drawn for the
    document is not in use. *)
Definition createAceptable (env : Env) (user : User) (b : CreateBody) (db : Db) : Prop :=
  createAdmisible user b db /\
  findOne (solapaQuery (empleadoIdDe user b) (b_fechaInicio b) (b_fechaFin b))
    (vacations db) = None /\
  now env <= b_fechaInicio b /\
  diasSolicitadosValido (b_diasSolicitados b) = true /\
  diasHabilesValido (b_diasHabiles b) = true /\
  vacations db !! newId env = None.

(** The document that a successful [POST /] writes. *)
Definition creada (env : Env) (user : User) (b : CreateBody) : Vacation :=
  preSaveDias (now env) (nuevaVacation (now env) user (empleadoIdDe user b) b).

(** [authorizeRoles('admin', 'rrhh')] lets the user through. *)
Definition elevado (user : User) : Prop :=
  authorizeRoles [rol_admin; rol_rrhh] user = true.

(** The user may act on the document: an admin, RRHH, or the employee
    the document belongs to. *)
Definition puedeActuar (user : User) (v : Vacation) : Prop :=
  esEmpleado user = false \/ empleado v = _id user.

(** The sum of the [diasHabiles] of a list of documents, for documents
    that all have one. *)
Definition sumaDiasHabiles (l : list Vacation) : Z :=
  fold_right Z.add 0 (List.map (fun v => default 0 (diasHabiles v)) l).

(** Employee 1 in 2024: eleven working days approved in July, five
    completed in March, a pending request in September; an approved
    request of 2025; and an approved request of employee 2. *)
Definition vacacionesDeEjemplo : gmap nat Vacation :=
  <[ 100%nat := documento 1 (utc 2024 7 15) (utc 2024 7 29) aprobada ]>
  (<[ 101%nat := documento 1 (utc 2024 3 4) (utc 2024 3 8) completada ]>
  (<[ 102%nat := documento 1 (utc 2024 9 2) (utc 2024 9 6) pendiente ]>
  (<[ 103%nat := documento 1 (utc 2025 2 3) (utc 2025 2 7) aprobada ]>
  (<[ 104%nat := documento 2 (utc 2024 7 15) (utc 2024 7 19) aprobada ]> ∅)))).

(** ** Sequences of requests *)

(** The requests of the lifecycle, each with what it reads from outside
    the database. *)
Inductive Request :=
| ReqCreate (env : Env) (user : User) (b : CreateBody)
| ReqUpdate (user : User) (id : Id) (u : UpdateBody)
| ReqApprove (env : Env) (user : User) (id : Id)
| ReqReject (env : Env) (user : User) (id : Id) (motivoRechazoBody : option string)
| ReqCancel (env : Env) (user : User) (id : Id).

(** The database after a request. *)
Definition handle (db : Db) (r : Request) : Db :=
  match r with
  | ReqCreate env user b => snd (create env user b db)
  | ReqUpdate user id u => snd (update user id u db)
  | ReqApprove env user id => snd (approve env user id db)
  | ReqReject env user id m => snd (reject env user id m db)
  | ReqCancel env user id => snd (cancel env user id db)
  end.

(** The database after a sequence of requests, served one at a time. *)
Definition serve (rs : list Request) (db : Db) : Db := fold_left handle rs db.

Definition esUpdate (r : Request) : bool :=
  match r with ReqUpdate _ _ _ => true | _ => false end.

(** [PUT /:id] with only a new [fechaInicio]. *)
Definition soloFechaInicio (inicio : Z) : UpdateBody :=
  {| u_fechaInicio := Some inicio;
     u_fechaFin := None;
     u_tipoVacacion := None;
     u_motivo := None;
     u_observaciones := None;
     u_reemplazo := None;
     u_instruccionesReemplazo := None;
     u_urgente := None;
     u_estado := None;
     u_diasSolicitados := None;
     u_diasHabiles := None;
     u_anoVacacional := None |}.

(** Ana asks for 2024-07-10 to 2024-07-20 and for 2024-08-01 to
    2024-08-10, then moves the start of the second request to
    2024-07-15. *)
Definition dosSolicitudes : list Request :=
  [ ReqCreate (mkEnv (utc 2024 7 1) 100) ana (solicitud (utc 2024 7 10) (utc 2024 7 20));
    ReqCreate (mkEnv (utc 2024 7 1) 101) ana (solicitud (utc 2024 8 1) (utc 2024 8 10)) ].

Definition adelantarSegunda : Request :=
  ReqUpdate ana 101 (soloFechaInicio (utc 2024 7 15)).

(** ** Responses and requesters of a request *)

(** The error of a response, if it is a failure. *)
Definition errorDe {A : Type} (r : Response A) : option Error :=
  match r with Ok _ => None | Fail e => Some e end.

(** The error with which a request is answered on [db], if any. *)
Definition respuesta (db : Db) (r : Request) : option Error :=
  match r with
  | ReqCreate env user b => errorDe (fst (create env user b db))
  | ReqUpdate user id u => errorDe (fst (update user id u db))
  | ReqApprove env user id => errorDe (fst (approve env user id db))
  | ReqReject env user id m => errorDe (fst (reject env user id m db))
  | ReqCancel env user id => errorDe (fst (cancel env user id db))
  end.

(** [req.user] of a request. *)
Definition solicitante (r : Request) : User :=
  match r with
  | ReqCreate _ user _ | ReqUpdate user _ _ | ReqApprove _ user _
  | ReqReject _ user _ _ | ReqCancel _ user _ => user
  end.

(** The estados that no route leaves: a document in one of them fails
    the estado test of update, approve, reject and cancel. *)
Definition estadoFinal (e : Estado) : bool :=
  match e with
  | rechazada | cancelada | en_curso | completada => true
  | pendiente | aprobada => false
  end.

(** The transitions that approve, reject and cancel perform. *)
Definition transicion (e e' : Estado) : bool :=
  match e, e' with
  | pendiente, aprobada | pendiente, rechazada | pendiente, cancelada
  | aprobada, cancelada => true
  | _, _ => false
  end.

(** The document that a successful approve, reject or cancel hands to
    [save], and the one that is then stored. *)
Definition aprobar (env : Env) (user : User) (v : Vacation) : Vacation :=
  preSaveDias (now env)
    (set_modificadoPor (Some (_id user))
       (set_fechaAprobacion (Some (now env))
          (set_aprobadoPor (Some (_id user)) (set_estado aprobada v)))).

Definition rechazar (env : Env) (user : User) (m : option string) (v : Vacation)
  : Vacation :=
  preSaveDias (now env)
    (set_modificadoPor (Some (_id user))
       (set_fechaAprobacion (Some (now env))
          (set_aprobadoPor (Some (_id user))
             (set_motivoRechazo (Some (Str.trim (Str.trim (Str.orEmpty m))))
                (set_estado rechazada v))))).

Definition cancelar (env : Env) (user : User) (v : Vacation) : Vacation :=
  preSaveDias (now env)
    (set_modificadoPor (Some (_id user)) (set_estado cancelada v)).

(** What a request that is answered 2xx writes: the id it writes to,
    the document that was there (none for a create) and the document
    that is there afterwards. *)
Definition escribe (db : Db) (r : Request) (id : Id) (antes : option Vacation)
  (despues : Vacation) : Prop :=
  vacations db !! id = antes /\
  match r with
  | ReqCreate env user b =>
      id = newId env /\ antes = None /\ despues = creada env user b /\
      createAceptable env user b db
  | ReqUpdate user id0 u =>
      id = id0 /\
      exists v, antes = Some v /\ estado v = pendiente /\ puedeActuar user v /\
                despues = aplicarUpdate user u v
  | ReqApprove env user id0 =>
      id = id0 /\
      exists v, antes = Some v /\ estado v = pendiente /\ elevado user /\
                despues = aprobar env user v
  | ReqReject env user id0 m =>
      id = id0 /\
      exists v, antes = Some v /\ estado v = pendiente /\ elevado user /\
                validarReject m = true /\ despues = rechazar env user m v
  | ReqCancel env user id0 =>
      id = id0 /\
      exists v, antes = Some v /\ (estado v = pendiente \/ estado v = aprobada) /\
                puedeActuar user v /\ despues = cancelar env user v
  end.

(** The updates that [PUT /:id] accepts on the stored document [v]: a
    valid body that does not fail the update validators, a pendiente
    document that the requester may act on, and an existing
    replacement if the body names one. *)
Definition updateAceptable (user : User) (id : Id) (u : UpdateBody) (db : Db)
  (v : Vacation) : Prop :=
  validarUpdate u = true /\
  vacations db !! id = Some v /\
  estado v = pendiente /\
  puedeActuar user v /\
  (forall r : Id, u_reemplazo u = Some r -> userExists db r = true) /\
  validarUpdateQuery u = true.

(** [PUT /:id] with only an [estado]. *)
Definition soloEstado (e : Estado) : UpdateBody :=
  {| u_fechaInicio := None;
     u_fechaFin := None;
     u_tipoVacacion := None;
     u_motivo := None;
     u_observaciones := None;
     u_reemplazo := None;
     u_instruccionesReemplazo := None;
     u_urgente := None;
     u_estado := Some e;
     u_diasSolicitados := None;
     u_diasHabiles := None;
     u_anoVacacional := None |}.

(** [PUT /:id] with only a new [fechaFin]. *)
Definition soloFechaFin (fin : Z) : UpdateBody :=
  {| u_fechaInicio := None;
     u_fechaFin := Some fin;
     u_tipoVacacion := None;
     u_motivo := None;
     u_observaciones := None;
     u_reemplazo := None;
     u_instruccionesReemplazo := None;
     u_urgente := None;
     u_estado := None;
     u_diasSolicitados := None;
     u_diasHabiles := None;
     u_anoVacacional := None |}.

(** The request is an update whose body names a day count. *)
Definition nombraDias (r : Request) : bool :=
  match r with
  | ReqUpdate _ _ u =>
      negb (ausente (u_diasSolicitados u) && ausente (u_diasHabiles u))
  | _ => false
  end.

(** The virtual [vigente] of the Vacation model, read at time [hoy]:
    [this.fechaInicio <= hoy && this.fechaFin >= hoy &&
     this.estado === 'aprobada']. *)
Definition vigente (hoy : Z) (this : Vacation) : bool :=
  (fechaInicio this <=? hoy) && (fechaFin this >=? hoy) &&
  Estado_eqb (estado this) aprobada.

(** ** Listing (GET /api/vacations) *)

(** The strings that [isBoolean()] accepts for [urgente]. *)
Inductive BoolParam := param_true | param_false | param_1 | param_0.

(** The query string of [GET /].  [page], [limit] and [anoVacacional]
    are what [parseInt] gives for the strings that [isInt()] accepts;
    ids and enum values are typed. *)
Record ListQuery := mkListQuery {
  q_page : option Z;
  q_limit : option Z;
  q_empleado : option Id;
  q_estado : option Estado;
  q_tipoVacacion : option TipoVacacion;
  q_anoVacacional : option Z;
  q_urgente : option BoolParam
}.

(** The validation chain of [GET /]: [page] is [isInt({ min: 1 })] and
    [limit] is [isInt({ min: 1, max: 100 })]. *)
Definition validarList (q : ListQuery) : bool :=
  match q_page q with Some p => 1 <=? p | None => true end &&
  match q_limit q with Some l => (1 <=? l) && (l <=? 100) | None => true end.

(** The [filters] object of the route. *)
Record Filters := mkFilters {
  f_empleado : option Id;
  f_estado : option Estado;
  f_tipoVacacion : option TipoVacacion;
  f_anoVacacional : option Z;
  f_urgente : option bool
}.

(** [urgente === 'true']. *)
Definition esTrue (p : BoolParam) : bool :=
  match p with param_true => true | _ => false end.

(** The construction of [filters]: an employee is always restricted to
    their own documents. *)
Definition construirFiltros (user : User) (q : ListQuery) : Filters :=
  {| f_empleado := if esEmpleado user then Some (_id user) else q_empleado q;
     f_estado := q_estado q;
     f_tipoVacacion := q_tipoVacacion q;
     f_anoVacacional := q_anoVacacional q;
     f_urgente := esTrue <$> q_urgente q |}.

Definition TipoVacacion_eqb (a b : TipoVacacion) : bool :=
  match a, b with
  | vacaciones, vacaciones | permiso_personal, permiso_personal
  | licencia_medica, licencia_medica | permiso_matrimonio, permiso_matrimonio
  | permiso_maternidad, permiso_maternidad | permiso_paternidad, permiso_paternidad
  | licencia_sin_goce, licencia_sin_goce | otro, otro => true
  | _, _ => false
  end.

(** A path of [filters] that is set must be equal in the document. *)
Definition cumple {A : Type} (eqb : A -> A -> bool) (f : option A) (x : A) : bool :=
  match f with Some y => eqb x y | None => true end.

(** [Vacation.find(filters)] and [Vacation.countDocuments(filters)]
    as a query. *)
Definition filtersQuery (f : Filters) (i : Id) (d : Vacation) : bool :=
  cumple Nat.eqb (f_empleado f) (empleado d) &&
  cumple Estado_eqb (f_estado f) (estado d) &&
  cumple TipoVacacion_eqb (f_tipoVacacion f) (tipoVacacion d) &&
  cumple Z.eqb (f_anoVacacional f) (anoVacacional d) &&
  cumple Bool.eqb (f_urgente f) (urgente d).

(** The [pagination] object of the response. *)
Record Pagination := mkPagination {
  current : Z;
  limit : Z;
  total : Z;
  pages : Z
}.

(** The documents that match the filters of a request:
    [Vacation.find(filters)] before it is sorted and cut. *)
Definition coinciden (user : User) (q : ListQuery) (db : Db) : list (Id * Vacation) :=
  List.filter (fun d => filtersQuery (construirFiltros user q) (fst d) (snd d))
    (map_to_list (vacations db)).

(** [GET /api/vacations].  [None] is the 400 answer to an invalid
    query string.  [orden] is the order in which MongoDB hands the
    matching documents for [.sort({ fechaSolicitud: -1, urgente: -1 })]
    ([fechaSolicitud] is not part of the embedding); [skip] and
    [limit] then cut the page out of it. *)
Definition listar (orden : list (Id * Vacation) -> list (Id * Vacation))
  (user : User) (q : ListQuery) (db : Db)
  : option (list (Id * Vacation) * Pagination) :=
  if negb (validarList q) then None
  else
    let page := default 1 (q_page q) in
    let limit := default 10 (q_limit q) in
    let skip := (page - 1) * limit in
    let vacations :=
      take (Z.to_nat limit) (drop (Z.to_nat skip) (orden (coinciden user q db))) in
    let total := Z.of_nat (length (coinciden user q db)) in
    Some (vacations,
          {| current := page;
             limit := limit;
             total := total;
             pages := ceilDiv total limit |}).

(** The same query string for another page. *)
Definition conPage (p : Z) (q : ListQuery) : ListQuery :=
  {| q_page := Some p;
     q_limit := q_limit q;
     q_empleado := q_empleado q;
     q_estado := q_estado q;
     q_tipoVacacion := q_tipoVacacion q;
     q_anoVacacional := q_anoVacacional q;
     q_urgente := q_urgente q |}.

(** The documents of the page [p] of a listing, none if the query is
    refused. *)
Definition pagina (orden : list (Id * Vacation) -> list (Id * Vacation))
  (user : User) (q : ListQuery) (db : Db) (p : Z) : list (Id * Vacation) :=
  match listar orden user (conPage p q) db with
  | Some (vacations, _) => vacations
  | None => []
  end.

(** A query string with nothing but [urgente]. *)
Definition soloUrgente (p : BoolParam) : ListQuery :=
  {| q_page := None; q_limit := None; q_empleado := None; q_estado := None;
     q_tipoVacacion := None; q_anoVacacional := None; q_urgente := Some p |}.

(** A query string with nothing but [limit] and [empleado]. *)
Definition consulta (l : option Z) (e : option Id) : ListQuery :=
  {| q_page := None; q_limit := l; q_empleado := e; q_estado := None;
     q_tipoVacacion := None; q_anoVacacional := None; q_urgente := None |}.

(** The page numbers [1] to [n]. *)
Definition paginasHasta (n : Z) : list Z :=
  List.map (fun k => Z.of_nat k + 1) (seq 0 (Z.to_nat n)).

(** The [diasUtilizados] of the balance, computed on a list of
    documents with their ids: the reduce over the documents that match
    the balance query. *)
Definition usados (empleadoId : Id) (year : Z) (l : list (Id * Vacation)) : option Z :=
  fold_left sumarDias
    (List.map snd (List.filter (fun d => balanceQuery empleadoId year (fst d) (snd d)) l))
    (Some 0).

(** The document has a [diasHabiles]. *)
Definition tieneDias (v : Vacation) : bool := negb (ausente (diasHabiles v)).

(** The body of "Solicitar Vacaciones" with an [empleado]. *)
Definition solicitudPara (e : Id) (inicio fin : Z) : CreateBody :=
  {| b_empleado := Some e;
     b_fechaInicio := inicio;
     b_fechaFin := fin;
     b_tipoVacacion := vacaciones;
     b_motivo := "Vacaciones de verano";
     b_observaciones := None;
     b_reemplazo := None;
     b_instruccionesReemplazo := None;
     b_urgente := None;
     b_estado := None;
     b_diasSolicitados := None;
     b_diasHabiles := None;
     b_anoVacacional := None |}.

(** The request is neither an update nor a create whose body carries
    an [estado]. *)
Definition sinAtajos (r : Request) : bool :=
  match r with
  | ReqUpdate _ _ _ => false
  | ReqCreate _ _ b => ausente (b_estado b)
  | _ => true
  end.

(** The decision on a document is on record: an approved or rejected
    document names who decided and when, and a rejected document has a
    reason that is not empty and at most 500 characters long. *)
Definition decisionRegistrada (v : Vacation) : Prop :=
  (estado v = aprobada \/ estado v = rechazada ->
   aprobadoPor v <> None /\ fechaAprobacion v <> None) /\
  (estado v = rechazada ->
   exists s : string,
     motivoRechazo v = Some s /\ s <> EmptyString /\ (String.length s <= 500)%nat).

(** ** Calendar days *)

(** Modelled from the spec: "the count of non-Saturday non-Sunday days
    in [startDate, endDate]", read on the calendar and not on the loop
    of the model: the days (as day numbers) from the day of [start] to
    the day of [end_], whatever the time of day of either. *)
Definition diasDelCalendario (start end_ : Z) : list Z :=
  List.map (fun k => Day start + Z.of_nat k)
    (seq 0 (Z.to_nat (Day end_ - Day start + 1))).

(** The day of the week of a day number; day 0 was a Thursday. *)
Definition diaDeLaSemana (dia : Z) : Z := (dia + 4) mod 7.

Definition laborable (dia : Z) : bool :=
  negb ((diaDeLaSemana dia =? 0) || (diaDeLaSemana dia =? 6)).

Definition diasLaborables (start end_ : Z) : Z :=
  Z.of_nat (length (List.filter laborable (diasDelCalendario start end_))).

(** ** Documents that the schema refuses *)

(** A stored document that two of the schema's validators refuse: its
    [fechaFin] is not after its [fechaInicio], or its [diasSolicitados]
    is outside the bounds [min: 0.5] and [max: 365]. *)
Definition fueraDeEsquema (v : Vacation) : Prop :=
  fechaFinValidator (Some (fechaInicio v)) (fechaFin v) = false \/
  diasSolicitadosValido (diasSolicitados v) = false.

(** A request for a year and a day, from 2025-01-01 to 2026-01-01. *)
Definition unAnoYUnDia : Request :=
  ReqCreate (mkEnv (utc 2024 7 1) 100) ana (solicitud (utc 2025 1 1) (utc 2026 1 1)).

(** ** Sanity checks of the embedding *)

Example epoch_is_thursday : utc 1970 1 1 = 0 /\ getDay (utc 1970 1 1) = 4.
Proof. split; reflexivity. Qed.

Example july_15_2024_is_monday :
  utc 2024 7 15 = 1721001600000 /\ getDay (utc 2024 7 15) = 1.
Proof. split; reflexivity. Qed.

Example year_boundaries :
  getFullYear (utc 2024 12 31) = 2024 /\ getFullYear (utc 2025 1 1) = 2025 /\
  getFullYear (utc 2025 1 1 - 1) = 2024 /\ getFullYear (utc 2024 2 29) = 2024 /\
  getFullYear (utc 1969 12 31) = 1969 /\ getFullYear (utc 2000 3 1) = 2000.
Proof. repeat split; reflexivity. Qed.

Example trim_examples :
  Str.trim "  conflicto de fechas  " = "conflicto de fechas"%string /\
  Str.trim "   " = ""%string /\ Str.trim "a b" = "a b"%string.
Proof. repeat split; reflexivity. Qed.

Lemma Estado_eqb_eq a b : Estado_eqb a b = true <-> a = b.
Proof. destruct a, b; simpl; split; intros H; try reflexivity; discriminate H. Qed.

Example scenario_A_days :
  diasTotales (utc 2024 7 15) (utc 2024 7 29) = 15 /\
  diasHabilesCalculados (utc 2024 7 15) (utc 2024 7 29) = 11.
Proof. split; reflexivity. Qed.

(** ** Day counts *)

Lemma MS_PER_DAY_pos : 0 < MS_PER_DAY.
Proof. reflexivity. Qed.

Lemma esHabil_negb_isWeekend d : esHabil d = negb (isWeekend d).
Proof. unfold esHabil, isWeekend. now rewrite negb_orb. Qed.

(** The loop visits exactly the days of [diasDesde] and needs one more
    test than there are days. *)
Lemma contarHabiles_diasDesde (n : nat) :
  forall (fuel : nat) (date fin count : Z),
    n = Z.to_nat ((fin - date) / MS_PER_DAY + 1) ->
    (n < fuel)%nat ->
    contarHabiles fuel date fin count =
    Some (count + Z.of_nat (length (List.filter esHabil (diasDesde n date)))).
Proof.
  pose proof MS_PER_DAY_pos as Hpos.
  induction n as [|n IH]; intros fuel date fin count Hn Hfuel.
  - destruct fuel as [|fuel]; [lia|]. simpl.
    assert (Hlt : fin < date).
    { destruct (Z.lt_ge_cases fin date) as [H|H]; [exact H|].
      assert (0 <= (fin - date) / MS_PER_DAY) by (apply Z.div_pos; lia). lia. }
    apply Z.leb_gt in Hlt. rewrite Hlt. f_equal. lia.
  - destruct fuel as [|fuel]; [lia|].
    assert (Hle : date <= fin).
    { destruct (Z.lt_ge_cases fin date) as [H|H]; [|lia].
      assert ((fin - date) / MS_PER_DAY < 0) by (apply Z.div_lt_upper_bound; lia).
      lia. }
    assert (Hstep : (fin - nextDay date) / MS_PER_DAY = (fin - date) / MS_PER_DAY - 1).
    { unfold nextDay.
      replace (fin - (date + MS_PER_DAY)) with ((fin - date) + (-1) * MS_PER_DAY) by ring.
      rewrite Z.div_add by lia. ring. }
    cbn [contarHabiles diasDesde List.filter].
    apply Z.leb_le in Hle. rewrite Hle.
    rewrite (IH fuel (nextDay date) fin) by (rewrite ?Hstep; lia).
    destruct (esHabil date); cbn [length]; f_equal; lia.
Qed.

(** The loop of [diasHabilesCalculados] ends, whatever the dates. *)
Lemma contarHabiles_total (inicio fin : Z) :
  contarHabiles (vueltas inicio fin) inicio fin 0 =
  Some (businessDaySpan inicio fin).
Proof.
  unfold vueltas, businessDaySpan, spanDays.
  rewrite (contarHabiles_diasDesde _ _ inicio fin 0 eq_refl) by lia.
  f_equal. rewrite Z.add_0_l. do 2 f_equal.
  apply filter_ext. intros d. apply esHabil_negb_isWeekend.
Qed.

(** More fuel does not change the count. *)
Lemma contarHabiles_fuel (fuel : nat) (inicio fin : Z) :
  (vueltas inicio fin <= fuel)%nat ->
  contarHabiles fuel inicio fin 0 = Some (diasHabilesCalculados inicio fin).
Proof.
  intros Hfuel. unfold diasHabilesCalculados. rewrite contarHabiles_total.
  unfold businessDaySpan, spanDays.
  rewrite (contarHabiles_diasDesde _ _ inicio fin 0 eq_refl)
    by (unfold vueltas in Hfuel; lia).
  f_equal. rewrite Z.add_0_l. do 2 f_equal.
  apply filter_ext. intros d. apply esHabil_negb_isWeekend.
Qed.

Lemma diasHabilesCalculados_businessDaySpan (inicio fin : Z) :
  diasHabilesCalculados inicio fin = businessDaySpan inicio fin.
Proof. unfold diasHabilesCalculados. now rewrite contarHabiles_total. Qed.

Lemma length_diasDesde (n : nat) (date : Z) : length (diasDesde n date) = n.
Proof. revert date. induction n as [|n IH]; intros date; simpl; [|rewrite IH]; reflexivity. Qed.

Lemma filter_partition_length {A : Type} (p : A -> bool) (l : list A) :
  (length (List.filter p l) + length (List.filter (fun x => negb (p x)) l))%nat = length l.
Proof. induction l as [|x l IH]; simpl; [reflexivity|]. destruct (p x); simpl; lia. Qed.

(** Working days and weekend days split the days of the span. *)
Lemma business_plus_weekend (start end_ : Z) :
  businessDaySpan start end_ + weekendDaysInSpan start end_ =
  Z.of_nat (length (spanDays start end_)).
Proof.
  unfold businessDaySpan, weekendDaysInSpan.
  rewrite <- (filter_partition_length isWeekend (spanDays start end_)). lia.
Qed.

Lemma ceilDiv_exact (a b : Z) : 0 < b -> a mod b = 0 -> ceilDiv a b = a / b.
Proof.
  intros Hb Hmod. unfold ceilDiv.
  rewrite Z.div_opp_l_z by lia. lia.
Qed.

Lemma length_spanDays (start end_ : Z) :
  start <= end_ ->
  Z.of_nat (length (spanDays start end_)) = (end_ - start) / MS_PER_DAY + 1.
Proof.
  intros Hle. unfold spanDays. rewrite length_diasDesde.
  pose proof MS_PER_DAY_pos.
  assert (0 <= (end_ - start) / MS_PER_DAY) by (apply Z.div_pos; lia). lia.
Qed.

(** When the span is not a whole number of days, [diasTotales] rounds
    the last, partial day up and the loop does not reach it. *)
Lemma diasTotales_partial_day (inicio fin : Z) :
  inicio <= fin -> (fin - inicio) mod MS_PER_DAY <> 0 ->
  diasTotales inicio fin =
  diasHabilesCalculados inicio fin + weekendDaysInSpan inicio fin + 1.
Proof.
  intros Hle Hmod. pose proof MS_PER_DAY_pos as Hpos.
  rewrite diasHabilesCalculados_businessDaySpan, business_plus_weekend,
    length_spanDays by exact Hle.
  unfold diasTotales, ceilDiv.
  rewrite Z.div_opp_l_nz by lia. lia.
Qed.

(** C3, as amended: for every start and end with end strictly after
    start and a whole number of days between them (as when both are at
    midnight UTC), the inclusive calendar-day count [diasTotales] is
    the business-day count [diasHabilesCalculados] plus the number of
    Saturdays and Sundays in the span. *)
Theorem day_counts_add_up (inicio fin : Z) :
  inicio < fin ->
  (fin - inicio) mod MS_PER_DAY = 0 ->
  diasTotales inicio fin = totalDaySpan inicio fin /\
  diasHabilesCalculados inicio fin = businessDaySpan inicio fin /\
  totalDaySpan inicio fin =
  businessDaySpan inicio fin + weekendDaysInSpan inicio fin.
Proof.
  intros Hlt Hmod. split; [reflexivity|].
  split; [apply diasHabilesCalculados_businessDaySpan|].
  rewrite business_plus_weekend, length_spanDays by lia.
  unfold totalDaySpan. rewrite ceilDiv_exact by (apply MS_PER_DAY_pos || exact Hmod).
  reflexivity.
Qed.

Lemma day_counts_add_up_witness :
  utc 2024 7 15 < utc 2024 7 29 /\
  (utc 2024 7 29 - utc 2024 7 15) mod MS_PER_DAY = 0 /\
  diasTotales (utc 2024 7 15) (utc 2024 7 29) =
  diasHabilesCalculados (utc 2024 7 15) (utc 2024 7 29) +
  weekendDaysInSpan (utc 2024 7 15) (utc 2024 7 29).
Proof.
  split; [reflexivity|]. split; [reflexivity|].
  destruct (day_counts_add_up (utc 2024 7 15) (utc 2024 7 29)) as (Ht & Hb & Hsum).
  - reflexivity.
  - reflexivity.
  - rewrite Ht, Hb. exact Hsum.
Defined.

(** C3 as stated fails: from Monday 2024-07-15 00:00 to Tuesday
    2024-07-16 12:00 the span has three days by [diasTotales] but two
    business days and no weekend day. *)
Lemma day_counts_partial_day_counterexample :
  let inicio := utc 2024 7 15 in
  let fin := utcHour 2024 7 16 12 in
  inicio < fin /\
  diasTotales inicio fin = 3 /\
  diasHabilesCalculados inicio fin = 2 /\
  weekendDaysInSpan inicio fin = 0 /\
  diasTotales inicio fin <>
  diasHabilesCalculados inicio fin + weekendDaysInSpan inicio fin.
Proof. repeat split; vm_compute; congruence. Qed.

(** ** Queries *)

Lemma findOne_Some (query : Id -> Vacation -> bool) (vs : gmap nat Vacation)
  (i : Id) (d : Vacation) :
  findOne query vs = Some (i, d) -> vs !! i = Some d /\ query i d = true.
Proof.
  unfold findOne. intros Hfind. apply find_some in Hfind as [Hin Hq].
  split; [|exact Hq].
  apply elem_of_map_to_list, list_elem_of_In. exact Hin.
Qed.

Lemma findOne_None (query : Id -> Vacation -> bool) (vs : gmap nat Vacation) :
  findOne query vs = None <->
  forall (i : Id) (d : Vacation), vs !! i = Some d -> query i d = false.
Proof.
  unfold findOne. split.
  - intros Hfind i d Hlookup.
    apply (find_none _ _ Hfind (i, d)).
    apply list_elem_of_In, elem_of_map_to_list. exact Hlookup.
  - intros Hall.
    destruct (List.find _ _) as [[i d]|] eqn:Hfind; [|reflexivity].
    apply find_some in Hfind as [Hin Hq].
    apply list_elem_of_In, elem_of_map_to_list in Hin.
    simpl in Hq. rewrite (Hall i d Hin) in Hq. discriminate Hq.
Qed.

Lemma findOne_is_Some (query : Id -> Vacation -> bool) (vs : gmap nat Vacation)
  (i : Id) (d : Vacation) :
  vs !! i = Some d -> query i d = true -> exists hit, findOne query vs = Some hit.
Proof.
  intros Hlookup Hq.
  destruct (findOne query vs) as [hit|] eqn:Hfind; [now exists hit|].
  rewrite (proj1 (findOne_None query vs) Hfind i d Hlookup) in Hq. discriminate Hq.
Qed.

(** The query of the overlap check is the conjunction of "same
    employee", "active estado" and the inclusive overlap predicate. *)
Lemma solapaQuery_spec (empleadoId : Id) (inicio fin : Z) (i : Id) (d : Vacation) :
  solapaQuery empleadoId inicio fin i d = true <->
  empleado d = empleadoId /\ estadoActivo (estado d) = true /\
  intervalsOverlap inicio fin (fechaInicio d) (fechaFin d) = true.
Proof.
  unfold solapaQuery, intervalsOverlap.
  rewrite !andb_true_iff, Nat.eqb_eq, Z.geb_le, !Z.leb_le. tauto.
Qed.

Lemma intervalsOverlap_spec (aStart aEnd bStart bEnd : Z) :
  intervalsOverlap aStart aEnd bStart bEnd = true <-> aStart <= bEnd /\ bStart <= aEnd.
Proof. unfold intervalsOverlap. now rewrite andb_true_iff, !Z.leb_le. Qed.

Lemma intervalsOverlap_sym (aStart aEnd bStart bEnd : Z) :
  intervalsOverlap aStart aEnd bStart bEnd = intervalsOverlap bStart bEnd aStart aEnd.
Proof. unfold intervalsOverlap. apply andb_comm. Qed.

(** ** Creation *)

Lemma create_after_checks (env : Env) (user : User) (b : CreateBody) (db : Db) :
  createAdmisible user b db ->
  create env user b db =
  match findOne (solapaQuery (empleadoIdDe user b) (b_fechaInicio b) (b_fechaFin b))
          (vacations db) with
  | Some _ => (Fail FechasEnConflicto, db)
  | None =>
      match save (now env) true (newId env)
              (nuevaVacation (now env) user (empleadoIdDe user b) b) (vacations db) with
      | Some (vacation, vs) => (Ok (newId env, vacation), conVacations vs db)
      | None => (Fail ErrorInternoDelServidor, db)
      end
  end.
Proof.
  intros (Hval & Huser & Hreemp & Hfechas). unfold create.
  rewrite Hval, Huser. cbn [negb].
  assert (Hr : match b_reemplazo b with
               | Some r => negb (userExists db r)
               | None => false
               end = false).
  { destruct (b_reemplazo b) as [r|]; [|reflexivity]. now rewrite (Hreemp r eq_refl). }
  rewrite Hr.
  assert (Hf : (b_fechaFin b <=? b_fechaInicio b) = false) by (apply Z.leb_gt; exact Hfechas).
  rewrite Hf. reflexivity.
Qed.

(** C2: the overlap test of create is inclusive at both ends.  For a
    request that passes the earlier checks of the route, create answers
    409 "Fechas en conflicto" (OverlappingRequest) and leaves the
    database as it was exactly when the employee has a document whose
    estado is aprobada, pendiente or en_curso and whose interval
    satisfies [aStart <= bEnd /\ bStart <= aEnd] against the requested
    one; in particular a request for 2024-07-20 to 2024-07-25 conflicts
    with such a document for 2024-07-10 to 2024-07-20. *)
Theorem create_overlap_is_inclusive
  (env : Env) (user : User) (b : CreateBody) (db : Db) :
  createAdmisible user b db ->
  (create env user b db = (Fail FechasEnConflicto, db) <->
   exists (i : Id) (d : Vacation),
     vacations db !! i = Some d /\
     empleado d = empleadoIdDe user b /\
     estadoActivo (estado d) = true /\
     b_fechaInicio b <= fechaFin d /\ fechaInicio d <= b_fechaFin b) /\
  (forall (i : Id) (d : Vacation),
     vacations db !! i = Some d ->
     empleado d = empleadoIdDe user b ->
     estadoActivo (estado d) = true ->
     fechaInicio d = utc 2024 7 10 -> fechaFin d = utc 2024 7 20 ->
     b_fechaInicio b = utc 2024 7 20 -> b_fechaFin b = utc 2024 7 25 ->
     create env user b db = (Fail FechasEnConflicto, db)).
Proof.
  intros Hadm.
  assert (Hiff : create env user b db = (Fail FechasEnConflicto, db) <->
    exists (i : Id) (d : Vacation),
      vacations db !! i = Some d /\
      empleado d = empleadoIdDe user b /\
      estadoActivo (estado d) = true /\
      b_fechaInicio b <= fechaFin d /\ fechaInicio d <= b_fechaFin b).
  { rewrite (create_after_checks env user b db Hadm). split.
    - destruct (findOne _ _) as [[i d]|] eqn:Hfind.
      + intros _. apply findOne_Some in Hfind as [Hlookup Hq].
        apply solapaQuery_spec in Hq as (He & Ha & Ho).
        apply intervalsOverlap_spec in Ho.
        exists i, d. tauto.
      + destruct (save _ _ _ _ _) as [[vacation vs]|]; intros Heq; discriminate Heq.
    - intros (i & d & Hlookup & He & Ha & Ho).
      destruct (findOne_is_Some
                  (solapaQuery (empleadoIdDe user b) (b_fechaInicio b) (b_fechaFin b))
                  (vacations db) i d Hlookup) as [hit Hhit].
      { apply solapaQuery_spec. rewrite intervalsOverlap_spec. tauto. }
      now rewrite Hhit. }
  split; [exact Hiff|].
  intros i d Hlookup He Ha Hi Hf Hbi Hbf.
  apply Hiff. exists i, d. rewrite Hi, Hf, Hbi, Hbf.
  repeat split; try assumption; vm_compute; discriminate.
Qed.

Lemma create_overlap_is_inclusive_witness :
  let env := mkEnv (utc 2024 7 1) 101 in
  let b := solicitud (utc 2024 7 20) (utc 2024 7 25) in
  let db := dbCon (unDocumento 100 (documento 1 (utc 2024 7 10) (utc 2024 7 20) aprobada)) in
  createAdmisible ana b db /\
  create env ana b db = (Fail FechasEnConflicto, db).
Proof.
  intros env b db.
  assert (Hadm : createAdmisible ana b db).
  { repeat split; try reflexivity. intros r Hr. discriminate Hr. }
  split; [exact Hadm|].
  apply (proj2 (create_overlap_is_inclusive env ana b db Hadm)
           100%nat (documento 1 (utc 2024 7 10) (utc 2024 7 20) aprobada));
    reflexivity.
Defined.

(** ** The save middleware *)

Ltac case_ifs :=
  repeat match goal with
         | |- context [if ?c then _ else _] => destruct c
         end.

Lemma preSaveDias_empleado a v : empleado (preSaveDias a v) = empleado v.
Proof. unfold preSaveDias. case_ifs; reflexivity. Qed.

Lemma preSaveDias_fechaInicio a v : fechaInicio (preSaveDias a v) = fechaInicio v.
Proof. unfold preSaveDias. case_ifs; reflexivity. Qed.

Lemma preSaveDias_fechaFin a v : fechaFin (preSaveDias a v) = fechaFin v.
Proof. unfold preSaveDias. case_ifs; reflexivity. Qed.

Lemma preSaveDias_estado a v : estado (preSaveDias a v) = estado v.
Proof. unfold preSaveDias. case_ifs; reflexivity. Qed.

Lemma preSaveDias_anoVacacional a v : anoVacacional (preSaveDias a v) = anoVacacional v.
Proof. unfold preSaveDias. case_ifs; reflexivity. Qed.

Lemma preSaveDias_motivoRechazo a v : motivoRechazo (preSaveDias a v) = motivoRechazo v.
Proof. unfold preSaveDias. case_ifs; reflexivity. Qed.

Lemma preSaveDias_aprobadoPor a v : aprobadoPor (preSaveDias a v) = aprobadoPor v.
Proof. unfold preSaveDias. case_ifs; reflexivity. Qed.

(** A day count that the body leaves out is filled in by the first
    middleware. *)
Lemma preSaveDias_diasSolicitados a v :
  diasSolicitados v = None ->
  diasSolicitados (preSaveDias a v) = Some (diasTotales (fechaInicio v) (fechaFin v)).
Proof. intros H. unfold preSaveDias. rewrite H. cbn [falsy]. case_ifs; reflexivity. Qed.

Lemma preSaveDias_diasHabiles a v :
  diasHabiles v = None ->
  diasHabiles (preSaveDias a v) =
  Some (diasHabilesCalculados (fechaInicio v) (fechaFin v)).
Proof.
  intros H. unfold preSaveDias.
  destruct (falsy (diasSolicitados v)); cbn; rewrite H; cbn [falsy]; case_ifs; reflexivity.
Qed.

(** A new document that starts before now is never written. *)
Lemma save_new_in_the_past ahora self this vs :
  fechaInicio this < ahora -> save ahora true self this vs = None.
Proof.
  intros Hpast. unfold save.
  destruct (validarDocumento this); [|reflexivity]. cbn [negb].
  unfold preSaveValidaciones. rewrite preSaveDias_fechaInicio.
  apply Z.ltb_lt in Hpast. rewrite Hpast. reflexivity.
Qed.

(** Whatever [save] answers, a failed save leaves no trace and a
    successful one writes the document it returns under its id. *)
Lemma save_Some ahora isNew self this vs saved vs' :
  save ahora isNew self this vs = Some (saved, vs') ->
  saved = preSaveDias ahora this /\ vs' = <[self := saved]> vs.
Proof.
  unfold save. intros H.
  destruct (negb (validarDocumento this)); [discriminate H|].
  destruct (negb (preSaveValidaciones _ _ _ _ _)); [discriminate H|].
  destruct (isNew && _); [discriminate H|].
  injection H as <- <-. split; reflexivity.
Qed.

(** C10: a create whose fechaInicio is strictly before now fails and
    leaves the database as it was, whatever else the request holds;
    when the request passes every check of the route (valid body,
    existing employee and replacement, end after start, no overlap) the
    failure comes from the save middleware and is answered 500. *)
Theorem create_rejects_past_start
  (env : Env) (user : User) (b : CreateBody) (db : Db) :
  b_fechaInicio b < now env ->
  (exists e : Error, create env user b db = (Fail e, db)) /\
  (createAdmisible user b db ->
   findOne (solapaQuery (empleadoIdDe user b) (b_fechaInicio b) (b_fechaFin b))
     (vacations db) = None ->
   create env user b db = (Fail ErrorInternoDelServidor, db)).
Proof.
  intros Hpast.
  assert (Hsave : save (now env) true (newId env)
                    (nuevaVacation (now env) user (empleadoIdDe user b) b)
                    (vacations db) = None)
    by (apply save_new_in_the_past; exact Hpast).
  split.
  - unfold create. cbv zeta. rewrite Hsave.
    destruct (findOne _ _); case_ifs; eexists; reflexivity.
  - intros Hadm Hnone.
    rewrite (create_after_checks env user b db Hadm), Hnone, Hsave. reflexivity.
Qed.

Lemma create_rejects_past_start_witness :
  let env := mkEnv (utc 2024 7 1) 101 in
  let b := solicitud (utc 2024 6 20) (utc 2024 6 25) in
  let db := dbCon ∅ in
  b_fechaInicio b < now env /\
  createAdmisible ana b db /\
  create env ana b db = (Fail ErrorInternoDelServidor, db).
Proof.
  intros env b db.
  assert (Hpast : b_fechaInicio b < now env) by reflexivity.
  assert (Hadm : createAdmisible ana b db).
  { repeat split; try reflexivity. intros r Hr. discriminate Hr. }
  split; [exact Hpast|]. split; [exact Hadm|].
  apply (proj2 (create_rejects_past_start env ana b db Hpast) Hadm).
  reflexivity.
Defined.

(** ** Trimming *)

Lemma length_ltrim (s : string) : (String.length (Str.ltrim s) <= String.length s)%nat.
Proof.
  induction s as [|c s IH]; simpl; [lia|].
  destruct (Str.is_space c); simpl; lia.
Qed.

Lemma length_rtrim (s : string) : (String.length (Str.rtrim s) <= String.length s)%nat.
Proof.
  induction s as [|c s IH]; simpl; [lia|].
  destruct (Str.rtrim s) as [|c' r]; [destruct (Str.is_space c)|]; simpl in *; lia.
Qed.

Lemma length_trim (s : string) : (String.length (Str.trim s) <= String.length s)%nat.
Proof.
  unfold Str.trim. pose proof (length_rtrim (Str.ltrim s)). pose proof (length_ltrim s). lia.
Qed.

Lemma maxLength_trim (max : nat) (o : option string) :
  Str.maxLength max (Str.orEmpty o) = true ->
  Str.maxLength max (Str.orEmpty (Str.trim <$> o)) = true.
Proof.
  unfold Str.maxLength. destruct o as [s|]; simpl; [|trivial].
  rewrite !Nat.leb_le. pose proof (length_trim s). lia.
Qed.

(** ** Successful creation *)

Lemma validar_nuevaVacation (ahora : Z) (user : User) (empleadoId : Id) (b : CreateBody) :
  validarCreate b = true ->
  b_fechaInicio b < b_fechaFin b ->
  diasSolicitadosValido (b_diasSolicitados b) = true ->
  diasHabilesValido (b_diasHabiles b) = true ->
  validarDocumento (nuevaVacation ahora user empleadoId b) = true.
Proof.
  unfold validarCreate, validarDocumento. rewrite !andb_true_iff.
  intros [[[Hne Hlen] Hobs] Hins] Hfechas Hds Hdh.
  cbn [nuevaVacation motivoRechazo fechaFin fechaInicio motivo observaciones
       instruccionesReemplazo diasSolicitados diasHabiles
       fechaFinValidator mayorQue].
  rewrite Hne, Hlen, Hds, Hdh, (maxLength_trim _ _ Hobs), (maxLength_trim _ _ Hins).
  assert (Hgt : (b_fechaFin b >? b_fechaInicio b) = true) by (apply Z.gtb_lt; exact Hfechas).
  rewrite Hgt. repeat split.
Qed.

Lemma solapaOtraQuery_None (vs : gmap nat Vacation) (self : Id) (this : Vacation) :
  findOne (solapaQuery (empleado this) (fechaInicio this) (fechaFin this)) vs = None ->
  findOne (solapaOtraQuery self this) vs = None.
Proof.
  rewrite !findOne_None. intros Hall i d Hlookup.
  unfold solapaOtraQuery. rewrite (Hall i d Hlookup). apply andb_false_r.
Qed.

(** An acceptable request is answered 201 with the document [creada],
    written under the new id. *)
Lemma create_ok (env : Env) (user : User) (b : CreateBody) (db : Db) :
  createAceptable env user b db ->
  create env user b db =
  (Ok (newId env, creada env user b),
   conVacations (<[newId env := creada env user b]> (vacations db)) db).
Proof.
  intros (Hadm & Hnone & Hnow & Hds & Hdh & Hfresh).
  rewrite (create_after_checks env user b db Hadm), Hnone.
  destruct Hadm as (Hval & _ & _ & Hfechas).
  unfold save.
  rewrite (validar_nuevaVacation _ _ _ _ Hval Hfechas Hds Hdh). cbn [negb].
  fold (creada env user b).
  assert (Hpre : preSaveValidaciones (now env) true (vacations db) (newId env)
                   (creada env user b) = true).
  { unfold preSaveValidaciones, creada.
    rewrite preSaveDias_fechaInicio. cbn [nuevaVacation fechaInicio andb].
    assert (Hge : (b_fechaInicio b <? now env) = false) by (apply Z.ltb_ge; exact Hnow).
    rewrite Hge.
    destruct (_ || _); [|reflexivity].
    rewrite solapaOtraQuery_None; [reflexivity|].
    rewrite preSaveDias_empleado, preSaveDias_fechaInicio, preSaveDias_fechaFin.
    exact Hnone. }
  rewrite Hpre, Hfresh. reflexivity.
Qed.

(** The creator can read the new document back. *)
Lemma findById_created (env : Env) (user : User) (b : CreateBody) (db : Db) :
  findById user (newId env)
    (conVacations (<[newId env := creada env user b]> (vacations db)) db) =
  Ok (creada env user b).
Proof.
  unfold findById, conVacations. cbn [vacations].
  rewrite lookup_insert_eq.
  unfold creada. rewrite preSaveDias_empleado. cbn [nuevaVacation empleado].
  unfold empleadoIdDe. destruct (esEmpleado user); [|reflexivity].
  now rewrite Nat.eqb_refl.
Qed.

(** C4: the failing input.  Ana, an employee, asks for 2024-07-15 to
    2024-07-29 with a body that leaves out the day counts and carries
    [estado: 'aprobada'].  The route spreads the body into the new
    document, so the request is answered 201 and the document, which
    [GET /:id] then returns, is stored aprobada (with the day counts 15
    and 11, no aprobadoPor, and the fechaAprobacion that the save
    middleware fills in), not pendiente.  The same body without estado
    is stored pendiente, and Ana is then refused by approve with 403:
    the body does what the guarded route denies her. *)
Theorem create_stores_estado_of_body :
  let env := mkEnv (utc 2024 7 1) 101 in
  let b := solicitudConEstado aprobada (utc 2024 7 15) (utc 2024 7 29) in
  let b0 := solicitud (utc 2024 7 15) (utc 2024 7 29) in
  let db := dbCon ∅ in
  esEmpleado ana = true /\
  b_diasSolicitados b = None /\ b_diasHabiles b = None /\
  (exists (v : Vacation) (db' : Db),
     create env ana b db = (Ok (101%nat, v), db') /\
     findById ana 101 db' = Ok v /\
     estado v = aprobada /\ estado v <> pendiente /\
     aprobadoPor v = None /\ fechaAprobacion v = Some (now env) /\
     diasSolicitados v = Some 15 /\ diasHabiles v = Some 11) /\
  (exists (v0 : Vacation) (db0 : Db),
     create env ana b0 db = (Ok (101%nat, v0), db0) /\
     estado v0 = pendiente /\
     approve env ana 101 db0 = (Fail AccesoDenegado, db0)).
Proof.
  intros env b b0 db.
  split; [reflexivity|]. split; [reflexivity|]. split; [reflexivity|].
  split.
  - exists (creada env ana b),
      (conVacations (<[101%nat := creada env ana b]> (vacations db)) db).
    split; [vm_compute; reflexivity|].
    split; [vm_compute; reflexivity|].
    split; [reflexivity|].
    split; [vm_compute; discriminate|].
    repeat split; vm_compute; reflexivity.
  - exists (creada env ana b0),
      (conVacations (<[101%nat := creada env ana b0]> (vacations db)) db).
    split; [vm_compute; reflexivity|].
    split; [reflexivity|].
    vm_compute; reflexivity.
Qed.

(** C9, as amended: for every create that is accepted and whose body
    does not supply anoVacacional, the anoVacacional of the stored
    document is the calendar year of the time of creation (now). *)
Theorem create_defaults_year_to_now
  (env : Env) (user : User) (b : CreateBody) (db : Db) :
  createAceptable env user b db ->
  b_anoVacacional b = None ->
  exists (v : Vacation) (db' : Db),
    create env user b db = (Ok (newId env, v), db') /\
    vacations db' !! newId env = Some v /\
    anoVacacional v = getFullYear (now env).
Proof.
  intros Hok Hano.
  exists (creada env user b),
    (conVacations (<[newId env := creada env user b]> (vacations db)) db).
  split; [apply create_ok; exact Hok|].
  split; [apply lookup_insert_eq|].
  unfold creada. rewrite preSaveDias_anoVacacional. cbn [nuevaVacation anoVacacional].
  now rewrite Hano.
Qed.

Lemma create_defaults_year_to_now_witness :
  let env := mkEnv (utc 2024 7 1) 101 in
  let b := solicitud (utc 2024 7 15) (utc 2024 7 29) in
  let db := dbCon ∅ in
  createAceptable env ana b db /\
  exists (v : Vacation) (db' : Db),
    create env ana b db = (Ok (101%nat, v), db') /\
    vacations db' !! 101%nat = Some v /\
    anoVacacional v = 2024.
Proof.
  intros env b db.
  assert (Hok : createAceptable env ana b db).
  { repeat split; try reflexivity; try (intros r Hr; discriminate Hr).
    vm_compute. discriminate. }
  split; [exact Hok|].
  destruct (create_defaults_year_to_now env ana b db Hok eq_refl)
    as (v & db' & Hcreate & Hlookup & Hano).
  exists v, db'. repeat split; assumption.
Defined.

(** C9 as stated fails: a request made on 2024-12-20 for 2025-01-05 to
    2025-01-10 is stored with anoVacacional 2024, while the calendar
    year of its fechaInicio is 2025. *)
Lemma create_year_of_start_counterexample :
  let env := mkEnv (utc 2024 12 20) 101 in
  let b := solicitud (utc 2025 1 5) (utc 2025 1 10) in
  let db := dbCon ∅ in
  b_anoVacacional b = None /\
  exists (v : Vacation) (db' : Db),
    create env ana b db = (Ok (101%nat, v), db') /\
    vacations db' !! 101%nat = Some v /\
    anoVacacional v = 2024 /\
    getFullYear (fechaInicio v) = 2025 /\
    anoVacacional v <> getFullYear (fechaInicio v).
Proof.
  intros env b db. split; [reflexivity|].
  exists (creada env ana b),
    (conVacations (<[101%nat := creada env ana b]> (vacations db)) db).
  split; [vm_compute; reflexivity|].
  split; [apply lookup_insert_eq|].
  split; [reflexivity|]. split; [reflexivity|]. vm_compute. discriminate.
Qed.

Lemma noLeading_ltrim (s : string) :
  match Str.ltrim s with
  | EmptyString => True
  | String c _ => Str.is_space c = false
  end.
Proof.
  induction s as [|c s IH]; simpl; [exact I|].
  destruct (Str.is_space c) eqn:Hc; [exact IH|exact Hc].
Qed.

Lemma ltrim_rtrim_ltrim (s : string) :
  Str.ltrim (Str.rtrim (Str.ltrim s)) = Str.rtrim (Str.ltrim s).
Proof.
  pose proof (noLeading_ltrim s) as Hlead.
  destruct (Str.ltrim s) as [|c t]; [reflexivity|].
  cbn [Str.rtrim]. fold Str.rtrim.
  destruct (Str.rtrim t); [rewrite Hlead|]; cbn [Str.ltrim]; rewrite Hlead; reflexivity.
Qed.

Lemma rtrim_idem (s : string) : Str.rtrim (Str.rtrim s) = Str.rtrim s.
Proof.
  induction s as [|c s IH]; [reflexivity|].
  simpl. destruct (Str.rtrim s) as [|c' r] eqn:Hr.
  - destruct (Str.is_space c) eqn:Hc; simpl; [reflexivity|now rewrite Hc].
  - change (Str.rtrim (String c (String c' r))) with
      (match Str.rtrim (String c' r) with
       | EmptyString => if Str.is_space c then EmptyString else String c EmptyString
       | x => String c x
       end).
    rewrite IH. reflexivity.
Qed.

(** Trimming twice is trimming once: the schema's [trim] setter leaves
    a value that the validation chain has trimmed as it is. *)
Lemma trim_idem (s : string) : Str.trim (Str.trim s) = Str.trim s.
Proof. unfold Str.trim. now rewrite ltrim_rtrim_ltrim, rtrim_idem. Qed.

(** ** Saving a loaded document *)

Lemma solapaOtraQuery_preSaveDias a self this i d :
  solapaOtraQuery self (preSaveDias a this) i d = solapaOtraQuery self this i d.
Proof.
  unfold solapaOtraQuery.
  now rewrite preSaveDias_empleado, preSaveDias_fechaInicio, preSaveDias_fechaFin.
Qed.

Lemma findOne_ext (q1 q2 : Id -> Vacation -> bool) (vs : gmap nat Vacation) :
  (forall i d, q1 i d = q2 i d) -> findOne q1 vs = findOne q2 vs.
Proof.
  intros Hext. unfold findOne.
  induction (map_to_list vs) as [|[i d] l IH]; simpl; [reflexivity|].
  now rewrite Hext, IH.
Qed.

(** A loaded document is written when its validators pass and, if its
    estado is aprobada or pendiente, no other active document of the
    employee overlaps it. *)
Lemma save_loaded (ahora : Z) (self : Id)
  (this : Vacation) (vs : gmap nat Vacation) :
  validarDocumento this = true ->
  (estado this = aprobada \/ estado this = pendiente ->
   findOne (solapaOtraQuery self this) vs = None) ->
  save ahora false self this vs =
  Some (preSaveDias ahora this, <[self := preSaveDias ahora this]> vs).
Proof.
  intros Hval Hsolapa. unfold save. rewrite Hval. cbn [negb andb].
  unfold preSaveValidaciones. cbn [andb]. rewrite preSaveDias_estado.
  rewrite (findOne_ext _ _ vs (solapaOtraQuery_preSaveDias ahora self this)).
  destruct (estado this) eqn:He; cbn [Estado_eqb orb negb]; try reflexivity;
    rewrite Hsolapa by (rewrite ?He; tauto); reflexivity.
Qed.

(** Under the invariant, a document that is active conflicts with no
    other document, whatever is assigned to paths other than its
    employee and its dates. *)
Lemma sinSolapes_no_conflict (vs : gmap nat Vacation) (self : Id) (v this : Vacation) :
  sinSolapes vs ->
  vs !! self = Some v ->
  estadoActivo (estado v) = true ->
  empleado this = empleado v ->
  fechaInicio this = fechaInicio v ->
  fechaFin this = fechaFin v ->
  findOne (solapaOtraQuery self this) vs = None.
Proof.
  intros Hinv Hself Hact He Hi Hf. apply findOne_None. intros i d Hlookup.
  unfold solapaOtraQuery. destruct (Nat.eqb_spec i self) as [->|Hne]; [reflexivity|].
  cbn [negb andb].
  destruct (solapaQuery _ _ _ i d) eqn:Hq; [|reflexivity].
  apply solapaQuery_spec in Hq as (Hemp & Hd & Hov).
  rewrite Hi, Hf in Hov.
  rewrite (Hinv self i v d) in Hov; try assumption; [discriminate Hov|congruence|congruence].
Qed.

Lemma preSaveDias_fechaAprobacion_set a v t :
  fechaAprobacion v = Some t -> fechaAprobacion (preSaveDias a v) = Some t.
Proof.
  intros H. unfold preSaveDias.
  destruct (falsy (diasSolicitados v)); cbn [diasHabiles set_diasSolicitados];
    destruct (falsy (diasHabiles v)); cbn [estado fechaAprobacion set_diasHabiles set_diasSolicitados];
    rewrite H; cbn [ausente]; rewrite andb_false_r; cbn; exact H.
Qed.


(** ** Approval *)




(** ** Rejection *)

Lemma validarReject_spec (m : option string) :
  validarReject m = true <->
  Str.trim (Str.orEmpty m) <> EmptyString /\
  (String.length (Str.trim (Str.orEmpty m)) <= 500)%nat.
Proof.
  unfold validarReject, Str.maxLength, Str.notEmpty.
  rewrite andb_true_iff, Nat.leb_le.
  destruct (Str.trim (Str.orEmpty m)); split; intros [H1 H2]; split;
    try assumption; try reflexivity; try discriminate; try congruence.
Qed.

(** C6: for an admin or RRHH user and a stored document, reject
    demands a motivoRechazo that, once trimmed, is non-empty and at
    most 500 characters long, and a document that is pendiente.
    Without such a reason (in particular with none at all) it fails
    with 400 "Datos de entrada inválidos" (ValidationError) and the
    database is untouched, so a pendiente document stays pendiente;
    with one, on a document that is not pendiente it fails with 400
    "Estado inválido".  It succeeds exactly when the reason is valid,
    the document is pendiente and the document with the reason passes
    the validation of the schema; on success the stored document has
    estado rechazada, the trimmed motivoRechazo, aprobadoPor (the
    decider) and fechaAprobacion (the time of the decision). *)
Theorem reject_needs_reason_and_pending
  (env : Env) (user : User) (id : Id) (v : Vacation) (m : option string) (db : Db) :
  elevado user ->
  vacations db !! id = Some v ->
  (validarReject m = true <->
   Str.trim (Str.orEmpty m) <> EmptyString /\
   (String.length (Str.trim (Str.orEmpty m)) <= 500)%nat) /\
  reject env user id None db = (Fail DatosDeEntradaInvalidos, db) /\
  (validarReject m = false ->
   reject env user id m db = (Fail DatosDeEntradaInvalidos, db)) /\
  (validarReject m = true -> estado v <> pendiente ->
   reject env user id m db = (Fail EstadoInvalido, db)) /\
  ((exists (v' : Vacation) (db' : Db), reject env user id m db = (Ok v', db')) <->
   validarReject m = true /\ estado v = pendiente /\
   validarDocumento (set_motivoRechazo (Some (Str.trim (Str.orEmpty m))) v) = true) /\
  (forall (v' : Vacation) (db' : Db),
     reject env user id m db = (Ok v', db') ->
     vacations db' !! id = Some v' /\
     estado v' = rechazada /\
     motivoRechazo v' = Some (Str.trim (Str.orEmpty m)) /\
     aprobadoPor v' = Some (_id user) /\
     fechaAprobacion v' = Some (now env)).
Proof.
  intros Hu Hlookup. unfold elevado in Hu.
  set (this := set_modificadoPor (Some (_id user))
                 (set_fechaAprobacion (Some (now env))
                    (set_aprobadoPor (Some (_id user))
                       (set_motivoRechazo
                          (Some (Str.trim (Str.trim (Str.orEmpty m))))
                          (set_estado rechazada v))))).
  assert (Hval : validarDocumento this =
                 validarDocumento (set_motivoRechazo (Some (Str.trim (Str.orEmpty m))) v)).
  { unfold this. rewrite trim_idem. reflexivity. }
  assert (Hbad : validarReject m = true -> estado v <> pendiente ->
                 reject env user id m db = (Fail EstadoInvalido, db)).
  { intros Hgood Hest. unfold reject. rewrite Hu, Hgood, Hlookup. cbn [negb].
    destruct (estado v); try reflexivity. now contradiction Hest. }
  assert (Hrun : validarReject m = true -> estado v = pendiente ->
                 reject env user id m db =
                 match save (now env) false id this (vacations db) with
                 | Some (saved, vs) => (Ok saved, conVacations vs db)
                 | None => (Fail ErrorInternoDelServidor, db)
                 end).
  { intros Hgood Hest. unfold reject. rewrite Hu, Hgood, Hlookup, Hest. reflexivity. }
  assert (Hinv : forall (v' : Vacation) (db' : Db),
             reject env user id m db = (Ok v', db') ->
             validarReject m = true /\ estado v = pendiente).
  { intros v' db' Hok.
    destruct (validarReject m) eqn:Hgood.
    - split; [reflexivity|].
      destruct (Estado_eqb (estado v) pendiente) eqn:He; [now apply Estado_eqb_eq|].
      rewrite Hbad in Hok; [discriminate Hok|reflexivity|].
      intros Heq. rewrite Heq in He. discriminate He.
    - unfold reject in Hok. rewrite Hu, Hgood in Hok. discriminate Hok. }
  split; [apply validarReject_spec|].
  split; [unfold reject; now rewrite Hu|].
  split; [intros Hno; unfold reject; now rewrite Hu, Hno|].
  split; [exact Hbad|].
  split.
  - split.
    + intros (v' & db' & Hok). destruct (Hinv v' db' Hok) as [Hgood Hest].
      split; [exact Hgood|]. split; [exact Hest|].
      rewrite (Hrun Hgood Hest) in Hok. unfold save in Hok. rewrite Hval in Hok.
      clear Hval.
      destruct (validarDocumento (set_motivoRechazo _ v)); [reflexivity|discriminate Hok].
    + intros (Hgood & Hest & Hv). rewrite (Hrun Hgood Hest), save_loaded.
      * eexists _, _. reflexivity.
      * now rewrite Hval.
      * intros [H|H]; discriminate H.
  - intros v' db' Hok. destruct (Hinv v' db' Hok) as [Hgood Hest].
    rewrite (Hrun Hgood Hest) in Hok.
    destruct (save _ _ _ _ _) as [[saved vs]|] eqn:Hsave; [|discriminate Hok].
    apply save_Some in Hsave as [-> ->]. injection Hok as <- <-.
    split; [apply lookup_insert_eq|].
    split; [now rewrite preSaveDias_estado|].
    split; [rewrite preSaveDias_motivoRechazo; unfold this; cbn; now rewrite trim_idem|].
    split; [now rewrite preSaveDias_aprobadoPor|].
    now apply preSaveDias_fechaAprobacion_set.
Qed.

Lemma reject_needs_reason_and_pending_witness :
  let env := mkEnv (utc 2024 7 1) 101 in
  let v := documento 1 (utc 2024 7 15) (utc 2024 7 29) pendiente in
  let db := dbCon (unDocumento 100 v) in
  let m := Some "  Conflicto con fechas criticas del proyecto "%string in
  elevado rosa /\ vacations db !! 100%nat = Some v /\
  reject env rosa 100 None db = (Fail DatosDeEntradaInvalidos, db) /\
  exists (v' : Vacation) (db' : Db),
    reject env rosa 100 m db = (Ok v', db') /\
    vacations db' !! 100%nat = Some v' /\
    estado v' = rechazada /\
    motivoRechazo v' = Some "Conflicto con fechas criticas del proyecto"%string /\
    aprobadoPor v' = Some 9%nat /\
    fechaAprobacion v' = Some (utc 2024 7 1).
Proof.
  intros env v db m.
  split; [reflexivity|]. split; [reflexivity|].
  destruct (reject_needs_reason_and_pending env rosa 100 v m db eq_refl eq_refl)
    as (_ & Hnone & _ & _ & Hiff & Hthen).
  split; [exact Hnone|].
  destruct (proj2 Hiff (conj eq_refl (conj eq_refl eq_refl))) as (v' & db' & Hok).
  exists v', db'. split; [exact Hok|]. exact (Hthen v' db' Hok).
Defined.

(** ** Cancellation *)



(** ** Balance *)

Lemma fold_sumarDias (l : list Vacation) (t : Z) :
  Forall (fun v => diasHabiles v <> None) l ->
  fold_left sumarDias l (Some t) = Some (t + sumaDiasHabiles l).
Proof.
  intros Hall. revert t.
  induction Hall as [|v l Hv _ IH]; intros t; cbn [fold_left].
  - unfold sumaDiasHabiles. cbn. f_equal. lia.
  - unfold sumarDias at 2. destruct (diasHabiles v) as [d|] eqn:Hd; [|now contradiction Hv].
    rewrite IH. unfold sumaDiasHabiles. cbn [List.map fold_right]. rewrite Hd.
    change (default 0 (Some d)) with d. f_equal. lia.
Qed.

(** What the balance route computes, for a requester who may see the
    balance of an existing employee: the documents of the employee in
    the year whose estado is aprobada, en_curso or completada, the sum
    of their diasHabiles, the literal 22, and 22 minus the sum. *)
Lemma balance_computes (env : Env) (user : User) (empleadoId : Id) (year : Z) (db : Db) :
  esEmpleado user = false \/ empleadoId = _id user ->
  userExists db empleadoId = true ->
  Forall (fun v => diasHabiles v <> None)
    (findAll (balanceQuery empleadoId year) (vacations db)) ->
  exists bal : Balance,
    balance env user empleadoId (Some year) db = Ok bal /\
    vacacionesDelAno bal = findAll (balanceQuery empleadoId year) (vacations db) /\
    diasUtilizados bal = Some (sumaDiasHabiles (vacacionesDelAno bal)) /\
    diasDisponibles bal = 22 /\
    diasRestantes bal = Some (diasDisponibles bal - sumaDiasHabiles (vacacionesDelAno bal)).
Proof.
  intros Hacc Huser Hall. unfold balance.
  assert (Hc : esEmpleado user && negb (Nat.eqb empleadoId (_id user)) = false).
  { rewrite andb_false_iff, negb_false_iff, Nat.eqb_eq. exact Hacc. }
  rewrite Hc, Huser. cbn [negb default].
  eexists. split; [reflexivity|].
  cbn [vacacionesDelAno diasUtilizados diasDisponibles diasRestantes].
  change (id year) with year.
  rewrite (fold_sumarDias _ 0 Hall), Z.add_0_l.
  repeat split; reflexivity.
Qed.

(** The documents that the balance query selects are those of the
    employee and the year whose estado is aprobada, en_curso or
    completada. *)
Lemma findAll_balanceQuery (empleadoId : Id) (year : Z) (vs : gmap nat Vacation)
  (d : Vacation) :
  In d (findAll (balanceQuery empleadoId year) vs) <->
  exists i : Id,
    vs !! i = Some d /\ empleado d = empleadoId /\ anoVacacional d = year /\
    (estado d = aprobada \/ estado d = en_curso \/ estado d = completada).
Proof.
  unfold findAll. rewrite in_map_iff. split.
  - intros ([i d'] & <- & Hin). apply filter_In in Hin as [Hin Hq].
    apply list_elem_of_In, elem_of_map_to_list in Hin.
    unfold balanceQuery in Hq. cbn [fst snd] in *.
    apply andb_true_iff in Hq as [Hq He]. apply andb_true_iff in Hq as [Hemp Hy].
    apply Nat.eqb_eq in Hemp. apply Z.eqb_eq in Hy.
    exists i. repeat split; try assumption.
    destruct (estado d'); try discriminate He; tauto.
  - intros (i & Hlookup & Hemp & Hy & He).
    exists (i, d). split; [reflexivity|]. apply filter_In. split.
    + apply list_elem_of_In, elem_of_map_to_list. exact Hlookup.
    + unfold balanceQuery. cbn [fst snd].
      rewrite (proj2 (Nat.eqb_eq _ _) Hemp), (proj2 (Z.eqb_eq _ _) Hy).
      destruct He as [-> | [-> | ->]]; reflexivity.
Qed.

(** C8, on the code: employee 1 has a contract with 30 diasVacaciones
    and has used 16 working days in 2024 (11 approved, 5 completed; the
    pending request, the request of 2025 and the other employee's
    request do not count).  The balance reports diasUtilizados 16, and
    diasDisponibles 22 and diasRestantes 6 instead of 30 and 14: the
    allocation is the literal of the route, not the contract's. *)
Theorem balance_ignores_contract :
  let env := mkEnv (utc 2024 10 1) 200 in
  let db := dbCon vacacionesDeEjemplo in
  contratos db !! 1%nat = Some 30 /\
  exists bal : Balance,
    balance env ana 1 (Some 2024) db = Ok bal /\
    diasUtilizados bal = Some 16 /\
    diasDisponibles bal = 22 /\
    diasRestantes bal = Some 6 /\
    (forall (contratos' : gmap nat Z),
       balance env ana 1 (Some 2024) (mkDb (users db) contratos' (vacations db)) = Ok bal).
Proof.
  intros env db. split; [reflexivity|].
  eexists. split; [vm_compute; reflexivity|].
  repeat split; reflexivity.
Qed.

(** ** The overlap invariant *)

Lemma sinSolapes_empty : sinSolapes ∅.
Proof. intros i j a b _ Hi. rewrite lookup_empty in Hi. discriminate Hi. Qed.

(** Writing a document back with the same employee and dates, and an
    estado that is active only if it was, keeps the invariant. *)
Lemma sinSolapes_replace (vs : gmap nat Vacation) (id : Id) (v this : Vacation) :
  sinSolapes vs ->
  vs !! id = Some v ->
  empleado this = empleado v ->
  fechaInicio this = fechaInicio v ->
  fechaFin this = fechaFin v ->
  (estadoActivo (estado this) = true -> estadoActivo (estado v) = true) ->
  sinSolapes (<[id := this]> vs).
Proof.
  intros Hinv Hv He Hi Hf Hact i j a b Hne Ha Hb Hemp Hacta Hactb.
  apply lookup_insert_Some in Ha as [[<- <-]|[Hnei Ha]];
    apply lookup_insert_Some in Hb as [[<- <-]|[Hnej Hb]].
  - now contradiction Hne.
  - rewrite Hi, Hf. apply (Hinv id j v b); auto. congruence.
  - rewrite Hi, Hf. apply (Hinv i id a v); auto. congruence.
  - apply (Hinv i j a b); auto.
Qed.

(** Writing a document that the overlap query of create finds no
    conflict for keeps the invariant. *)
Lemma sinSolapes_insert (vs : gmap nat Vacation) (id : Id) (this : Vacation) :
  sinSolapes vs ->
  findOne (solapaQuery (empleado this) (fechaInicio this) (fechaFin this)) vs = None ->
  sinSolapes (<[id := this]> vs).
Proof.
  intros Hinv Hnone i j a b Hne Ha Hb Hemp Hacta Hactb.
  pose proof (proj1 (findOne_None _ _) Hnone) as Hall.
  apply lookup_insert_Some in Ha as [[<- <-]|[Hnei Ha]];
    apply lookup_insert_Some in Hb as [[<- <-]|[Hnej Hb]].
  - now contradiction Hne.
  - destruct (intervalsOverlap _ _ _ _) eqn:Hov; [|reflexivity].
    rewrite <- (Hall j b Hb). symmetry. apply solapaQuery_spec. auto.
  - rewrite intervalsOverlap_sym.
    destruct (intervalsOverlap _ _ _ _) eqn:Hov; [|reflexivity].
    rewrite <- (Hall i a Ha). symmetry. apply solapaQuery_spec. auto.
  - apply (Hinv i j a b); auto.
Qed.

Lemma create_keeps_sinSolapes (env : Env) (user : User) (b : CreateBody) (db : Db) :
  sinSolapes (vacations db) -> sinSolapes (vacations (snd (create env user b db))).
Proof.
  intros Hinv. unfold create. cbv zeta.
  destruct (negb (validarCreate b)); [exact Hinv|].
  destruct (negb (userExists db _)); [exact Hinv|].
  destruct (match b_reemplazo b with Some _ => _ | None => _ end); [exact Hinv|].
  destruct (b_fechaFin b <=? b_fechaInicio b); [exact Hinv|].
  destruct (findOne _ _) eqn:Hnone; [exact Hinv|].
  destruct (save _ _ _ _ _) as [[vacation vs]|] eqn:Hsave; [|exact Hinv].
  apply save_Some in Hsave as [-> ->]. cbn [snd conVacations vacations].
  apply sinSolapes_insert; [exact Hinv|].
  now rewrite preSaveDias_empleado, preSaveDias_fechaInicio, preSaveDias_fechaFin.
Qed.

Lemma approve_keeps_sinSolapes (env : Env) (user : User) (id : Id) (db : Db) :
  sinSolapes (vacations db) -> sinSolapes (vacations (snd (approve env user id db))).
Proof.
  intros Hinv. unfold approve.
  destruct (negb _); [exact Hinv|].
  destruct (vacations db !! id) as [v|] eqn:Hv; [|exact Hinv].
  destruct (Estado_eqb (estado v) pendiente) eqn:Hest; [|exact Hinv]. cbn [negb].
  apply Estado_eqb_eq in Hest.
  destruct (save _ _ _ _ _) as [[saved vs]|] eqn:Hsave; [|exact Hinv].
  apply save_Some in Hsave as [-> ->]. cbn [snd conVacations vacations].
  apply (sinSolapes_replace _ _ v); try assumption;
    rewrite ?preSaveDias_empleado, ?preSaveDias_fechaInicio, ?preSaveDias_fechaFin;
    try reflexivity.
  intros _. now rewrite Hest.
Qed.

Lemma reject_keeps_sinSolapes (env : Env) (user : User) (id : Id)
  (m : option string) (db : Db) :
  sinSolapes (vacations db) -> sinSolapes (vacations (snd (reject env user id m db))).
Proof.
  intros Hinv. unfold reject.
  destruct (negb _); [exact Hinv|].
  destruct (negb _); [exact Hinv|].
  destruct (vacations db !! id) as [v|] eqn:Hv; [|exact Hinv].
  destruct (negb _); [exact Hinv|].
  destruct (save _ _ _ _ _) as [[saved vs]|] eqn:Hsave; [|exact Hinv].
  apply save_Some in Hsave as [-> ->]. cbn [snd conVacations vacations].
  apply (sinSolapes_replace _ _ v); try assumption;
    rewrite ?preSaveDias_empleado, ?preSaveDias_fechaInicio, ?preSaveDias_fechaFin,
      ?preSaveDias_estado;
    try reflexivity.
  intros H. discriminate H.
Qed.

Lemma cancel_keeps_sinSolapes (env : Env) (user : User) (id : Id) (db : Db) :
  sinSolapes (vacations db) -> sinSolapes (vacations (snd (cancel env user id db))).
Proof.
  intros Hinv. unfold cancel.
  destruct (vacations db !! id) as [v|] eqn:Hv; [|exact Hinv].
  destruct (_ && _); [exact Hinv|].
  destruct (negb _); [exact Hinv|].
  destruct (save _ _ _ _ _) as [[saved vs]|] eqn:Hsave; [|exact Hinv].
  apply save_Some in Hsave as [-> ->]. cbn [snd conVacations vacations].
  apply (sinSolapes_replace _ _ v); try assumption;
    rewrite ?preSaveDias_empleado, ?preSaveDias_fechaInicio, ?preSaveDias_fechaFin,
      ?preSaveDias_estado;
    try reflexivity.
  intros H. discriminate H.
Qed.

(** Every sequence of create, approve, reject and cancel requests keeps
    the overlap invariant: these paths do check, or cannot create, an
    overlap. *)
Lemma serve_without_update_keeps_sinSolapes (rs : list Request) (db : Db) :
  forallb (fun r => negb (esUpdate r)) rs = true ->
  sinSolapes (vacations db) ->
  sinSolapes (vacations (serve rs db)).
Proof.
  unfold serve. revert db.
  induction rs as [|r rs IH]; intros db Hno Hinv; [exact Hinv|].
  cbn [forallb] in Hno. apply andb_true_iff in Hno as [Hr Hrs].
  cbn [fold_left]. apply IH; [exact Hrs|].
  destruct r as [env user b|user id u|env user id|env user id m|env user id];
    cbn [handle]; try discriminate Hr.
  - now apply create_keeps_sinSolapes.
  - now apply approve_keeps_sinSolapes.
  - now apply reject_keeps_sinSolapes.
  - now apply cancel_keeps_sinSolapes.
Qed.

(** C1, on the code: update writes new dates without any overlap
    check.  After Ana's two creates the invariant holds; her update of
    the second, still pendiente, request to start on 2024-07-15 is
    answered 200, and the database then holds two pendiente documents
    of employee 1, 2024-07-10 to 2024-07-20 and 2024-07-15 to
    2024-08-10, that overlap: the invariant is broken. *)
Theorem update_breaks_overlap_invariant :
  let db := serve dosSolicitudes (dbCon ∅) in
  let db' := serve (dosSolicitudes ++ [adelantarSegunda]) (dbCon ∅) in
  let a := documento 1 (utc 2024 7 10) (utc 2024 7 20) pendiente in
  let b := set_modificadoPor (Some 1%nat)
             (set_fechaInicio (utc 2024 7 15)
                (documento 1 (utc 2024 8 1) (utc 2024 8 10) pendiente)) in
  sinSolapes (vacations db) /\
  update ana 101 (soloFechaInicio (utc 2024 7 15)) db = (Ok b, db') /\
  vacations db' !! 100%nat = Some a /\
  vacations db' !! 101%nat = Some b /\
  empleado a = empleado b /\
  estado a = pendiente /\ estado b = pendiente /\
  intervalsOverlap (fechaInicio a) (fechaFin a) (fechaInicio b) (fechaFin b) = true /\
  ~ sinSolapes (vacations db').
Proof.
  intros db db' a b.
  assert (Ha : vacations db' !! 100%nat = Some a) by (vm_compute; reflexivity).
  assert (Hb : vacations db' !! 101%nat = Some b) by (vm_compute; reflexivity).
  split.
  { apply serve_without_update_keeps_sinSolapes; [reflexivity|apply sinSolapes_empty]. }
  split; [vm_compute; reflexivity|].
  split; [exact Ha|]. split; [exact Hb|].
  split; [reflexivity|]. split; [reflexivity|]. split; [reflexivity|].
  split; [reflexivity|].
  intros Hinv.
  specialize (Hinv 100%nat 101%nat a b ltac:(discriminate) Ha Hb eq_refl eq_refl eq_refl).
  discriminate Hinv.
Qed.

(** ** Which requests create accepts *)

Lemma save_new_inv (ahora : Z) (self : Id)
  (this : Vacation) (vs : gmap nat Vacation) (r : Vacation * gmap nat Vacation) :
  save ahora true self this vs = Some r ->
  validarDocumento this = true /\ ahora <= fechaInicio this /\ vs !! self = None.
Proof.
  unfold save. intros H.
  destruct (validarDocumento this); [|discriminate H]. cbn [negb] in H.
  unfold preSaveValidaciones in H. rewrite preSaveDias_fechaInicio in H.
  cbn [andb] in H.
  destruct (fechaInicio this <? ahora) eqn:Hpast; [discriminate H|].
  apply Z.ltb_ge in Hpast.
  destruct (negb _); [discriminate H|].
  destruct (vs !! self); [discriminate H|].
  auto.
Qed.

(** What the success of [POST /] says about the request. *)
Lemma create_Ok_iff (env : Env) (user : User) (b : CreateBody) (db : Db) :
  (exists (i : Id) (v : Vacation) (db' : Db), create env user b db = (Ok (i, v), db'))
  <-> createAceptable env user b db.
Proof.
  split.
  - intros (i & v & db' & Hcreate). unfold create in Hcreate. cbv zeta in Hcreate.
    destruct (validarCreate b) eqn:Hval; [|discriminate Hcreate].
    destruct (userExists db (empleadoIdDe user b)) eqn:Huser; [|discriminate Hcreate].
    cbn [negb] in Hcreate.
    assert (Hreemp : forall r : Id, b_reemplazo b = Some r -> userExists db r = true).
    { intros r Hr. rewrite Hr in Hcreate.
      destruct (userExists db r); [reflexivity|discriminate Hcreate]. }
    destruct (match b_reemplazo b with Some _ => _ | None => _ end);
      [discriminate Hcreate|].
    destruct (b_fechaFin b <=? b_fechaInicio b) eqn:Hfechas; [discriminate Hcreate|].
    apply Z.leb_gt in Hfechas.
    destruct (findOne _ _) eqn:Hnone; [discriminate Hcreate|].
    destruct (save _ _ _ _ _) as [r|] eqn:Hsave; [|discriminate Hcreate].
    apply save_new_inv in Hsave as (Hvalid & Hnow & Hfresh).
    unfold validarDocumento in Hvalid. rewrite !andb_true_iff in Hvalid.
    destruct Hvalid as [[_ Hds] Hdh].
    repeat split; assumption.
  - intros Hok. eexists _, _, _. apply create_ok. exact Hok.
Qed.

(** X1: [POST /] answers 201 exactly for the requests described by
    [createAceptable]: a valid body, an existing employee and
    replacement, fechaFin after fechaInicio, no active document of the
    employee that overlaps, fechaInicio not before now, supplied day
    counts within the schema's bounds and an unused id. *)
Theorem create_accepts_exactly (env : Env) (user : User) (b : CreateBody) (db : Db) :
  (exists (i : Id) (v : Vacation) (db' : Db), create env user b db = (Ok (i, v), db'))
  <-> createAceptable env user b db.
Proof.
  split.
  - intros Hcreated. apply create_Ok_iff. exact Hcreated.
  - intros Hok. exists (newId env), (creada env user b),
      (conVacations (<[newId env := creada env user b]> (vacations db)) db).
    apply create_ok. exact Hok.
Qed.

(** ** What a request does to the database *)

Lemma preSaveDias_creadoPor a v : creadoPor (preSaveDias a v) = creadoPor v.
Proof. unfold preSaveDias. case_ifs; reflexivity. Qed.

Lemma preSaveDias_tipoVacacion a v : tipoVacacion (preSaveDias a v) = tipoVacacion v.
Proof. unfold preSaveDias. case_ifs; reflexivity. Qed.

Lemma preSaveDias_motivo a v : motivo (preSaveDias a v) = motivo v.
Proof. unfold preSaveDias. case_ifs; reflexivity. Qed.

Lemma preSaveDias_modificadoPor a v : modificadoPor (preSaveDias a v) = modificadoPor v.
Proof. unfold preSaveDias. case_ifs; reflexivity. Qed.

Lemma puedeActuar_test (user : User) (v : Vacation) :
  esEmpleado user && negb (Nat.eqb (empleado v) (_id user)) = false <-> puedeActuar user v.
Proof. unfold puedeActuar. rewrite andb_false_iff, negb_false_iff, Nat.eqb_eq. tauto. Qed.

(** Every request either fails and leaves the database as it was, or
    succeeds and writes exactly one document. *)
Lemma handle_cases (db : Db) (r : Request) :
  (exists e, respuesta db r = Some e /\ handle db r = db) \/
  (respuesta db r = None /\
   exists (id : Id) (antes : option Vacation) (despues : Vacation),
     escribe db r id antes despues /\
     handle db r = conVacations (<[id := despues]> (vacations db)) db).
Proof.
  destruct r as [env user b|user id u|env user id|env user id m|env user id];
    cbn [respuesta handle].
  - (* create *)
    destruct (create env user b db) as [[[i v]|e] db'] eqn:Hcreate.
    + right. split; [reflexivity|].
      assert (Hok : createAceptable env user b db)
        by (apply create_Ok_iff; eauto).
      rewrite (create_ok env user b db Hok) in Hcreate.
      injection Hcreate as <- <- <-.
      exists (newId env), None, (creada env user b).
      split; [|reflexivity].
      split; [apply Hok|]. auto.
    + left. exists e. split; [reflexivity|]. cbn [snd].
      unfold create in Hcreate. cbv zeta in Hcreate.
      destruct (negb (validarCreate b)); [injection Hcreate as _ <-; reflexivity|].
      destruct (negb (userExists db _)); [injection Hcreate as _ <-; reflexivity|].
      destruct (match b_reemplazo b with Some _ => _ | None => _ end);
        [injection Hcreate as _ <-; reflexivity|].
      destruct (b_fechaFin b <=? b_fechaInicio b);
        [injection Hcreate as _ <-; reflexivity|].
      destruct (findOne _ _); [injection Hcreate as _ <-; reflexivity|].
      destruct (save _ _ _ _ _) as [[? ?]|];
        [discriminate Hcreate|injection Hcreate as _ <-; reflexivity].
  - (* update *)
    unfold update.
    destruct (negb (validarUpdate u)); [left; eexists; split; reflexivity|].
    destruct (vacations db !! id) as [v|] eqn:Hv; [|left; eexists; split; reflexivity].
    destruct (Estado_eqb (estado v) pendiente) eqn:Hest;
      [|left; eexists; split; reflexivity].
    apply Estado_eqb_eq in Hest. cbn [negb].
    destruct (esEmpleado user && negb (Nat.eqb (empleado v) (_id user))) eqn:Hacc;
      [left; eexists; split; reflexivity|].
    apply puedeActuar_test in Hacc.
    destruct (match u_reemplazo u with Some _ => _ | None => _ end);
      [left; eexists; split; reflexivity|].
    destruct (negb (validarUpdateQuery u)); [left; eexists; split; reflexivity|].
    right. split; [reflexivity|].
    exists id, (Some v), (aplicarUpdate user u v).
    split; [|reflexivity]. split; [exact Hv|]. split; [reflexivity|].
    exists v. auto.
  - (* approve *)
    unfold approve.
    destruct (authorizeRoles [rol_admin; rol_rrhh] user) eqn:Hu;
      [|left; eexists; split; reflexivity].
    cbn [negb].
    destruct (vacations db !! id) as [v|] eqn:Hv; [|left; eexists; split; reflexivity].
    destruct (Estado_eqb (estado v) pendiente) eqn:Hest;
      [|left; eexists; split; reflexivity].
    apply Estado_eqb_eq in Hest. cbn [negb].
    destruct (save _ _ _ _ _) as [[saved vs]|] eqn:Hsave;
      [|left; eexists; split; reflexivity].
    apply save_Some in Hsave as [-> ->].
    right. split; [reflexivity|].
    exists id, (Some v), (aprobar env user v).
    split; [|cbn [snd]; unfold aprobar; reflexivity]. split; [exact Hv|]. split; [reflexivity|].
    exists v. auto.
  - (* reject *)
    unfold reject.
    destruct (authorizeRoles [rol_admin; rol_rrhh] user) eqn:Hu;
      [|left; eexists; split; reflexivity].
    cbn [negb].
    destruct (validarReject m) eqn:Hm; [|left; eexists; split; reflexivity].
    cbn [negb].
    destruct (vacations db !! id) as [v|] eqn:Hv; [|left; eexists; split; reflexivity].
    destruct (Estado_eqb (estado v) pendiente) eqn:Hest;
      [|left; eexists; split; reflexivity].
    apply Estado_eqb_eq in Hest. cbn [negb].
    destruct (save _ _ _ _ _) as [[saved vs]|] eqn:Hsave;
      [|left; eexists; split; reflexivity].
    apply save_Some in Hsave as [-> ->].
    right. split; [reflexivity|].
    exists id, (Some v), (rechazar env user m v).
    split; [|cbn [snd]; unfold rechazar; reflexivity]. split; [exact Hv|]. split; [reflexivity|].
    exists v. auto.
  - (* cancel *)
    unfold cancel.
    destruct (vacations db !! id) as [v|] eqn:Hv; [|left; eexists; split; reflexivity].
    destruct (esEmpleado user && negb (Nat.eqb (empleado v) (_id user))) eqn:Hacc;
      [left; eexists; split; reflexivity|].
    apply puedeActuar_test in Hacc.
    destruct (existsb (Estado_eqb (estado v)) [pendiente; aprobada]) eqn:Hest;
      [|left; eexists; split; reflexivity].
    cbn [negb].
    destruct (save _ _ _ _ _) as [[saved vs]|] eqn:Hsave;
      [|left; eexists; split; reflexivity].
    apply save_Some in Hsave as [-> ->].
    right. split; [reflexivity|].
    exists id, (Some v), (cancelar env user v).
    split; [|cbn [snd]; unfold cancelar; reflexivity]. split; [exact Hv|]. split; [reflexivity|].
    exists v. repeat split; auto.
    destruct (estado v); try discriminate Hest; auto.
Qed.

Lemma escribe_existing (db : Db) (r : Request) (id : Id) (v v' : Vacation) :
  escribe db r id (Some v) v' ->
  match r with
  | ReqCreate _ _ _ => False
  | ReqUpdate user _ u =>
      estado v = pendiente /\ puedeActuar user v /\ v' = aplicarUpdate user u v
  | ReqApprove env user _ =>
      estado v = pendiente /\ elevado user /\ v' = aprobar env user v
  | ReqReject env user _ m =>
      estado v = pendiente /\ elevado user /\ v' = rechazar env user m v
  | ReqCancel env user _ =>
      (estado v = pendiente \/ estado v = aprobada) /\ puedeActuar user v /\
      v' = cancelar env user v
  end.
Proof.
  intros [_ H].
  destruct r as [env user b|user id0 u|env user id0|env user id0 m|env user id0].
  - destruct H as (_ & Hnone & _). discriminate Hnone.
  - destruct H as (_ & w & Hw & ? & ? & ?). injection Hw as <-. auto.
  - destruct H as (_ & w & Hw & ? & ? & ?). injection Hw as <-. auto.
  - destruct H as (_ & w & Hw & ? & ? & ? & ?). injection Hw as <-. auto.
  - destruct H as (_ & w & Hw & ? & ? & ?). injection Hw as <-. auto.
Qed.

(** The document under [id] after a request: the one written, if the
    request wrote to [id], and the one that was there otherwise. *)
Lemma handle_lookup (db : Db) (r : Request) (id : Id) (v : Vacation) :
  vacations db !! id = Some v ->
  vacations (handle db r) !! id = Some v \/
  exists v', respuesta db r = None /\ escribe db r id (Some v) v' /\
             vacations (handle db r) !! id = Some v'.
Proof.
  intros Hv.
  destruct (handle_cases db r) as [(e & _ & ->)|(Hok & id0 & antes & despues & Hw & ->)];
    [left; exact Hv|].
  cbn [conVacations vacations].
  destruct (Nat.eq_dec id0 id) as [->|Hne].
  - right. exists despues. rewrite lookup_insert_eq.
    pose proof (proj1 Hw) as Hantes. rewrite Hv in Hantes. subst antes. auto.
  - left. rewrite lookup_insert_ne by exact Hne. exact Hv.
Qed.

(** X2: A request that is answered with an error writes nothing. *)
Theorem failed_request_writes_nothing (db : Db) (r : Request) (e : Error) :
  respuesta db r = Some e -> handle db r = db.
Proof.
  intros Hfail.
  destruct (handle_cases db r) as [(e' & _ & Hsame)|(Hok & _)]; [exact Hsame|].
  rewrite Hok in Hfail. discriminate Hfail.
Qed.

Lemma failed_request_writes_nothing_witness :
  let db := dbCon (unDocumento 100 (documento 1 (utc 2024 7 15) (utc 2024 7 29) rechazada)) in
  let r := ReqCancel (mkEnv (utc 2024 7 1) 101) ana 100 in
  respuesta db r = Some EstadoInvalido /\ handle db r = db.
Proof.
  intros db r. split; [reflexivity|].
  exact (failed_request_writes_nothing db r EstadoInvalido eq_refl).
Defined.

(** X3: No sequence of requests deletes a document, and no sequence of
    create, approve, reject and cancel requests changes the employee,
    the creator, the dates, the type, the reason or the vacation year
    of a document. *)
Theorem requests_keep_documents (rs : list Request) (db : Db) (id : Id) (v : Vacation) :
  vacations db !! id = Some v ->
  exists v' : Vacation,
    vacations (serve rs db) !! id = Some v' /\
    (forallb (fun r => negb (esUpdate r)) rs = true ->
     empleado v' = empleado v /\ creadoPor v' = creadoPor v /\
     fechaInicio v' = fechaInicio v /\ fechaFin v' = fechaFin v /\
     tipoVacacion v' = tipoVacacion v /\ motivo v' = motivo v /\
     anoVacacional v' = anoVacacional v).
Proof.
  unfold serve. revert db v.
  induction rs as [|r rs IH]; intros db v Hv.
  - exists v. split; [exact Hv|]. intros _. repeat split.
  - cbn [fold_left forallb].
    destruct (handle_lookup db r id v Hv) as [Hsame|(w & _ & Hw & Hlookup)].
    + destruct (IH _ _ Hsame) as (v' & Hv' & Hkeep). exists v'.
      split; [exact Hv'|]. intros Hno. apply andb_true_iff in Hno as [_ Hno]. auto.
    + destruct (IH _ _ Hlookup) as (v' & Hv' & Hkeep). exists v'.
      split; [exact Hv'|]. intros Hno. apply andb_true_iff in Hno as [Hr Hno].
      destruct (Hkeep Hno) as (-> & -> & -> & -> & -> & -> & ->).
      apply escribe_existing in Hw.
      destruct r as [env user b|user id0 u|env user id0|env user id0 m|env user id0];
        try discriminate Hr; try contradiction;
        destruct Hw as (_ & _ & ->); unfold aprobar, rechazar, cancelar;
        rewrite preSaveDias_empleado, preSaveDias_creadoPor, preSaveDias_fechaInicio,
          preSaveDias_fechaFin, preSaveDias_tipoVacacion, preSaveDias_motivo,
          preSaveDias_anoVacacional;
        repeat split.
Qed.

Lemma requests_keep_documents_witness :
  let v := documento 1 (utc 2024 7 15) (utc 2024 7 29) pendiente in
  let db := dbCon (unDocumento 100 v) in
  let rs := [ ReqApprove (mkEnv (utc 2024 7 1) 101) rosa 100;
              ReqCancel (mkEnv (utc 2024 7 2) 102) ana 100 ] in
  vacations db !! 100%nat = Some v /\
  exists v' : Vacation,
    vacations (serve rs db) !! 100%nat = Some v' /\
    empleado v' = 1%nat /\ fechaInicio v' = utc 2024 7 15 /\ fechaFin v' = utc 2024 7 29.
Proof.
  intros v db rs. split; [reflexivity|].
  destruct (requests_keep_documents rs db 100 v eq_refl) as (v' & Hv' & Hkeep).
  exists v'. split; [exact Hv'|].
  destruct (Hkeep eq_refl) as (He & _ & Hi & Hf & _). auto.
Defined.

(** X4: A document whose estado is rechazada, cancelada, en_curso or
    completada is never changed again, by any sequence of requests. *)
Theorem final_states_are_frozen (rs : list Request) (db : Db) (id : Id) (v : Vacation) :
  vacations db !! id = Some v ->
  estadoFinal (estado v) = true ->
  vacations (serve rs db) !! id = Some v.
Proof.
  intros Hv Hfinal. unfold serve. revert db Hv.
  induction rs as [|r rs IH]; intros db Hv; [exact Hv|].
  cbn [fold_left]. apply IH.
  destruct (handle_lookup db r id v Hv) as [Hsame|(w & _ & Hw & _)]; [exact Hsame|].
  apply escribe_existing in Hw.
  destruct r as [env user b|user id0 u|env user id0|env user id0 m|env user id0];
    try contradiction; destruct Hw as (Hest & _);
    try (rewrite Hest in Hfinal; discriminate Hfinal).
  destruct Hest as [Hest|Hest]; rewrite Hest in Hfinal; discriminate Hfinal.
Qed.

Lemma final_states_are_frozen_witness :
  let v := documento 1 (utc 2024 7 15) (utc 2024 7 29) cancelada in
  let db := dbCon (unDocumento 100 v) in
  let rs := [ ReqApprove (mkEnv (utc 2024 7 1) 101) rosa 100;
              ReqUpdate ana 100 (soloFechaInicio (utc 2024 7 16));
              ReqReject (mkEnv (utc 2024 7 2) 102) rosa 100 (Some "No"%string) ] in
  vacations db !! 100%nat = Some v /\ estadoFinal (estado v) = true /\
  vacations (serve rs db) !! 100%nat = Some v.
Proof.
  intros v db rs. split; [reflexivity|]. split; [reflexivity|].
  exact (final_states_are_frozen rs db 100 v eq_refl eq_refl).
Defined.

(** X5: The state machine of approve, reject, cancel and create: when one
    of these requests changes the estado of a document, the change is
    pendiente to aprobada or rechazada, made by an admin or RRHH, or
    pendiente or aprobada to cancelada, made by an admin, RRHH or the
    employee of the document. *)
Theorem estado_transitions (db : Db) (r : Request) (id : Id) (v v' : Vacation) :
  esUpdate r = false ->
  vacations db !! id = Some v ->
  vacations (handle db r) !! id = Some v' ->
  estado v' <> estado v ->
  transicion (estado v) (estado v') = true /\
  (estado v' = cancelada -> puedeActuar (solicitante r) v) /\
  (estado v' <> cancelada -> elevado (solicitante r)).
Proof.
  intros Hr Hv Hv' Hchange.
  destruct (handle_lookup db r id v Hv) as [Hsame|(w & _ & Hw & Hlookup)].
  { rewrite Hsame in Hv'. injection Hv' as <-. now contradiction Hchange. }
  rewrite Hlookup in Hv'. injection Hv' as <-.
  apply escribe_existing in Hw.
  destruct r as [env user b|user id0 u|env user id0|env user id0 m|env user id0];
    try discriminate Hr; try contradiction; cbn [solicitante].
  - destruct Hw as (Hest & Hel & ->). unfold aprobar.
    rewrite preSaveDias_estado, Hest. cbn.
    split; [reflexivity|]. split; [discriminate|auto].
  - destruct Hw as (Hest & Hel & ->). unfold rechazar.
    rewrite preSaveDias_estado, Hest. cbn.
    split; [reflexivity|]. split; [discriminate|auto].
  - destruct Hw as (Hest & Hcan & ->). unfold cancelar.
    rewrite preSaveDias_estado. cbn.
    split; [destruct Hest as [-> | ->]; reflexivity|].
    split; [auto|]. intros Hne. now contradiction Hne.
Qed.

Lemma estado_transitions_witness :
  let v := documento 1 (utc 2024 7 15) (utc 2024 7 29) pendiente in
  let db := dbCon (unDocumento 100 v) in
  let r := ReqApprove (mkEnv (utc 2024 7 1) 101) rosa 100 in
  exists v' : Vacation,
    vacations (handle db r) !! 100%nat = Some v' /\
    estado v' = aprobada /\
    transicion (estado v) (estado v') = true /\
    elevado (solicitante r).
Proof.
  intros v db r.
  set (v' := aprobar (mkEnv (utc 2024 7 1) 101) rosa v).
  assert (Hv' : vacations (handle db r) !! 100%nat = Some v')
    by (vm_compute; reflexivity).
  assert (Hest : estado v' = aprobada) by (vm_compute; reflexivity).
  assert (Hchange : estado v' <> estado v) by (rewrite Hest; discriminate).
  exists v'. split; [exact Hv'|]. split; [exact Hest|].
  destruct (estado_transitions db r 100 v v' eq_refl eq_refl Hv' Hchange)
    as (Ht & _ & Hel).
  split; [exact Ht|]. apply Hel. rewrite Hest. discriminate.
Defined.

(** X6: A requester with role empleado changes no document of another
    employee, whatever the request. *)
Theorem employees_cannot_touch_others (db : Db) (r : Request) (id : Id) (v : Vacation) :
  esEmpleado (solicitante r) = true ->
  vacations db !! id = Some v ->
  empleado v <> _id (solicitante r) ->
  vacations (handle db r) !! id = Some v.
Proof.
  intros Hrole Hv Hother.
  destruct (handle_lookup db r id v Hv) as [Hsame|(w & _ & Hw & _)]; [exact Hsame|].
  apply escribe_existing in Hw.
  assert (Hno : ~ puedeActuar (solicitante r) v).
  { intros [H|H]; [rewrite H in Hrole; discriminate Hrole|contradiction]. }
  assert (Hnel : ~ elevado (solicitante r)).
  { unfold elevado, authorizeRoles, esEmpleado in *.
    destruct (role (solicitante r)); cbn; try discriminate Hrole. discriminate. }
  destruct r as [env user b|user id0 u|env user id0|env user id0 m|env user id0];
    cbn [solicitante] in *; try contradiction;
    destruct Hw as (_ & Hw & _); contradiction.
Qed.

Lemma employees_cannot_touch_others_witness :
  let v := documento 1 (utc 2024 7 15) (utc 2024 7 29) pendiente in
  let db := dbCon (unDocumento 100 v) in
  let r := ReqCancel (mkEnv (utc 2024 7 1) 101) beto 100 in
  esEmpleado (solicitante r) = true /\ vacations db !! 100%nat = Some v /\
  empleado v <> _id (solicitante r) /\
  vacations (handle db r) !! 100%nat = Some v.
Proof.
  intros v db r.
  assert (Hother : empleado v <> _id (solicitante r)) by discriminate.
  split; [reflexivity|]. split; [reflexivity|]. split; [exact Hother|].
  exact (employees_cannot_touch_others db r 100 v eq_refl eq_refl Hother).
Defined.

(** ** Approval of a request that conflicts *)

(** X7: Approving a pendiente document that overlaps another active
    document of the same employee (a state that only update can
    produce) is answered 500 by the save middleware, and nothing is
    written. *)
Theorem approve_conflict_is_internal_error
  (env : Env) (user : User) (id j : Id) (v d : Vacation) (db : Db) :
  elevado user ->
  vacations db !! id = Some v ->
  estado v = pendiente ->
  j <> id ->
  vacations db !! j = Some d ->
  empleado d = empleado v ->
  estadoActivo (estado d) = true ->
  intervalsOverlap (fechaInicio v) (fechaFin v) (fechaInicio d) (fechaFin d) = true ->
  approve env user id db = (Fail ErrorInternoDelServidor, db).
Proof.
  intros Hu Hv Hest Hne Hd Hemp Hact Hov.
  unfold approve. unfold elevado in Hu. rewrite Hu, Hv, Hest. cbn [negb Estado_eqb].
  set (this := set_modificadoPor _ _).
  destruct (findOne_is_Some (solapaOtraQuery id (preSaveDias (now env) this))
              (vacations db) j d Hd) as [hit Hhit].
  { rewrite solapaOtraQuery_preSaveDias. unfold solapaOtraQuery.
    rewrite (proj2 (Nat.eqb_neq j id) Hne). cbn [negb andb].
    apply solapaQuery_spec. auto. }
  unfold save. destruct (validarDocumento this); [|reflexivity]. cbn [negb].
  unfold preSaveValidaciones. rewrite preSaveDias_estado. cbn [andb].
  change (estado this) with aprobada. cbn [Estado_eqb orb].
  rewrite Hhit. reflexivity.
Qed.

Lemma approve_conflict_is_internal_error_witness :
  let db := serve (dosSolicitudes ++ [adelantarSegunda]) (dbCon ∅) in
  let env := mkEnv (utc 2024 7 2) 102 in
  approve env rosa 101 db = (Fail ErrorInternoDelServidor, db) /\
  approve env rosa 100 db = (Fail ErrorInternoDelServidor, db).
Proof.
  intros db env.
  set (a := documento 1 (utc 2024 7 10) (utc 2024 7 20) pendiente).
  set (b := set_modificadoPor (Some 1%nat)
              (set_fechaInicio (utc 2024 7 15)
                 (documento 1 (utc 2024 8 1) (utc 2024 8 10) pendiente))).
  assert (Ha : vacations db !! 100%nat = Some a) by (vm_compute; reflexivity).
  assert (Hb : vacations db !! 101%nat = Some b) by (vm_compute; reflexivity).
  split.
  - apply (approve_conflict_is_internal_error env rosa 101 100 b a db);
      try reflexivity; try assumption. discriminate.
  - apply (approve_conflict_is_internal_error env rosa 100 101 a b db);
      try reflexivity; try assumption. discriminate.
Defined.

(** ** Update *)

Lemma update_ok (user : User) (id : Id) (u : UpdateBody) (db : Db) (v : Vacation) :
  updateAceptable user id u db v ->
  update user id u db =
  (Ok (aplicarUpdate user u v),
   conVacations (<[id := aplicarUpdate user u v]> (vacations db)) db).
Proof.
  intros (Hval & Hv & Hest & Hcan & Hreemp & Hq).
  unfold update. rewrite Hval, Hv, Hest, (proj2 (puedeActuar_test user v) Hcan), Hq.
  cbn [negb Estado_eqb].
  assert (Hr : match u_reemplazo u with
               | Some r => negb (userExists db r)
               | None => false
               end = false).
  { destruct (u_reemplazo u) as [r|]; [|reflexivity]. now rewrite (Hreemp r eq_refl). }
  now rewrite Hr.
Qed.

(** X8: [PUT /:id] answers 200 exactly for the updates described by
    [updateAceptable], and then stores the document with the paths of
    the body assigned and modificadoPor set to the requester. *)
Theorem update_accepts_exactly (user : User) (id : Id) (u : UpdateBody) (db : Db) :
  (forall (v' : Vacation) (db' : Db),
     update user id u db = (Ok v', db') ->
     exists v : Vacation,
       updateAceptable user id u db v /\
       v' = aplicarUpdate user u v /\
       vacations db' !! id = Some v' /\
       modificadoPor v' = Some (_id user)) /\
  (forall v : Vacation,
     updateAceptable user id u db v ->
     exists (v' : Vacation) (db' : Db), update user id u db = (Ok v', db')).
Proof.
  split.
  - intros v' db' Hup. unfold update in Hup.
    destruct (validarUpdate u) eqn:Hval; [|discriminate Hup]. cbn [negb] in Hup.
    destruct (vacations db !! id) as [v|] eqn:Hv; [|discriminate Hup].
    destruct (Estado_eqb (estado v) pendiente) eqn:Hest; [|discriminate Hup].
    apply Estado_eqb_eq in Hest. cbn [negb] in Hup.
    destruct (esEmpleado user && negb (Nat.eqb (empleado v) (_id user))) eqn:Hacc;
      [discriminate Hup|].
    apply puedeActuar_test in Hacc.
    assert (Hreemp : forall r : Id, u_reemplazo u = Some r -> userExists db r = true).
    { intros r Hr. rewrite Hr in Hup.
      destruct (userExists db r); [reflexivity|discriminate Hup]. }
    destruct (match u_reemplazo u with Some _ => _ | None => _ end);
      [discriminate Hup|].
    destruct (validarUpdateQuery u) eqn:Hq; [|discriminate Hup]. cbn [negb] in Hup.
    injection Hup as <- <-.
    exists v. split; [repeat split; assumption|].
    split; [reflexivity|]. split; [apply lookup_insert_eq|reflexivity].
  - intros v Hok. eexists _, _. apply update_ok. exact Hok.
Qed.

(** Reading a path of an updated document through the assignments that
    do not touch it. *)
Ltac through_patch :=
  repeat match goal with
         | |- context [?p (patch ?s ?x ?w)] =>
             replace (p (patch s x w)) with (p w) by (destruct x; reflexivity)
         end.

Lemma aplicarUpdate_diasSolicitados user u v :
  diasSolicitados (aplicarUpdate user u v) =
  match u_diasSolicitados u with Some x => Some x | None => diasSolicitados v end.
Proof.
  unfold aplicarUpdate. cbn [set_modificadoPor diasSolicitados]. through_patch.
  destruct (u_diasSolicitados u); cbn [patch]; [reflexivity|]. through_patch. reflexivity.
Qed.

Lemma aplicarUpdate_diasHabiles user u v :
  diasHabiles (aplicarUpdate user u v) =
  match u_diasHabiles u with Some x => Some x | None => diasHabiles v end.
Proof.
  unfold aplicarUpdate. cbn [set_modificadoPor diasHabiles]. through_patch.
  destruct (u_diasHabiles u); cbn [patch]; [reflexivity|]. through_patch. reflexivity.
Qed.

Lemma aplicarUpdate_estado user u v :
  estado (aplicarUpdate user u v) = default (estado v) (u_estado u).
Proof.
  unfold aplicarUpdate. cbn [set_modificadoPor estado]. through_patch.
  destruct (u_estado u); cbn [patch]; [reflexivity|]. through_patch. reflexivity.
Qed.

Lemma aplicarUpdate_fechaInicio user u v :
  fechaInicio (aplicarUpdate user u v) = default (fechaInicio v) (u_fechaInicio u).
Proof.
  unfold aplicarUpdate. cbn [set_modificadoPor fechaInicio]. through_patch.
  destruct (u_fechaInicio u); reflexivity.
Qed.

Lemma aplicarUpdate_fechaFin user u v :
  fechaFin (aplicarUpdate user u v) = default (fechaFin v) (u_fechaFin u).
Proof.
  unfold aplicarUpdate. cbn [set_modificadoPor fechaFin]. through_patch.
  destruct (u_fechaFin u); cbn [patch]; [reflexivity|]. through_patch. reflexivity.
Qed.

Lemma aplicarUpdate_aprobadoPor user u v :
  aprobadoPor (aplicarUpdate user u v) = aprobadoPor v.
Proof.
  unfold aplicarUpdate. cbn [set_modificadoPor aprobadoPor]. through_patch. reflexivity.
Qed.

Lemma aplicarUpdate_fechaAprobacion user u v :
  fechaAprobacion (aplicarUpdate user u v) = fechaAprobacion v.
Proof.
  unfold aplicarUpdate. cbn [set_modificadoPor fechaAprobacion]. through_patch. reflexivity.
Qed.

(** The first save middleware keeps the day counts that are set and
    not zero. *)
Lemma preSaveDias_keeps_counts a v :
  falsy (diasSolicitados v) = false -> falsy (diasHabiles v) = false ->
  diasSolicitados (preSaveDias a v) = diasSolicitados v /\
  diasHabiles (preSaveDias a v) = diasHabiles v.
Proof.
  intros Hs Hh. unfold preSaveDias. rewrite Hs, Hh. case_ifs; split; reflexivity.
Qed.

(** X9: Day counts are frozen: once a document has non-zero diasSolicitados
    and diasHabiles, no sequence of requests changes them unless an
    update names them; in particular a change of the dates does not
    recompute them, and neither does a later approval. *)
Theorem day_counts_are_frozen (rs : list Request) (db : Db) (id : Id) (v : Vacation) :
  forallb (fun r => negb (nombraDias r)) rs = true ->
  vacations db !! id = Some v ->
  falsy (diasSolicitados v) = false ->
  falsy (diasHabiles v) = false ->
  exists v' : Vacation,
    vacations (serve rs db) !! id = Some v' /\
    diasSolicitados v' = diasSolicitados v /\
    diasHabiles v' = diasHabiles v.
Proof.
  unfold serve. revert db v.
  induction rs as [|r rs IH]; intros db v Hno Hv Hs Hh.
  - exists v. auto.
  - cbn [fold_left forallb] in *. apply andb_true_iff in Hno as [Hr Hno].
    destruct (handle_lookup db r id v Hv) as [Hsame|(w & _ & Hw & Hlookup)].
    + now apply IH.
    + assert (Hkeep : diasSolicitados w = diasSolicitados v /\
                      diasHabiles w = diasHabiles v).
      { apply escribe_existing in Hw.
        destruct r as [env user b|user id0 u|env user id0|env user id0 m|env user id0];
          try contradiction; destruct Hw as (_ & _ & ->).
        - cbn [nombraDias] in Hr. rewrite negb_involutive in Hr.
          apply andb_true_iff in Hr as [Hus Huh].
          rewrite aplicarUpdate_diasSolicitados, aplicarUpdate_diasHabiles.
          destruct (u_diasSolicitados u); [discriminate Hus|].
          destruct (u_diasHabiles u); [discriminate Huh|]. auto.
        - unfold aprobar.
          match goal with
          | |- context [preSaveDias ?a ?w] =>
              destruct (preSaveDias_keeps_counts a w) as [-> ->];
                [exact Hs|exact Hh|split; reflexivity]
          end.
        - unfold rechazar.
          match goal with
          | |- context [preSaveDias ?a ?w] =>
              destruct (preSaveDias_keeps_counts a w) as [-> ->];
                [exact Hs|exact Hh|split; reflexivity]
          end.
        - unfold cancelar.
          match goal with
          | |- context [preSaveDias ?a ?w] =>
              destruct (preSaveDias_keeps_counts a w) as [-> ->];
                [exact Hs|exact Hh|split; reflexivity]
          end. }
      destruct Hkeep as [Hks Hkh].
      destruct (IH _ w Hno Hlookup) as (v' & Hv' & Hs' & Hh');
        [now rewrite Hks|now rewrite Hkh|].
      exists v'. split; [exact Hv'|]. split; congruence.
Qed.

Lemma day_counts_are_frozen_witness :
  let db := serve dosSolicitudes (dbCon ∅) in
  let v := documento 1 (utc 2024 8 1) (utc 2024 8 10) pendiente in
  let rs := [ adelantarSegunda; ReqCancel (mkEnv (utc 2024 7 2) 102) ana 100;
              ReqApprove (mkEnv (utc 2024 7 3) 103) rosa 101 ] in
  vacations db !! 101%nat = Some v /\
  exists v' : Vacation,
    vacations (serve rs db) !! 101%nat = Some v' /\
    fechaInicio v' = utc 2024 7 15 /\ fechaFin v' = utc 2024 8 10 /\
    estado v' = aprobada /\
    diasSolicitados v' = Some 10 /\ diasHabiles v' = Some 7 /\
    diasTotales (fechaInicio v') (fechaFin v') = 27.
Proof.
  intros db v rs.
  assert (Hv : vacations db !! 101%nat = Some v) by (vm_compute; reflexivity).
  split; [exact Hv|].
  destruct (day_counts_are_frozen rs db 101 v eq_refl Hv eq_refl eq_refl)
    as (v' & Hv' & Hs & Hh).
  exists v'. split; [exact Hv'|].
  set (w := aprobar (mkEnv (utc 2024 7 3) 103) rosa
              (aplicarUpdate ana (soloFechaInicio (utc 2024 7 15)) v)).
  assert (Hcalc : vacations (serve rs db) !! 101%nat = Some w)
    by (vm_compute; reflexivity).
  assert (Heq : v' = w) by congruence.
  assert (Hi : fechaInicio w = utc 2024 7 15) by (vm_compute; reflexivity).
  assert (Hf : fechaFin w = utc 2024 8 10) by (vm_compute; reflexivity).
  assert (He : estado w = aprobada) by (vm_compute; reflexivity).
  assert (Hds : diasSolicitados v = Some 10) by (vm_compute; reflexivity).
  assert (Hdh : diasHabiles v = Some 7) by (vm_compute; reflexivity).
  rewrite Hs, Hh, Heq, Hi, Hf, He, Hds, Hdh.
  repeat split; vm_compute; reflexivity.
Defined.

(** X10: An update whose body names fechaFin is never accepted and
    writes nothing, whatever the value: the schema's validator of
    fechaFin, [value > this.fechaInicio], runs as an update validator,
    where [this.fechaInicio] is undefined.  When the request passes
    the checks that come before the write (a valid body, a pendiente
    document the requester may act on, an existing replacement) the
    answer is 500, also when the new fechaFin is after the fechaInicio
    of the document and after the fechaInicio of the body, a value that
    the same validator accepts when the document is saved. *)
Theorem update_of_fechaFin_always_fails
  (user : User) (id : Id) (u : UpdateBody) (db : Db) (fin : Z) :
  u_fechaFin u = Some fin ->
  (exists e : Error, update user id u db = (Fail e, db)) /\
  (forall v : Vacation,
     validarUpdate u = true ->
     vacations db !! id = Some v ->
     estado v = pendiente ->
     puedeActuar user v ->
     (forall r : Id, u_reemplazo u = Some r -> userExists db r = true) ->
     update user id u db = (Fail ErrorInternoDelServidor, db) /\
     (fechaInicio (aplicarUpdate user u v) < fin ->
      fechaFinValidator (Some (fechaInicio (aplicarUpdate user u v)))
        (fechaFin (aplicarUpdate user u v)) = true)).
Proof.
  intros Hfin.
  assert (Hq : validarUpdateQuery u = false).
  { unfold validarUpdateQuery. rewrite Hfin.
    unfold fechaFinValidator, fechaInicioDeLaQuery, mayorQue. reflexivity. }
  split.
  - unfold update. rewrite Hq. cbn [negb].
    destruct (negb (validarUpdate u)); [eexists; reflexivity|].
    destruct (vacations db !! id) as [v|]; [|eexists; reflexivity].
    destruct (negb _); [eexists; reflexivity|].
    destruct (_ && _); [eexists; reflexivity|].
    destruct (match u_reemplazo u with Some _ => _ | None => _ end); eexists; reflexivity.
  - intros v Hval Hv Hest Hcan Hreemp. split.
    + unfold update.
      rewrite Hval, Hv, Hest, (proj2 (puedeActuar_test user v) Hcan), Hq.
      cbn [negb Estado_eqb].
      destruct (u_reemplazo u) as [r|]; [|reflexivity].
      now rewrite (Hreemp r eq_refl).
    + intros Hlt. rewrite aplicarUpdate_fechaFin, Hfin.
      unfold fechaFinValidator, mayorQue. cbn [default]. now apply Z.gtb_lt.
Qed.

Lemma update_of_fechaFin_always_fails_witness :
  let v := documento 1 (utc 2024 7 15) (utc 2024 7 29) pendiente in
  let db := dbCon (unDocumento 100 v) in
  let u := soloFechaFin (utc 2024 7 30) in
  u_fechaFin u = Some (utc 2024 7 30) /\
  validarUpdate u = true /\ vacations db !! 100%nat = Some v /\
  estado v = pendiente /\ puedeActuar ana v /\
  validarDocumento (aplicarUpdate ana u v) = true /\
  update ana 100 u db = (Fail ErrorInternoDelServidor, db).
Proof.
  intros v db u.
  assert (Hcan : puedeActuar ana v) by (right; reflexivity).
  split; [reflexivity|]. split; [reflexivity|]. split; [reflexivity|].
  split; [reflexivity|]. split; [exact Hcan|]. split; [vm_compute; reflexivity|].
  refine (proj1 (proj2 (update_of_fechaFin_always_fails ana 100 u db (utc 2024 7 30)
                          eq_refl) v eq_refl eq_refl eq_refl Hcan _)).
  intros r Hr. discriminate Hr.
Defined.

(** X11: An accepted update whose body carries an estado stores that estado,
    and leaves aprobadoPor and fechaAprobacion as they were; so the
    employee of a pendiente request, who is refused by approve, can
    make it aprobada through [PUT /:id]. *)
Theorem update_sets_any_estado
  (user : User) (id : Id) (u : UpdateBody) (db : Db) (v : Vacation) (e : Estado) :
  updateAceptable user id u db v ->
  u_estado u = Some e ->
  (exists (v' : Vacation) (db' : Db),
     update user id u db = (Ok v', db') /\
     vacations db' !! id = Some v' /\
     estado v' = e /\
     aprobadoPor v' = aprobadoPor v /\
     fechaAprobacion v' = fechaAprobacion v) /\
  (esEmpleado user = true ->
   forall env : Env, approve env user id db = (Fail AccesoDenegado, db)).
Proof.
  intros Hok He. split.
  - exists (aplicarUpdate user u v),
      (conVacations (<[id := aplicarUpdate user u v]> (vacations db)) db).
    split; [apply update_ok; exact Hok|].
    split; [apply lookup_insert_eq|].
    rewrite aplicarUpdate_estado, aplicarUpdate_aprobadoPor,
      aplicarUpdate_fechaAprobacion, He. auto.
  - intros Hrole env. unfold approve, authorizeRoles, esEmpleado in *.
    destruct (role user); try discriminate Hrole. reflexivity.
Qed.

Lemma update_sets_any_estado_witness :
  let v := documento 1 (utc 2024 7 15) (utc 2024 7 29) pendiente in
  let db := dbCon (unDocumento 100 v) in
  updateAceptable ana 100 (soloEstado aprobada) db v /\
  approve (mkEnv (utc 2024 7 1) 101) ana 100 db = (Fail AccesoDenegado, db) /\
  exists (v' : Vacation) (db' : Db),
    update ana 100 (soloEstado aprobada) db = (Ok v', db') /\
    vacations db' !! 100%nat = Some v' /\
    estado v' = aprobada /\ aprobadoPor v' = None /\ fechaAprobacion v' = None.
Proof.
  intros v db.
  assert (Hok : updateAceptable ana 100 (soloEstado aprobada) db v).
  { repeat split; try reflexivity; try (intros r Hr; discriminate Hr).
    right. reflexivity. }
  destruct (update_sets_any_estado ana 100 (soloEstado aprobada) db v aprobada Hok eq_refl)
    as [Hset Hrefused].
  split; [exact Hok|]. split; [exact (Hrefused eq_refl _)|]. exact Hset.
Defined.

Lemma update_accepts_exactly_witness :
  let v := documento 1 (utc 2024 7 15) (utc 2024 7 29) pendiente in
  let db := dbCon (unDocumento 100 v) in
  updateAceptable ana 100 (soloFechaInicio (utc 2024 7 16)) db v /\
  exists (v' : Vacation) (db' : Db),
    update ana 100 (soloFechaInicio (utc 2024 7 16)) db = (Ok v', db').
Proof.
  intros v db.
  assert (Hok : updateAceptable ana 100 (soloFechaInicio (utc 2024 7 16)) db v).
  { repeat split; try reflexivity; try (intros r Hr; discriminate Hr).
    right. reflexivity. }
  split; [exact Hok|].
  exact (proj2 (update_accepts_exactly ana 100 (soloFechaInicio (utc 2024 7 16)) db) v Hok).
Defined.

Lemma create_accepts_exactly_witness :
  let env := mkEnv (utc 2024 7 1) 101 in
  let b := solicitud (utc 2024 7 15) (utc 2024 7 29) in
  createAceptable env ana b (dbCon ∅) /\
  exists (i : Id) (v : Vacation) (db' : Db), create env ana b (dbCon ∅) = (Ok (i, v), db').
Proof.
  intros env b.
  assert (Hok : createAceptable env ana b (dbCon ∅)).
  { repeat split; try reflexivity; try (intros r Hr; discriminate Hr).
    vm_compute. discriminate. }
  split; [exact Hok|].
  exact (proj2 (create_accepts_exactly env ana b (dbCon ∅)) Hok).
Defined.

Lemma Vacation_ext (v w : Vacation) :
  empleado v = empleado w -> fechaInicio v = fechaInicio w ->
  fechaFin v = fechaFin w -> tipoVacacion v = tipoVacacion w ->
  estado v = estado w -> motivo v = motivo w ->
  observaciones v = observaciones w -> aprobadoPor v = aprobadoPor w ->
  fechaAprobacion v = fechaAprobacion w -> motivoRechazo v = motivoRechazo w ->
  diasSolicitados v = diasSolicitados w -> diasHabiles v = diasHabiles w ->
  reemplazo v = reemplazo w ->
  instruccionesReemplazo v = instruccionesReemplazo w ->
  urgente v = urgente w -> anoVacacional v = anoVacacional w ->
  creadoPor v = creadoPor w -> modificadoPor v = modificadoPor w ->
  v = w.
Proof. destruct v, w. cbn. intros. subst. reflexivity. Qed.

Lemma aplicarUpdate_empleado user u v : empleado (aplicarUpdate user u v) = empleado v.
Proof.
  unfold aplicarUpdate. cbn [set_modificadoPor empleado]. through_patch. reflexivity.
Qed.

Lemma aplicarUpdate_creadoPor user u v : creadoPor (aplicarUpdate user u v) = creadoPor v.
Proof.
  unfold aplicarUpdate. cbn [set_modificadoPor creadoPor]. through_patch. reflexivity.
Qed.

Lemma aplicarUpdate_motivoRechazo user u v :
  motivoRechazo (aplicarUpdate user u v) = motivoRechazo v.
Proof.
  unfold aplicarUpdate. cbn [set_modificadoPor motivoRechazo]. through_patch. reflexivity.
Qed.

Lemma aplicarUpdate_modificadoPor user u v :
  modificadoPor (aplicarUpdate user u v) = Some (_id user).
Proof. reflexivity. Qed.

Lemma aplicarUpdate_tipoVacacion user u v :
  tipoVacacion (aplicarUpdate user u v) = default (tipoVacacion v) (u_tipoVacacion u).
Proof.
  unfold aplicarUpdate. cbn [set_modificadoPor tipoVacacion]. through_patch.
  destruct (u_tipoVacacion u); cbn [patch]; [reflexivity|]. through_patch. reflexivity.
Qed.

Lemma aplicarUpdate_motivo user u v :
  motivo (aplicarUpdate user u v) = default (motivo v) (Str.trim <$> u_motivo u).
Proof.
  unfold aplicarUpdate. cbn [set_modificadoPor motivo]. through_patch.
  destruct (u_motivo u); cbn [patch]; [reflexivity|]. through_patch. reflexivity.
Qed.

Lemma aplicarUpdate_observaciones user u v :
  observaciones (aplicarUpdate user u v) =
  match u_observaciones u with Some x => Some (Str.trim x) | None => observaciones v end.
Proof.
  unfold aplicarUpdate. cbn [set_modificadoPor observaciones]. through_patch.
  destruct (u_observaciones u); cbn [patch]; [reflexivity|]. through_patch. reflexivity.
Qed.

Lemma aplicarUpdate_reemplazo user u v :
  reemplazo (aplicarUpdate user u v) =
  match u_reemplazo u with Some x => Some x | None => reemplazo v end.
Proof.
  unfold aplicarUpdate. cbn [set_modificadoPor reemplazo]. through_patch.
  destruct (u_reemplazo u); cbn [patch]; [reflexivity|]. through_patch. reflexivity.
Qed.

Lemma aplicarUpdate_instruccionesReemplazo user u v :
  instruccionesReemplazo (aplicarUpdate user u v) =
  match u_instruccionesReemplazo u with
  | Some x => Some (Str.trim x)
  | None => instruccionesReemplazo v
  end.
Proof.
  unfold aplicarUpdate. cbn [set_modificadoPor instruccionesReemplazo]. through_patch.
  destruct (u_instruccionesReemplazo u); cbn [patch]; [reflexivity|].
  through_patch. reflexivity.
Qed.

Lemma aplicarUpdate_urgente user u v :
  urgente (aplicarUpdate user u v) = default (urgente v) (u_urgente u).
Proof.
  unfold aplicarUpdate. cbn [set_modificadoPor urgente]. through_patch.
  destruct (u_urgente u); cbn [patch]; [reflexivity|]. through_patch. reflexivity.
Qed.

Lemma aplicarUpdate_anoVacacional user u v :
  anoVacacional (aplicarUpdate user u v) = default (anoVacacional v) (u_anoVacacional u).
Proof.
  unfold aplicarUpdate. cbn [set_modificadoPor anoVacacional]. through_patch.
  destruct (u_anoVacacional u); cbn [patch]; [reflexivity|]. through_patch. reflexivity.
Qed.

Lemma aplicarUpdate_idem (user : User) (u : UpdateBody) (v : Vacation) :
  aplicarUpdate user u (aplicarUpdate user u v) = aplicarUpdate user u v.
Proof.
  apply Vacation_ext;
    rewrite ?aplicarUpdate_empleado, ?aplicarUpdate_creadoPor,
      ?aplicarUpdate_motivoRechazo, ?aplicarUpdate_aprobadoPor,
      ?aplicarUpdate_fechaAprobacion, ?aplicarUpdate_modificadoPor,
      ?aplicarUpdate_fechaInicio, ?aplicarUpdate_fechaFin, ?aplicarUpdate_tipoVacacion,
      ?aplicarUpdate_estado, ?aplicarUpdate_motivo, ?aplicarUpdate_observaciones,
      ?aplicarUpdate_diasSolicitados, ?aplicarUpdate_diasHabiles,
      ?aplicarUpdate_reemplazo, ?aplicarUpdate_instruccionesReemplazo,
      ?aplicarUpdate_urgente, ?aplicarUpdate_anoVacacional;
    try reflexivity.
  - now destruct (u_fechaInicio u).
  - now destruct (u_fechaFin u).
  - now destruct (u_tipoVacacion u).
  - now destruct (u_estado u).
  - now destruct (u_motivo u).
  - now destruct (u_observaciones u).
  - now destruct (u_diasSolicitados u).
  - now destruct (u_diasHabiles u).
  - now destruct (u_reemplazo u).
  - now destruct (u_instruccionesReemplazo u).
  - now destruct (u_urgente u).
  - now destruct (u_anoVacacional u).
Qed.

(** X12: [PUT /:id] is idempotent as long as it leaves the request
    pendiente: repeating an accepted update whose body names no estado,
    or names pendiente, gives the same answer and the same database.
    When the body names another estado the repetition is refused with
    400 "No se puede modificar". *)
Theorem update_twice
  (user : User) (id : Id) (u : UpdateBody) (db : Db) (v : Vacation) :
  updateAceptable user id u db v ->
  (u_estado u = None \/ u_estado u = Some pendiente ->
   update user id u (snd (update user id u db)) = update user id u db) /\
  (forall e : Estado, u_estado u = Some e -> e <> pendiente ->
   update user id u (snd (update user id u db)) =
   (Fail NoSePuedeModificar, snd (update user id u db))).
Proof.
  intros Hok. pose proof Hok as (Hval & Hv & Hest & Hcan & Hreemp & Hq).
  rewrite (update_ok user id u db v Hok). cbn [snd].
  set (w := aplicarUpdate user u v).
  set (db1 := conVacations (<[id := w]> (vacations db)) db).
  assert (Hw : vacations db1 !! id = Some w) by apply lookup_insert_eq.
  split.
  - intros Hsame.
    assert (Hok1 : updateAceptable user id u db1 w).
    { repeat split; try assumption.
      - unfold w. rewrite aplicarUpdate_estado, Hest.
        destruct Hsame as [-> | ->]; reflexivity.
      - unfold puedeActuar, w. rewrite aplicarUpdate_empleado. exact Hcan. }
    assert (Hidem : aplicarUpdate user u w = w) by apply aplicarUpdate_idem.
    rewrite (update_ok user id u db1 w Hok1), Hidem.
    unfold db1, conVacations. cbn [vacations users contratos].
    now rewrite insert_insert_eq.
  - intros e He Hne. unfold update. rewrite Hval, Hw. cbn [negb].
    unfold w. rewrite aplicarUpdate_estado, He. cbn [default].
    destruct e; try reflexivity. now contradiction Hne.
Qed.

Lemma update_twice_witness :
  let v := documento 1 (utc 2024 7 15) (utc 2024 7 29) pendiente in
  let db := dbCon (unDocumento 100 v) in
  let u := soloFechaInicio (utc 2024 7 16) in
  updateAceptable ana 100 u db v /\
  update ana 100 u (snd (update ana 100 u db)) = update ana 100 u db /\
  update ana 100 (soloEstado aprobada) (snd (update ana 100 (soloEstado aprobada) db)) =
  (Fail NoSePuedeModificar, snd (update ana 100 (soloEstado aprobada) db)).
Proof.
  intros v db u.
  assert (Hok : updateAceptable ana 100 u db v).
  { repeat split; try reflexivity; try (intros r Hr; discriminate Hr).
    right. reflexivity. }
  assert (Hok' : updateAceptable ana 100 (soloEstado aprobada) db v).
  { repeat split; try reflexivity; try (intros r Hr; discriminate Hr).
    right. reflexivity. }
  split; [exact Hok|]. split.
  - apply (proj1 (update_twice ana 100 u db v Hok)). left. reflexivity.
  - apply (proj2 (update_twice ana 100 (soloEstado aprobada) db v Hok') aprobada);
      [reflexivity|discriminate].
Defined.

(** ** More on the day counts *)

Lemma diasTotales_ge_2 (inicio fin : Z) : inicio < fin -> 2 <= diasTotales inicio fin.
Proof.
  intros Hlt. unfold diasTotales, ceilDiv. pose proof MS_PER_DAY_pos.
  assert ((- (fin - inicio)) / MS_PER_DAY < 0) by (apply Z.div_lt_upper_bound; lia).
  lia.
Qed.

Lemma floor_le_ceilDiv (a b : Z) : 0 < b -> a / b <= ceilDiv a b.
Proof.
  intros Hb. unfold ceilDiv.
  destruct (Z.eq_dec (a mod b) 0) as [Hz|Hnz].
  - rewrite Z.div_opp_l_z by lia. lia.
  - rewrite Z.div_opp_l_nz by lia. lia.
Qed.

Lemma diasHabilesCalculados_bounds (inicio fin : Z) :
  inicio <= fin ->
  0 <= diasHabilesCalculados inicio fin <= diasTotales inicio fin.
Proof.
  intros Hle. rewrite diasHabilesCalculados_businessDaySpan.
  pose proof (business_plus_weekend inicio fin) as Hsum.
  rewrite length_spanDays in Hsum by exact Hle.
  pose proof (floor_le_ceilDiv (fin - inicio) MS_PER_DAY MS_PER_DAY_pos).
  unfold diasTotales, businessDaySpan, weekendDaysInSpan in *. lia.
Qed.

(** X13: Every accepted create whose body leaves out the day counts stores
    at least 2 diasSolicitados (a request cannot be for a single day:
    fechaFin must be after fechaInicio, and any positive span counts
    its last, partial day) and a diasHabiles between 0 and
    diasSolicitados. *)
Theorem created_day_counts_bounds
  (env : Env) (user : User) (b : CreateBody) (db : Db) :
  createAceptable env user b db ->
  b_diasSolicitados b = None ->
  b_diasHabiles b = None ->
  exists (v : Vacation) (db' : Db) (s h : Z),
    create env user b db = (Ok (newId env, v), db') /\
    diasSolicitados v = Some s /\ diasHabiles v = Some h /\
    2 <= s /\ 0 <= h <= s.
Proof.
  intros Hok Hs Hh.
  pose proof Hok as ((_ & _ & _ & Hfechas) & _).
  exists (creada env user b),
    (conVacations (<[newId env := creada env user b]> (vacations db)) db),
    (diasTotales (b_fechaInicio b) (b_fechaFin b)),
    (diasHabilesCalculados (b_fechaInicio b) (b_fechaFin b)).
  split; [apply create_ok; exact Hok|].
  split; [unfold creada; now rewrite preSaveDias_diasSolicitados|].
  split; [unfold creada; now rewrite preSaveDias_diasHabiles|].
  split; [apply diasTotales_ge_2; exact Hfechas|].
  apply diasHabilesCalculados_bounds. lia.
Qed.

Lemma created_day_counts_bounds_witness :
  let env := mkEnv (utc 2024 7 1) 101 in
  let b := solicitud (utc 2024 7 20) (utc 2024 7 20 + 1) in
  createAceptable env ana b (dbCon ∅) /\
  exists (v : Vacation) (db' : Db),
    create env ana b (dbCon ∅) = (Ok (101%nat, v), db') /\
    diasSolicitados v = Some 2 /\ diasHabiles v = Some 0.
Proof.
  intros env b.
  assert (Hok : createAceptable env ana b (dbCon ∅)).
  { repeat split; try reflexivity; try (intros r Hr; discriminate Hr).
    vm_compute. discriminate. }
  split; [exact Hok|].
  destruct (created_day_counts_bounds env ana b (dbCon ∅) Hok eq_refl eq_refl)
    as (v & db' & s & h & Hcreate & Hs & Hh & _).
  exists v, db'. split; [exact Hcreate|].
  rewrite (create_ok env ana b (dbCon ∅) Hok) in Hcreate.
  injection Hcreate as <- _.
  split; vm_compute; reflexivity.
Defined.

(** X14: The bounds of the schema on diasSolicitados ([max: 365]) are not
    applied to the derived value: validation runs before the save
    middleware that derives it.  An accepted create for a span of 365
    days or more that leaves diasSolicitados out stores a value above
    365, which the same validator refuses when the body supplies it. *)
Theorem derived_diasSolicitados_escapes_max
  (env : Env) (user : User) (b : CreateBody) (db : Db) :
  createAceptable env user b db ->
  b_diasSolicitados b = None ->
  365 * MS_PER_DAY <= b_fechaFin b - b_fechaInicio b ->
  exists (v : Vacation) (db' : Db) (s : Z),
    create env user b db = (Ok (newId env, v), db') /\
    diasSolicitados v = Some s /\ 365 < s /\
    diasSolicitadosValido (Some s) = false.
Proof.
  intros Hok Hs Hlong.
  assert (Hbig : 365 < diasTotales (b_fechaInicio b) (b_fechaFin b)).
  { unfold diasTotales. pose proof MS_PER_DAY_pos.
    pose proof (floor_le_ceilDiv (b_fechaFin b - b_fechaInicio b) MS_PER_DAY MS_PER_DAY_pos).
    assert (365 <= (b_fechaFin b - b_fechaInicio b) / MS_PER_DAY)
      by (apply Z.div_le_lower_bound; lia).
    lia. }
  exists (creada env user b),
    (conVacations (<[newId env := creada env user b]> (vacations db)) db),
    (diasTotales (b_fechaInicio b) (b_fechaFin b)).
  split; [apply create_ok; exact Hok|].
  split; [unfold creada; now rewrite preSaveDias_diasSolicitados|].
  split; [exact Hbig|].
  unfold diasSolicitadosValido. apply andb_false_iff. right. apply Z.leb_gt. exact Hbig.
Qed.

Lemma derived_diasSolicitados_escapes_max_witness :
  let env := mkEnv (utc 2024 7 1) 101 in
  let b := solicitud (utc 2025 1 1) (utc 2026 1 1) in
  createAceptable env ana b (dbCon ∅) /\
  exists (v : Vacation) (db' : Db),
    create env ana b (dbCon ∅) = (Ok (101%nat, v), db') /\
    diasSolicitados v = Some 366.
Proof.
  intros env b.
  assert (Hok : createAceptable env ana b (dbCon ∅)).
  { repeat split; try reflexivity; try (intros r Hr; discriminate Hr).
    vm_compute. discriminate. }
  split; [exact Hok|].
  destruct (derived_diasSolicitados_escapes_max env ana b (dbCon ∅) Hok eq_refl)
    as (v & db' & s & Hcreate & Hs & _); [vm_compute; discriminate|].
  exists v, db'. split; [exact Hcreate|].
  rewrite (create_ok env ana b (dbCon ∅) Hok) in Hcreate.
  injection Hcreate as <- _. vm_compute. reflexivity.
Defined.

Lemma getDay_nextDay (t : Z) : getDay (nextDay t) = (getDay t + 1) mod 7.
Proof.
  unfold getDay, nextDay, Day.
  replace (t + MS_PER_DAY) with (t + 1 * MS_PER_DAY) by ring.
  rewrite Z.div_add by (pose proof MS_PER_DAY_pos; lia).
  replace (t / MS_PER_DAY + 1 + 4) with (t / MS_PER_DAY + 4 + 1) by ring.
  rewrite (Z.add_mod (t / MS_PER_DAY + 4) 1 7) by lia.
  reflexivity.
Qed.

Lemma getDay_range (t : Z) : 0 <= getDay t < 7.
Proof. unfold getDay. apply Z.mod_pos_bound. lia. Qed.

(** Any seven consecutive days, whatever the weekday and the time of
    day of the first, hold five working days. *)
Lemma week_has_five_habiles (t : Z) :
  length (List.filter esHabil (diasDesde 7 t)) = 5%nat.
Proof.
  cbn [diasDesde List.filter]. unfold esHabil.
  rewrite !getDay_nextDay.
  pose proof (getDay_range t) as Hg.
  assert (Hcases : getDay t = 0 \/ getDay t = 1 \/ getDay t = 2 \/ getDay t = 3 \/
                   getDay t = 4 \/ getDay t = 5 \/ getDay t = 6) by lia.
  destruct Hcases as [H|[H|[H|[H|[H|[H|H]]]]]]; rewrite H; reflexivity.
Qed.

Lemma diasDesde_app (n m : nat) (t : Z) :
  diasDesde (n + m) t = diasDesde n t ++ diasDesde m (t + Z.of_nat n * MS_PER_DAY).
Proof.
  revert t. induction n as [|n IH]; intros t.
  - cbn [diasDesde Nat.add app]. f_equal. lia.
  - cbn [diasDesde Nat.add app]. rewrite IH. do 3 f_equal. unfold nextDay. lia.
Qed.

(** X15: Lengthening a request by one week adds exactly five working days,
    whatever its dates. *)
Theorem one_more_week_five_more_days (inicio fin : Z) :
  inicio <= fin ->
  diasHabilesCalculados inicio (fin + 7 * MS_PER_DAY) =
  diasHabilesCalculados inicio fin + 5.
Proof.
  intros Hle. pose proof MS_PER_DAY_pos as Hpos.
  rewrite !diasHabilesCalculados_businessDaySpan.
  unfold businessDaySpan, spanDays.
  assert (Hq : 0 <= (fin - inicio) / MS_PER_DAY) by (apply Z.div_pos; lia).
  replace (fin + 7 * MS_PER_DAY - inicio) with (fin - inicio + 7 * MS_PER_DAY) by ring.
  rewrite Z.div_add by lia.
  replace (Z.to_nat ((fin - inicio) / MS_PER_DAY + 7 + 1))
    with (Z.to_nat ((fin - inicio) / MS_PER_DAY + 1) + 7)%nat by lia.
  rewrite diasDesde_app, List.filter_app, length_app.
  rewrite (filter_ext _ esHabil
             (fun d => eq_sym (esHabil_negb_isWeekend d)) (diasDesde 7 _)).
  rewrite week_has_five_habiles. lia.
Qed.

Lemma one_more_week_five_more_days_witness :
  utc 2024 7 15 <= utc 2024 7 29 /\
  diasHabilesCalculados (utc 2024 7 15) (utc 2024 7 29 + 7 * MS_PER_DAY) = 11 + 5.
Proof.
  split; [vm_compute; discriminate|].
  exact (one_more_week_five_more_days (utc 2024 7 15) (utc 2024 7 29)
           ltac:(vm_compute; discriminate)).
Defined.

(** ** The virtual vigente *)

Lemma sinSolapes_unDocumento_aux (i : Id) (d : Vacation) : sinSolapes (unDocumento i d).
Proof.
  intros j k a b Hne Hj Hk. unfold unDocumento in *.
  apply lookup_singleton_Some in Hj as [<- _].
  apply lookup_singleton_Some in Hk as [<- _].
  now contradiction Hne.
Qed.

(** X16: While the overlap invariant holds, an employee has at most one
    vacation in force at any time: two documents of one employee that
    are both vigente are the same document. *)
Theorem at_most_one_vigente
  (vs : gmap nat Vacation) (hoy : Z) (i j : Id) (a b : Vacation) :
  sinSolapes vs ->
  vs !! i = Some a -> vs !! j = Some b ->
  empleado a = empleado b ->
  vigente hoy a = true -> vigente hoy b = true ->
  i = j.
Proof.
  intros Hinv Ha Hb Hemp Hva Hvb.
  destruct (Nat.eq_dec i j) as [Heq|Hne]; [exact Heq|exfalso].
  unfold vigente in Hva, Hvb.
  rewrite !andb_true_iff, Z.leb_le, Z.geb_le, Estado_eqb_eq in Hva, Hvb.
  destruct Hva as [[Hai Haf] Hea], Hvb as [[Hbi Hbf] Heb].
  assert (Hov : intervalsOverlap (fechaInicio a) (fechaFin a)
                  (fechaInicio b) (fechaFin b) = true)
    by (apply intervalsOverlap_spec; lia).
  rewrite (Hinv i j a b Hne Ha Hb Hemp) in Hov;
    [discriminate Hov|now rewrite Hea|now rewrite Heb].
Qed.

Lemma at_most_one_vigente_witness :
  let a := documento 1 (utc 2024 7 15) (utc 2024 7 29) aprobada in
  let vs := unDocumento 100 a in
  vs !! 100%nat = Some a /\ vigente (utc 2024 7 20) a = true /\ 100%nat = 100%nat.
Proof.
  intros a vs. split; [reflexivity|]. split; [reflexivity|].
  exact (at_most_one_vigente vs (utc 2024 7 20) 100 100 a a
           (sinSolapes_unDocumento_aux 100 a) eq_refl eq_refl eq_refl eq_refl eq_refl).
Defined.

(** ** Listing *)

Lemma In_take {A : Type} (x : A) (n : nat) (l : list A) : In x (take n l) -> In x l.
Proof. intros H. rewrite <- (take_drop n l). apply in_or_app. now left. Qed.

Lemma In_drop {A : Type} (x : A) (n : nat) (l : list A) : In x (drop n l) -> In x l.
Proof. intros H. rewrite <- (take_drop n l). apply in_or_app. now right. Qed.

Lemma coinciden_spec (user : User) (q : ListQuery) (db : Db) (i : Id) (d : Vacation) :
  In (i, d) (coinciden user q db) <->
  vacations db !! i = Some d /\ filtersQuery (construirFiltros user q) i d = true.
Proof.
  unfold coinciden. rewrite filter_In. cbn [fst snd].
  now rewrite <- list_elem_of_In, elem_of_map_to_list.
Qed.

Lemma listar_Some (orden : list (Id * Vacation) -> list (Id * Vacation))
  (user : User) (q : ListQuery) (db : Db) (vs : list (Id * Vacation)) (pg : Pagination) :
  listar orden user q db = Some (vs, pg) ->
  validarList q = true /\
  vs = take (Z.to_nat (default 10 (q_limit q)))
         (drop (Z.to_nat ((default 1 (q_page q) - 1) * default 10 (q_limit q)))
            (orden (coinciden user q db))) /\
  pg = {| current := default 1 (q_page q);
          limit := default 10 (q_limit q);
          total := Z.of_nat (length (coinciden user q db));
          pages := ceilDiv (Z.of_nat (length (coinciden user q db)))
                     (default 10 (q_limit q)) |}.
Proof.
  unfold listar. destruct (validarList q); [|discriminate].
  cbn [negb]. intros H. injection H as <- <-. auto.
Qed.

Lemma limit_range (q : ListQuery) :
  validarList q = true -> 1 <= default 10 (q_limit q) <= 100.
Proof.
  unfold validarList. rewrite andb_true_iff. intros [_ Hl].
  destruct (q_limit q) as [l|]; cbn [default]; [|unfold id; lia].
  apply andb_true_iff in Hl as [H1 H2]. apply Z.leb_le in H1, H2. unfold id. lia.
Qed.

Lemma TipoVacacion_eqb_eq (a b : TipoVacacion) : TipoVacacion_eqb a b = true <-> a = b.
Proof. destruct a, b; simpl; split; congruence. Qed.

(** X17: Whatever the query string, a listing shows stored documents that
    match every filter of the query: the employee, the estado, the
    tipoVacacion, the anoVacacional and the urgente flag (as the route
    reads it, see [esTrue]); a requester with role empleado is shown
    only documents of their own, even when the query names another
    employee; and a page holds at most [limit] documents, at most 100,
    and 10 when the query names no limit. *)
Theorem listing_shows_only_matching
  (orden : list (Id * Vacation) -> list (Id * Vacation))
  (user : User) (q : ListQuery) (db : Db) (vs : list (Id * Vacation)) (pg : Pagination) :
  (forall l, Permutation (orden l) l) ->
  listar orden user q db = Some (vs, pg) ->
  (forall (i : Id) (d : Vacation), In (i, d) vs ->
     vacations db !! i = Some d /\
     (esEmpleado user = true -> empleado d = _id user) /\
     (esEmpleado user = false -> forall e, q_empleado q = Some e -> empleado d = e) /\
     (forall e, q_estado q = Some e -> estado d = e) /\
     (forall t, q_tipoVacacion q = Some t -> tipoVacacion d = t) /\
     (forall y, q_anoVacacional q = Some y -> anoVacacional d = y) /\
     (forall p, q_urgente q = Some p -> urgente d = esTrue p)) /\
  Z.of_nat (length vs) <= limit pg <= 100 /\
  (q_limit q = None -> limit pg = 10).
Proof.
  intros Hperm Hlist.
  apply listar_Some in Hlist as (Hval & -> & ->). cbn [limit].
  pose proof (limit_range q Hval) as Hrange.
  split; [|split].
  - intros i d Hin.
    apply In_take, In_drop in Hin.
    apply (Permutation_in _ (Hperm _)) in Hin.
    apply coinciden_spec in Hin as [Hlookup Hq].
    split; [exact Hlookup|].
    unfold filtersQuery, construirFiltros in Hq. cbn [f_empleado f_estado
      f_tipoVacacion f_anoVacacional f_urgente] in Hq.
    rewrite !andb_true_iff in Hq. destruct Hq as [[[[He Hs] Ht] Hy] Hu].
    split; [|split; [|split; [|split; [|split]]]].
    + intros Hrole. rewrite Hrole in He. cbn [cumple] in He. now apply Nat.eqb_eq.
    + intros Hrole e Hqe. rewrite Hrole, Hqe in He. cbn [cumple] in He.
      now apply Nat.eqb_eq.
    + intros e Hqe. rewrite Hqe in Hs. cbn [cumple] in Hs. now apply Estado_eqb_eq.
    + intros t Hqt. rewrite Hqt in Ht. cbn [cumple] in Ht. now apply TipoVacacion_eqb_eq.
    + intros y Hqy. rewrite Hqy in Hy. cbn [cumple] in Hy. now apply Z.eqb_eq.
    + intros p Hqp. rewrite Hqp in Hu. cbn [cumple fmap option_fmap option_map] in Hu.
      now apply Bool.eqb_prop.
  - rewrite length_take. lia.
  - intros Hnone. now rewrite Hnone.
Qed.

Lemma listing_shows_only_matching_witness :
  let orden := fun l : list (Id * Vacation) => l in
  let db := dbCon vacacionesDeEjemplo in
  (forall l, Permutation (orden l) l) /\
  exists (vs : list (Id * Vacation)) (pg : Pagination),
    listar orden ana (consulta (Some 2) (Some 2%nat)) db = Some (vs, pg) /\
    length vs = 2%nat /\ total pg = 4 /\ pages pg = 2 /\
    forall (i : Id) (d : Vacation), In (i, d) vs -> empleado d = 1%nat.
Proof.
  intros orden db.
  assert (Hperm : forall l, Permutation (orden l) l) by (intros l; apply Permutation_refl).
  split; [exact Hperm|].
  destruct (listar orden ana (consulta (Some 2) (Some 2%nat)) db) as [[vs pg]|] eqn:Hl;
    [|vm_compute in Hl; discriminate Hl].
  exists vs, pg. split; [reflexivity|].
  pose proof (listing_shows_only_matching orden ana _ db vs pg Hperm Hl) as (Hall & _ & _).
  apply listar_Some in Hl as (_ & -> & ->).
  split; [vm_compute; reflexivity|]. split; [vm_compute; reflexivity|].
  split; [vm_compute; reflexivity|].
  intros i d Hin. exact (proj1 (proj2 (Hall i d Hin)) eq_refl).
Defined.

Lemma concat_pages {A : Type} (l : list A) (n m : nat) :
  concat (List.map (fun k => take n (drop (k * n) l)) (seq 0 m)) = take (m * n) l.
Proof.
  induction m as [|m IH]; [reflexivity|].
  rewrite seq_S, List.map_app, concat_app, IH. cbn [List.map concat Nat.add].
  rewrite app_nil_r, take_take_drop. f_equal. lia.
Qed.

Lemma ceilDiv_covers (a b : Z) : 0 < b -> a <= ceilDiv a b * b.
Proof.
  intros Hb. unfold ceilDiv.
  pose proof (Z.div_mod (- a) b ltac:(lia)) as Hdm.
  pose proof (Z.mod_pos_bound (- a) b Hb). nia.
Qed.

Lemma ceilDiv_tight (a b : Z) : 0 < b -> 0 < a -> (ceilDiv a b - 1) * b < a.
Proof.
  intros Hb Ha. unfold ceilDiv.
  pose proof (Z.div_mod (- a) b ltac:(lia)) as Hdm.
  pose proof (Z.mod_pos_bound (- a) b Hb). nia.
Qed.

Lemma pagina_eq (orden : list (Id * Vacation) -> list (Id * Vacation))
  (user : User) (q : ListQuery) (db : Db) (k : nat) :
  validarList q = true ->
  pagina orden user q db (Z.of_nat k + 1) =
  take (Z.to_nat (default 10 (q_limit q)))
    (drop (k * Z.to_nat (default 10 (q_limit q))) (orden (coinciden user q db))).
Proof.
  intros Hval. pose proof (limit_range q Hval) as Hrange.
  unfold pagina, listar.
  assert (Hval' : validarList (conPage (Z.of_nat k + 1) q) = true).
  { unfold validarList in *. cbn [conPage q_page q_limit].
    apply andb_true_iff in Hval as [_ ->]. rewrite andb_true_r. apply Z.leb_le. lia. }
  rewrite Hval'. cbn [negb conPage q_page q_limit].
  change (coinciden user (conPage (Z.of_nat k + 1) q) db) with (coinciden user q db).
  change (default 1 (Some (Z.of_nat k + 1))) with (Z.of_nat k + 1).
  do 2 f_equal.
  replace (Z.of_nat k + 1 - 1) with (Z.of_nat k) by lia.
  rewrite Z2Nat.inj_mul by lia. now rewrite Nat2Z.id.
Qed.

(** X18: Pagination loses and repeats nothing: for a valid query string,
    the pages 1 to [pages] of the response, one after the other, are
    the matching documents in the order of the sort, so they list each
    matching document exactly once; the last of these pages is not
    empty, and every later page is. *)
Theorem pages_partition_the_listing
  (orden : list (Id * Vacation) -> list (Id * Vacation))
  (user : User) (q : ListQuery) (db : Db) (vs : list (Id * Vacation)) (pg : Pagination) :
  (forall l, Permutation (orden l) l) ->
  listar orden user q db = Some (vs, pg) ->
  concat (List.map (pagina orden user q db) (paginasHasta (pages pg))) =
    orden (coinciden user q db) /\
  Permutation (concat (List.map (pagina orden user q db) (paginasHasta (pages pg))))
    (coinciden user q db) /\
  (0 < total pg -> pagina orden user q db (pages pg) <> []) /\
  (forall p : Z, pages pg < p -> pagina orden user q db p = []).
Proof.
  intros Hperm Hlist.
  apply listar_Some in Hlist as (Hval & _ & ->). cbn [pages total].
  pose proof (limit_range q Hval) as Hrange.
  set (L := default 10 (q_limit q)) in *.
  set (l := orden (coinciden user q db)).
  assert (Hlen : length l = length (coinciden user q db))
    by (apply Permutation_length, Hperm).
  set (n := Z.of_nat (length (coinciden user q db))) in *.
  pose proof (ceilDiv_covers n L ltac:(lia)) as Hcover.
  assert (Hpos : 0 <= ceilDiv n L).
  { destruct (Z.lt_ge_cases (ceilDiv n L) 0) as [Hneg|]; [|lia]. nia. }
  assert (Hall : concat (List.map (pagina orden user q db) (paginasHasta (ceilDiv n L))) = l).
  { unfold paginasHasta. rewrite List.map_map.
    rewrite (List.map_ext _ (fun k => take (Z.to_nat L) (drop (k * Z.to_nat L) l)))
      by (intros k; apply pagina_eq; exact Hval).
    rewrite concat_pages. apply take_ge. nia. }
  split; [exact Hall|]. split; [rewrite Hall; apply Hperm|]. split.
  - intros Htotal.
    pose proof (ceilDiv_tight n L ltac:(lia) Htotal) as Htight.
    assert (Hp1 : 1 <= ceilDiv n L) by nia.
    replace (ceilDiv n L) with (Z.of_nat (Z.to_nat (ceilDiv n L - 1)) + 1) at 1 by lia.
    rewrite pagina_eq by exact Hval. fold L l.
    intros Hnil. apply (f_equal (@length _)) in Hnil.
    rewrite length_take, length_drop in Hnil. cbn [length] in Hnil. nia.
  - intros p Hp.
    replace p with (Z.of_nat (Z.to_nat (p - 1)) + 1) by lia.
    rewrite pagina_eq by exact Hval. fold L l.
    rewrite drop_ge; [now destruct (Z.to_nat L)|]. nia.
Qed.

Lemma pages_partition_the_listing_witness :
  let orden := fun l : list (Id * Vacation) => l in
  let db := dbCon vacacionesDeEjemplo in
  let q := consulta (Some 2) None in
  (forall l, Permutation (orden l) l) /\
  exists (vs : list (Id * Vacation)) (pg : Pagination),
    listar orden rosa q db = Some (vs, pg) /\
    total pg = 5 /\ pages pg = 3 /\
    pagina orden rosa q db 1 ++ pagina orden rosa q db 2 ++ pagina orden rosa q db 3 =
      coinciden rosa q db /\
    length (pagina orden rosa q db 3) = 1%nat /\
    pagina orden rosa q db 4 = [].
Proof.
  intros orden db q.
  assert (Hperm : forall l, Permutation (orden l) l) by (intros l; apply Permutation_refl).
  split; [exact Hperm|].
  destruct (listar orden rosa q db) as [[vs pg]|] eqn:Hl;
    [|vm_compute in Hl; discriminate Hl].
  exists vs, pg. split; [reflexivity|].
  pose proof (pages_partition_the_listing orden rosa q db vs pg Hperm Hl)
    as (Hall & _ & _ & Hlater).
  assert (Hpages : pages pg = 3).
  { apply listar_Some in Hl as (_ & _ & ->). vm_compute. reflexivity. }
  assert (Htotal : total pg = 5).
  { apply listar_Some in Hl as (_ & _ & ->). vm_compute. reflexivity. }
  split; [exact Htotal|]. split; [exact Hpages|].
  rewrite Hpages in Hall, Hlater.
  split; [|split].
  - transitivity (orden (coinciden rosa q db)); [|reflexivity].
    rewrite <- Hall. change (paginasHasta 3) with [1; 2; 3].
    cbn [List.map concat]. now rewrite app_nil_r.
  - vm_compute. reflexivity.
  - apply Hlater. reflexivity.
Defined.

(** X19: The filter [urgente] compares the query string with ['true'], so
    of the four strings the validation accepts only ['true'] selects
    urgent requests: ['1'], like ['0'] and ['false'], is accepted and
    answered with requests that are not urgent. *)
Theorem urgente_filter_only_knows_true
  (orden : list (Id * Vacation) -> list (Id * Vacation))
  (user : User) (q : ListQuery) (db : Db) (p : BoolParam)
  (vs : list (Id * Vacation)) (pg : Pagination) :
  (forall l, Permutation (orden l) l) ->
  q_urgente q = Some p ->
  listar orden user q db = Some (vs, pg) ->
  forall (i : Id) (d : Vacation), In (i, d) vs ->
    urgente d = match p with param_true => true | _ => false end.
Proof.
  intros Hperm Hp Hlist i d Hin.
  apply listar_Some in Hlist as (_ & -> & _).
  apply In_take, In_drop in Hin.
  apply (Permutation_in _ (Hperm _)) in Hin.
  apply coinciden_spec in Hin as [_ Hq].
  unfold filtersQuery, construirFiltros in Hq.
  cbn [f_empleado f_estado f_tipoVacacion f_anoVacacional f_urgente] in Hq.
  rewrite !andb_true_iff in Hq. destruct Hq as [_ Hu].
  rewrite Hp in Hu. cbn in Hu.
  destruct p, (urgente d); cbn in Hu; try discriminate Hu; reflexivity.
Qed.

Lemma urgente_filter_only_knows_true_witness :
  let orden := fun l : list (Id * Vacation) => l in
  let db := dbCon vacacionesDeEjemplo in
  (forall l, Permutation (orden l) l) /\
  q_urgente (soloUrgente param_1) = Some param_1 /\
  exists (vs : list (Id * Vacation)) (pg : Pagination),
    listar orden rosa (soloUrgente param_1) db = Some (vs, pg) /\
    length vs = 5%nat /\
    forall (i : Id) (d : Vacation), In (i, d) vs -> urgente d = false.
Proof.
  intros orden db.
  assert (Hperm : forall l, Permutation (orden l) l) by (intros l; apply Permutation_refl).
  split; [exact Hperm|]. split; [reflexivity|].
  destruct (listar orden rosa (soloUrgente param_1) db) as [[vs pg]|] eqn:Hl;
    [|vm_compute in Hl; discriminate Hl].
  exists vs, pg. split; [reflexivity|].
  pose proof (urgente_filter_only_knows_true orden rosa (soloUrgente param_1) db param_1
                vs pg Hperm eq_refl Hl) as Hall.
  split; [|exact Hall].
  apply listar_Some in Hl as (_ & -> & _). vm_compute. reflexivity.
Defined.

(** ** How approval and cancellation move the balance *)

Lemma fold_sumarDias_None (l : list Vacation) : fold_left sumarDias l None = None.
Proof. induction l as [|v l IH]; [reflexivity|exact IH]. Qed.

Lemma fold_sumarDias_eq (l : list Vacation) (t : Z) :
  fold_left sumarDias l (Some t) =
  if forallb tieneDias l then Some (t + sumaDiasHabiles l) else None.
Proof.
  revert t. induction l as [|v l IH]; intros t.
  - cbn. f_equal. unfold sumaDiasHabiles. cbn. lia.
  - cbn [fold_left forallb]. unfold sumarDias at 2, tieneDias at 1.
    destruct (diasHabiles v) as [d|] eqn:Hd; cbn [ausente negb andb].
    + rewrite IH. destruct (forallb tieneDias l); [|reflexivity].
      f_equal. unfold sumaDiasHabiles. cbn [List.map fold_right]. rewrite Hd.
      change (default 0 (Some d)) with d. lia.
    + apply fold_sumarDias_None.
Qed.

Lemma usados_cons (e : Id) (y : Z) (i : Id) (v : Vacation) (l : list (Id * Vacation)) :
  usados e y ((i, v) :: l) =
  if balanceQuery e y i v
  then match diasHabiles v, usados e y l with
       | Some d, Some t => Some (d + t)
       | _, _ => None
       end
  else usados e y l.
Proof.
  unfold usados. cbn [List.filter fst snd].
  destruct (balanceQuery e y i v); [|reflexivity].
  cbn [List.map fst snd]. rewrite !fold_sumarDias_eq. cbn [forallb].
  unfold tieneDias at 1. destruct (diasHabiles v) as [d|] eqn:Hd; cbn [ausente negb andb].
  - destruct (forallb tieneDias _); [|reflexivity].
    f_equal. unfold sumaDiasHabiles. cbn [List.map fold_right]. rewrite Hd.
    change (default 0 (Some d)) with d. lia.
  - reflexivity.
Qed.

Lemma usados_Permutation (e : Id) (y : Z) (l l' : list (Id * Vacation)) :
  Permutation l l' -> usados e y l = usados e y l'.
Proof.
  induction 1 as [|[i v] l l' _ IH|[i v] [j w] l|l l' l'' _ IH1 _ IH2].
  - reflexivity.
  - rewrite !usados_cons, IH. reflexivity.
  - rewrite !usados_cons.
    destruct (balanceQuery e y i v), (balanceQuery e y j w); try reflexivity.
    destruct (diasHabiles v), (diasHabiles w), (usados e y l); try reflexivity.
    f_equal. lia.
  - congruence.
Qed.

Lemma balance_usados (env : Env) (user : User) (e : Id) (y : Z) (db : Db) (bal : Balance) :
  balance env user e (Some y) db = Ok bal ->
  diasUtilizados bal = usados e y (map_to_list (vacations db)) /\
  diasRestantes bal = (fun u => 22 - u) <$> diasUtilizados bal.
Proof.
  unfold balance. destruct (_ && _); [discriminate|].
  destruct (negb _); [discriminate|].
  intros H. injection H as <-. split; reflexivity.
Qed.

(** The documents of a collection after a write to [id], and before
    it, are the other documents plus the one under [id]. *)
Lemma map_to_list_write (vs : gmap nat Vacation) (id : Id) (v v' : Vacation) :
  vs !! id = Some v ->
  Permutation (map_to_list vs) ((id, v) :: map_to_list (delete id vs)) /\
  Permutation (map_to_list (<[id := v']> vs)) ((id, v') :: map_to_list (delete id vs)).
Proof.
  intros Hv. split.
  - rewrite <- (insert_delete_id vs id v Hv) at 1.
    apply map_to_list_insert, lookup_delete_eq.
  - rewrite <- insert_delete_eq.
    apply map_to_list_insert, lookup_delete_eq.
Qed.

Lemma approve_shape (env : Env) (user : User) (id : Id) (db : Db) :
  (exists e, approve env user id db = (Fail e, db)) \/
  (exists v : Vacation,
     vacations db !! id = Some v /\ estado v = pendiente /\ elevado user /\
     approve env user id db =
     (Ok (aprobar env user v),
      conVacations (<[id := aprobar env user v]> (vacations db)) db)).
Proof.
  unfold approve.
  destruct (authorizeRoles [rol_admin; rol_rrhh] user) eqn:Hu;
    [|left; eexists; reflexivity].
  cbn [negb].
  destruct (vacations db !! id) as [v|]; [|left; eexists; reflexivity].
  destruct (Estado_eqb (estado v) pendiente) eqn:Hest; [|left; eexists; reflexivity].
  apply Estado_eqb_eq in Hest. cbn [negb].
  destruct (save _ _ _ _ _) as [[saved vs]|] eqn:Hsave; [|left; eexists; reflexivity].
  apply save_Some in Hsave as [-> ->].
  right. exists v. unfold aprobar. auto.
Qed.

Lemma approve_Ok_inv (env : Env) (user : User) (id : Id) (db : Db)
  (v' : Vacation) (db' : Db) :
  approve env user id db = (Ok v', db') ->
  exists v : Vacation,
    vacations db !! id = Some v /\ estado v = pendiente /\ elevado user /\
    v' = aprobar env user v /\
    db' = conVacations (<[id := v']> (vacations db)) db.
Proof.
  intros H.
  destruct (approve_shape env user id db) as [[e He]|(v & Hv & Hest & Hu & Heq)].
  - rewrite He in H. discriminate H.
  - rewrite Heq in H. injection H as <- <-. exists v. auto.
Qed.

Lemma cancel_shape (env : Env) (user : User) (id : Id) (db : Db) :
  (exists e, cancel env user id db = (Fail e, db)) \/
  (exists v : Vacation,
     vacations db !! id = Some v /\ (estado v = pendiente \/ estado v = aprobada) /\
     puedeActuar user v /\
     cancel env user id db =
     (Ok (cancelar env user v),
      conVacations (<[id := cancelar env user v]> (vacations db)) db)).
Proof.
  unfold cancel.
  destruct (vacations db !! id) as [v|]; [|left; eexists; reflexivity].
  destruct (esEmpleado user && negb (Nat.eqb (empleado v) (_id user))) eqn:Hacc;
    [left; eexists; reflexivity|].
  apply puedeActuar_test in Hacc.
  destruct (existsb (Estado_eqb (estado v)) [pendiente; aprobada]) eqn:Hest;
    [|left; eexists; reflexivity].
  cbn [negb].
  destruct (save _ _ _ _ _) as [[saved vs]|] eqn:Hsave; [|left; eexists; reflexivity].
  apply save_Some in Hsave as [-> ->].
  right. exists v. unfold cancelar. repeat split; auto.
  destruct (estado v); try discriminate Hest; auto.
Qed.

Lemma cancel_Ok_inv (env : Env) (user : User) (id : Id) (db : Db)
  (v' : Vacation) (db' : Db) :
  cancel env user id db = (Ok v', db') ->
  exists v : Vacation,
    vacations db !! id = Some v /\ (estado v = pendiente \/ estado v = aprobada) /\
    puedeActuar user v /\
    v' = cancelar env user v /\
    db' = conVacations (<[id := v']> (vacations db)) db.
Proof.
  intros H.
  destruct (cancel_shape env user id db) as [[e He]|(v & Hv & Hest & Hu & Heq)].
  - rewrite He in H. discriminate H.
  - rewrite Heq in H. injection H as <- <-. exists v. auto.
Qed.

Lemma preSaveDias_diasHabiles_Some (a : Z) (v : Vacation) :
  exists h : Z, diasHabiles (preSaveDias a v) = Some h.
Proof.
  unfold preSaveDias.
  destruct (falsy (diasSolicitados v)); cbn [diasHabiles set_diasSolicitados];
    destruct (diasHabiles v) as [h|] eqn:Hh; cbn [falsy];
    try destruct (h =? 0); case_ifs; cbn; rewrite ?Hh; eauto.
Qed.

Lemma balance_after_write (env : Env) (user : User) (e : Id) (y : Z) (db : Db)
  (bal : Balance) (vs' : gmap nat Vacation) :
  balance env user e (Some y) db = Ok bal ->
  exists bal' : Balance,
    balance env user e (Some y) (conVacations vs' db) = Ok bal' /\
    diasUtilizados bal' = usados e y (map_to_list vs') /\
    diasRestantes bal' = (fun u => 22 - u) <$> diasUtilizados bal'.
Proof.
  unfold balance, userExists. cbn [conVacations users vacations].
  destruct (_ && _); [discriminate|].
  destruct (negb _); [discriminate|].
  intros _. eexists. split; [reflexivity|]. split; reflexivity.
Qed.

(** X20: Approval charges the balance and cancellation refunds it: when the
    balance of the employee and vacation year of a document reports
    [t] used days, approving the document raises the used days to [t]
    plus the diasHabiles of the approved document, and cancelling it
    while it is aprobada lowers them to [t] minus its diasHabiles; the
    remaining days are 22 minus the used days in both cases. *)
Theorem approval_charges_cancellation_refunds
  (env envB : Env) (user : User) (id : Id) (db : Db) (v : Vacation)
  (bal : Balance) (t : Z) :
  vacations db !! id = Some v ->
  balance envB user (empleado v) (Some (anoVacacional v)) db = Ok bal ->
  diasUtilizados bal = Some t ->
  (forall (admin : User) (v' : Vacation) (db' : Db),
     approve env admin id db = (Ok v', db') ->
     exists (h : Z) (bal' : Balance),
       diasHabiles v' = Some h /\
       balance envB user (empleado v) (Some (anoVacacional v)) db' = Ok bal' /\
       diasUtilizados bal' = Some (t + h) /\
       diasRestantes bal' = Some (22 - (t + h))) /\
  (forall (who : User) (v' : Vacation) (db' : Db),
     estado v = aprobada ->
     cancel env who id db = (Ok v', db') ->
     exists (h : Z) (bal' : Balance),
       diasHabiles v = Some h /\
       balance envB user (empleado v) (Some (anoVacacional v)) db' = Ok bal' /\
       diasUtilizados bal' = Some (t - h) /\
       diasRestantes bal' = Some (22 - (t - h))).
Proof.
  intros Hv Hbal Ht.
  pose proof (balance_usados _ _ _ _ _ _ Hbal) as [Hused _].
  rewrite Ht in Hused.
  split.
  - intros admin v' db' Happ.
    apply approve_Ok_inv in Happ as (w & Hw & Hest & _ & Hv' & ->).
    rewrite Hv in Hw. injection Hw as <-.
    destruct (map_to_list_write (vacations db) id v v' Hv) as [Hp Hp'].
    rewrite (usados_Permutation _ _ _ _ Hp), usados_cons in Hused.
    assert (Hq : balanceQuery (empleado v) (anoVacacional v) id v = false).
    { unfold balanceQuery. rewrite Hest. apply andb_false_r. }
    rewrite Hq in Hused.
    assert (Hq' : balanceQuery (empleado v) (anoVacacional v) id v' = true).
    { unfold balanceQuery. subst v'. unfold aprobar.
      rewrite preSaveDias_empleado, preSaveDias_anoVacacional, preSaveDias_estado.
      cbn [empleado anoVacacional estado set_modificadoPor set_fechaAprobacion
             set_aprobadoPor set_estado].
      now rewrite Nat.eqb_refl, Z.eqb_refl. }
    assert (Hh : exists h, diasHabiles v' = Some h)
      by (subst v'; apply preSaveDias_diasHabiles_Some).
    destruct Hh as [h Hh].
    destruct (balance_after_write _ _ _ _ _ _ (<[id := v']> (vacations db)) Hbal)
      as (bal' & Hbal' & Hused' & Hrest').
    rewrite (usados_Permutation _ _ _ _ Hp'), usados_cons, Hq', Hh, <- Hused in Hused'.
    exists h, bal'. split; [exact Hh|]. split; [exact Hbal'|].
    rewrite Hrest', Hused'. split; [f_equal; lia|]. simpl. f_equal. lia.
  - intros who v' db' Hest Hcan.
    apply cancel_Ok_inv in Hcan as (w & Hw & _ & _ & Hv' & ->).
    rewrite Hv in Hw. injection Hw as <-.
    destruct (map_to_list_write (vacations db) id v v' Hv) as [Hp Hp'].
    rewrite (usados_Permutation _ _ _ _ Hp), usados_cons in Hused.
    assert (Hq : balanceQuery (empleado v) (anoVacacional v) id v = true).
    { unfold balanceQuery. now rewrite Hest, Nat.eqb_refl, Z.eqb_refl. }
    rewrite Hq in Hused.
    assert (Hq' : balanceQuery (empleado v) (anoVacacional v) id v' = false).
    { unfold balanceQuery. subst v'. unfold cancelar.
      rewrite preSaveDias_estado. cbn [estado set_modificadoPor set_estado].
      apply andb_false_r. }
    destruct (diasHabiles v) as [h|] eqn:Hh; [|discriminate Hused].
    destruct (usados _ _ (map_to_list (delete id (vacations db)))) as [r|] eqn:Hr;
      [|discriminate Hused].
    injection Hused as Hsum.
    destruct (balance_after_write _ _ _ _ _ _ (<[id := v']> (vacations db)) Hbal)
      as (bal' & Hbal' & Hused' & Hrest').
    rewrite (usados_Permutation _ _ _ _ Hp'), usados_cons, Hq', Hr in Hused'.
    exists h, bal'. split; [reflexivity|]. split; [exact Hbal'|].
    rewrite Hrest', Hused'. split; [f_equal; lia|]. simpl. f_equal. lia.
Qed.

Lemma approval_charges_cancellation_refunds_witness :
  let db := dbCon vacacionesDeEjemplo in
  let env := mkEnv (utc 2024 8 1) 200 in
  let v := documento 1 (utc 2024 9 2) (utc 2024 9 6) pendiente in
  vacations db !! 102%nat = Some v /\
  exists (bal : Balance) (v' : Vacation) (db' : Db) (bal' : Balance),
    balance env ana (empleado v) (Some (anoVacacional v)) db = Ok bal /\
    diasUtilizados bal = Some 16 /\
    approve env rosa 102 db = (Ok v', db') /\
    balance env ana (empleado v) (Some (anoVacacional v)) db' = Ok bal' /\
    diasUtilizados bal' = Some 21 /\ diasRestantes bal' = Some 1.
Proof.
  intros db env v.
  assert (Hv : vacations db !! 102%nat = Some v) by (vm_compute; reflexivity).
  split; [exact Hv|].
  destruct (balance env ana (empleado v) (Some (anoVacacional v)) db) as [bal|e] eqn:Hb;
    [|vm_compute in Hb; discriminate Hb].
  assert (Hu : diasUtilizados bal = Some 16).
  { apply balance_usados in Hb as [-> _]. vm_compute. reflexivity. }
  destruct (approve env rosa 102 db) as [[v'|e] db'] eqn:Ha;
    [|vm_compute in Ha; discriminate Ha].
  destruct (proj1 (approval_charges_cancellation_refunds env env ana 102 db v bal 16
                     Hv Hb Hu) rosa v' db' Ha) as (h & bal' & Hh & Hb' & Hu' & Hr').
  assert (H5 : h = 5).
  { apply approve_Ok_inv in Ha as (w & Hw & _ & _ & -> & _).
    rewrite Hv in Hw. injection Hw as <-.
    vm_compute in Hh. now injection Hh as <-. }
  subst h. exists bal, v', db', bal'. repeat split; assumption.
Defined.

(** ** How create composes with the other requests *)

Lemma reject_shape (env : Env) (user : User) (id : Id) (m : option string) (db : Db) :
  (exists e, reject env user id m db = (Fail e, db)) \/
  (exists v : Vacation,
     vacations db !! id = Some v /\ estado v = pendiente /\ elevado user /\
     reject env user id m db =
     (Ok (rechazar env user m v),
      conVacations (<[id := rechazar env user m v]> (vacations db)) db)).
Proof.
  unfold reject.
  destruct (authorizeRoles [rol_admin; rol_rrhh] user) eqn:Hu;
    [|left; eexists; reflexivity].
  cbn [negb].
  destruct (validarReject m); [|left; eexists; reflexivity]. cbn [negb].
  destruct (vacations db !! id) as [v|]; [|left; eexists; reflexivity].
  destruct (Estado_eqb (estado v) pendiente) eqn:Hest; [|left; eexists; reflexivity].
  apply Estado_eqb_eq in Hest. cbn [negb].
  destruct (save _ _ _ _ _) as [[saved vs]|] eqn:Hsave; [|left; eexists; reflexivity].
  apply save_Some in Hsave as [-> ->].
  right. exists v. unfold rechazar. auto.
Qed.

Lemma createAdmisible_conVacations (user : User) (b : CreateBody) (db : Db)
  (vs : gmap nat Vacation) :
  createAdmisible user b db -> createAdmisible user b (conVacations vs db).
Proof. intros H. exact H. Qed.

(** X21: A request that has been cancelled or rejected no longer blocks its
    dates: a create that passes every check on the database except
    for an overlap with that one document is accepted once the
    document is cancelled or rejected. *)
Theorem cancelled_request_frees_its_dates
  (env0 env : Env) (who user : User) (id : Id) (m : option string)
  (b : CreateBody) (db db' : Db) (v' : Vacation) :
  cancel env0 who id db = (Ok v', db') \/ reject env0 who id m db = (Ok v', db') ->
  createAdmisible user b db ->
  (forall (j : Id) (d : Vacation), j <> id -> vacations db !! j = Some d ->
     solapaQuery (empleadoIdDe user b) (b_fechaInicio b) (b_fechaFin b) j d = false) ->
  now env <= b_fechaInicio b ->
  diasSolicitadosValido (b_diasSolicitados b) = true ->
  diasHabilesValido (b_diasHabiles b) = true ->
  vacations db !! newId env = None ->
  exists (v : Vacation) (db'' : Db),
    create env user b db' = (Ok (newId env, v), db'') /\
    vacations db'' !! newId env = Some v /\
    vacations db'' !! id = Some v'.
Proof.
  intros Hwrite Hadm Hothers Hnow Hds Hdh Hfresh.
  assert (Hshape : exists v, vacations db !! id = Some v /\
                     estadoActivo (estado v') = false /\
                     db' = conVacations (<[id := v']> (vacations db)) db).
  { destruct Hwrite as [Hc|Hr].
    - apply cancel_Ok_inv in Hc as (v & Hv & _ & _ & Hv' & Hdb).
      exists v. split; [exact Hv|]. split; [|exact Hdb].
      rewrite Hv'. unfold cancelar. now rewrite preSaveDias_estado.
    - destruct (reject_shape env0 who id m db) as [[e He]|(v & Hv & _ & _ & Heq)].
      + rewrite He in Hr. discriminate Hr.
      + rewrite Heq in Hr. injection Hr as <- <-.
        exists v. split; [exact Hv|]. split; [|reflexivity].
        unfold rechazar. now rewrite preSaveDias_estado. }
  destruct Hshape as (v & Hv & Hinactive & ->).
  assert (Hne : newId env <> id)
    by (intros Heq; rewrite Heq, Hv in Hfresh; discriminate Hfresh).
  assert (Hok : createAceptable env user b
                  (conVacations (<[id := v']> (vacations db)) db)).
  { split; [exact Hadm|]. cbn [conVacations vacations].
    split; [|split; [exact Hnow|split; [exact Hds|split; [exact Hdh|]]]].
    - apply findOne_None. intros j d Hj.
      apply lookup_insert_Some in Hj as [[<- <-]|[Hnej Hj]].
      + unfold solapaQuery. rewrite Hinactive.
        now rewrite andb_false_r.
      + apply Hothers; auto.
    - rewrite lookup_insert_ne by auto. exact Hfresh. }
  eexists _, _. split; [apply create_ok; exact Hok|].
  cbn [conVacations vacations].
  split; [apply lookup_insert_eq|].
  rewrite lookup_insert_ne by exact Hne. apply lookup_insert_eq.
Qed.

Lemma cancelled_request_frees_its_dates_witness :
  let a := documento 1 (utc 2024 7 15) (utc 2024 7 29) aprobada in
  let db := dbCon (unDocumento 100 a) in
  let env0 := mkEnv (utc 2024 7 1) 101 in
  let env := mkEnv (utc 2024 7 2) 102 in
  let b := solicitud (utc 2024 7 20) (utc 2024 7 25) in
  create env ana b db = (Fail FechasEnConflicto, db) /\
  exists (v' : Vacation) (db' : Db) (v : Vacation) (db'' : Db),
    cancel env0 ana 100 db = (Ok v', db') /\
    create env ana b db' = (Ok (102%nat, v), db'').
Proof.
  intros a db env0 env b.
  split; [vm_compute; reflexivity|].
  destruct (cancel env0 ana 100 db) as [[v'|e] db'] eqn:Hc;
    [|vm_compute in Hc; discriminate Hc].
  assert (Hadm : createAdmisible ana b db).
  { repeat split; try reflexivity. intros r Hr. discriminate Hr. }
  assert (Hothers : forall (j : Id) (d : Vacation), j <> 100%nat ->
            vacations db !! j = Some d ->
            solapaQuery (empleadoIdDe ana b) (b_fechaInicio b) (b_fechaFin b) j d = false).
  { intros j d Hj Hd. cbn [db dbCon vacations] in Hd. unfold unDocumento in Hd.
    apply lookup_singleton_Some in Hd as [Heq _]. congruence. }
  destruct (cancelled_request_frees_its_dates env0 env ana ana 100 None b db db' v'
              (or_introl Hc) Hadm Hothers ltac:(vm_compute; discriminate)
              eq_refl eq_refl eq_refl) as (v & db'' & Hcreate & _).
  exists v', db', v, db''. split; [reflexivity|exact Hcreate].
Defined.

(** X22: A request cannot be submitted twice: after an accepted create
    whose document is pendiente, aprobada or en_curso, the same body
    is refused with 409 "Fechas en conflicto", at any time and for any
    new id. *)
Theorem duplicate_create_conflicts
  (env env2 : Env) (user : User) (b : CreateBody) (db : Db) :
  createAceptable env user b db ->
  estadoActivo (default pendiente (b_estado b)) = true ->
  create env2 user b (snd (create env user b db)) =
  (Fail FechasEnConflicto, snd (create env user b db)).
Proof.
  intros Hok Hact. pose proof Hok as (Hadm & _).
  rewrite (create_ok env user b db Hok). cbn [snd].
  set (db1 := conVacations _ db).
  rewrite (create_after_checks env2 user b db1 Hadm).
  destruct (findOne_is_Some
              (solapaQuery (empleadoIdDe user b) (b_fechaInicio b) (b_fechaFin b))
              (vacations db1) (newId env) (creada env user b)) as [hit Hhit].
  - apply lookup_insert_eq.
  - destruct Hadm as (_ & _ & _ & Hfechas).
    apply solapaQuery_spec. unfold creada.
    rewrite preSaveDias_empleado, preSaveDias_estado, preSaveDias_fechaInicio,
      preSaveDias_fechaFin.
    cbn [nuevaVacation empleado estado fechaInicio fechaFin].
    split; [reflexivity|]. split; [exact Hact|].
    apply intervalsOverlap_spec. lia.
  - now rewrite Hhit.
Qed.

Lemma duplicate_create_conflicts_witness :
  let env := mkEnv (utc 2024 7 1) 101 in
  let env2 := mkEnv (utc 2024 7 2) 102 in
  let b := solicitud (utc 2024 7 15) (utc 2024 7 29) in
  createAceptable env ana b (dbCon ∅) /\
  create env2 ana b (snd (create env ana b (dbCon ∅))) =
  (Fail FechasEnConflicto, snd (create env ana b (dbCon ∅))).
Proof.
  intros env env2 b.
  assert (Hok : createAceptable env ana b (dbCon ∅)).
  { repeat split; try reflexivity; try (intros r Hr; discriminate Hr).
    vm_compute. discriminate. }
  split; [exact Hok|].
  exact (duplicate_create_conflicts env env2 ana b (dbCon ∅) Hok eq_refl).
Defined.

(** X23: For whom a request is created: the creator recorded is always the
    requester; a requester with role empleado creates for themselves
    whatever employee the body names; an admin or RRHH creates for the
    employee the body names, or for themselves when it names none; and
    that employee exists. *)
Theorem create_is_for
  (env : Env) (user : User) (b : CreateBody) (db : Db) (i : Id) (v : Vacation) (db' : Db) :
  create env user b db = (Ok (i, v), db') ->
  creadoPor v = _id user /\
  (esEmpleado user = true -> empleado v = _id user) /\
  (esEmpleado user = false -> empleado v = default (_id user) (b_empleado b)) /\
  userExists db (empleado v) = true.
Proof.
  intros Hcreate.
  assert (Hok : createAceptable env user b db)
    by (apply create_Ok_iff; eauto).
  rewrite (create_ok env user b db Hok) in Hcreate. injection Hcreate as _ <- _.
  unfold creada. rewrite preSaveDias_creadoPor, preSaveDias_empleado.
  cbn [nuevaVacation creadoPor empleado].
  destruct Hok as ((_ & Huser & _) & _).
  unfold empleadoIdDe in *.
  split; [reflexivity|]. split; [intros ->; reflexivity|].
  split; [intros ->; reflexivity|exact Huser].
Qed.

Lemma create_is_for_witness :
  let env := mkEnv (utc 2024 7 1) 101 in
  let b := solicitudPara 2 (utc 2024 7 15) (utc 2024 7 29) in
  exists (va vr : Vacation) (dba dbr : Db),
    create env ana b (dbCon ∅) = (Ok (101%nat, va), dba) /\
    empleado va = 1%nat /\ creadoPor va = 1%nat /\
    create env rosa b (dbCon ∅) = (Ok (101%nat, vr), dbr) /\
    empleado vr = 2%nat /\ creadoPor vr = 9%nat.
Proof.
  intros env b.
  destruct (create env ana b (dbCon ∅)) as [[[i va]|e] dba] eqn:Ha;
    [|vm_compute in Ha; discriminate Ha].
  destruct (create env rosa b (dbCon ∅)) as [[[j vr]|e] dbr] eqn:Hr;
    [|vm_compute in Hr; discriminate Hr].
  destruct (create_is_for env ana b (dbCon ∅) i va dba Ha) as (Hca & Hea & _).
  destruct (create_is_for env rosa b (dbCon ∅) j vr dbr Hr) as (Hcr & _ & Her & _).
  assert (Hi : i = 101%nat) by (vm_compute in Ha; now injection Ha as <- _ _).
  assert (Hj : j = 101%nat) by (vm_compute in Hr; now injection Hr as <- _ _).
  subst i j. exists va, vr, dba, dbr.
  split; [reflexivity|]. split; [exact (Hea eq_refl)|]. split; [exact Hca|].
  split; [reflexivity|]. split; [exact (Her eq_refl)|exact Hcr].
Defined.

(** ** Reading *)

(** X24: A requester with role empleado reads only their own data:
    [GET /:id] answers with a document only if it is theirs, and the
    balance is answered only for themselves and holds only documents
    of theirs. *)
Theorem employees_read_only_their_own (env : Env) (user : User) (db : Db) :
  esEmpleado user = true ->
  (forall (id : Id) (v : Vacation),
     findById user id db = Ok v -> empleado v = _id user) /\
  (forall (e : Id) (year : option Z) (bal : Balance),
     balance env user e year db = Ok bal ->
     e = _id user /\
     forall d : Vacation, In d (vacacionesDelAno bal) -> empleado d = _id user).
Proof.
  intros Hrole. split.
  - intros id v. unfold findById. destruct (vacations db !! id) as [w|]; [|discriminate].
    rewrite Hrole. cbn [andb].
    destruct (Nat.eqb (empleado w) (_id user)) eqn:He; [|discriminate].
    intros H. injection H as <-. now apply Nat.eqb_eq.
  - intros e year bal. unfold balance. rewrite Hrole. cbn [andb].
    destruct (Nat.eqb e (_id user)) eqn:He; [|discriminate].
    apply Nat.eqb_eq in He. cbn [negb].
    destruct (negb (userExists db e)); [discriminate|].
    intros H. injection H as <-. cbn [vacacionesDelAno].
    split; [exact He|]. intros d Hd.
    apply findAll_balanceQuery in Hd as (i & _ & Hemp & _). congruence.
Qed.

Lemma employees_read_only_their_own_witness :
  let db := dbCon vacacionesDeEjemplo in
  let env := mkEnv (utc 2024 8 1) 200 in
  esEmpleado beto = true /\
  findById beto 100 db = Fail AccesoDenegado /\
  balance env beto 1 (Some 2024) db = Fail AccesoDenegado /\
  exists v : Vacation, findById beto 104 db = Ok v /\ empleado v = 2%nat.
Proof.
  intros db env. split; [reflexivity|].
  split; [vm_compute; reflexivity|]. split; [vm_compute; reflexivity|].
  destruct (findById beto 104 db) as [v|e] eqn:Hf; [|vm_compute in Hf; discriminate Hf].
  exists v. split; [reflexivity|].
  exact (proj1 (employees_read_only_their_own env beto db eq_refl) 104%nat v Hf).
Defined.

(** ** The overlap invariant over sequences of requests *)

(** X25: Starting from an empty collection, every sequence of create,
    approve, reject and cancel requests leaves a collection in which no
    two active documents of one employee overlap; with C1, update is
    the only request that can break this. *)
Theorem lifecycle_without_update_keeps_invariant
  (rs : list Request) (us : gset nat) (cs : gmap nat Z) :
  forallb (fun r => negb (esUpdate r)) rs = true ->
  sinSolapes (vacations (serve rs (mkDb us cs ∅))).
Proof.
  intros Hno. apply serve_without_update_keeps_sinSolapes; [exact Hno|].
  apply sinSolapes_empty.
Qed.

Lemma lifecycle_without_update_keeps_invariant_witness :
  sinSolapes
    (vacations
       (serve (dosSolicitudes ++ [ReqApprove (mkEnv (utc 2024 7 2) 102) rosa 100;
                                  ReqCancel (mkEnv (utc 2024 7 3) 103) ana 101])
          (mkDb {[ 1%nat; 2%nat; 9%nat ]} ∅ ∅))).
Proof.
  exact (lifecycle_without_update_keeps_invariant
           (dosSolicitudes ++ [ReqApprove (mkEnv (utc 2024 7 2) 102) rosa 100;
                               ReqCancel (mkEnv (utc 2024 7 3) 103) ana 101])
           {[ 1%nat; 2%nat; 9%nat ]} ∅ eq_refl).
Defined.

(** ** Requests for a document that does not exist *)

(** X26: When no document has the id, update, approve, reject and cancel
    answer 404 "Vacación no encontrada" once the checks that come
    before the lookup pass (a valid body for update, an admin or RRHH
    requester for approve and reject, a valid reason for reject), and
    nothing is written; [GET /:id] answers 404 as well. *)
Theorem missing_document_is_404
  (env : Env) (user : User) (id : Id) (db : Db) :
  vacations db !! id = None ->
  findById user id db = Fail VacacionNoEncontrada /\
  cancel env user id db = (Fail VacacionNoEncontrada, db) /\
  (forall u, validarUpdate u = true ->
     update user id u db = (Fail VacacionNoEncontrada, db)) /\
  (elevado user -> approve env user id db = (Fail VacacionNoEncontrada, db)) /\
  (forall m, elevado user -> validarReject m = true ->
     reject env user id m db = (Fail VacacionNoEncontrada, db)) /\
  (forall m, elevado user -> validarReject m = false ->
     reject env user id m db = (Fail DatosDeEntradaInvalidos, db)).
Proof.
  intros Hnone. unfold findById, cancel, update, approve, reject, elevado.
  rewrite Hnone.
  split; [reflexivity|]. split; [reflexivity|].
  split; [intros u ->; reflexivity|].
  split; [intros ->; reflexivity|].
  split; intros m -> ->; reflexivity.
Qed.

Lemma missing_document_is_404_witness :
  let env := mkEnv (utc 2024 7 1) 101 in
  let db := dbCon ∅ in
  vacations db !! 7%nat = None /\
  findById rosa 7 db = Fail VacacionNoEncontrada /\
  cancel env rosa 7 db = (Fail VacacionNoEncontrada, db) /\
  approve env rosa 7 db = (Fail VacacionNoEncontrada, db).
Proof.
  intros env db.
  destruct (missing_document_is_404 env rosa 7 db eq_refl) as (Hf & Hc & _ & Ha & _).
  split; [reflexivity|]. split; [exact Hf|]. split; [exact Hc|]. exact (Ha eq_refl).
Defined.

(** ** Decisions are on record *)

Lemma decisionRegistrada_despues (db : Db) (r : Request) (id : Id)
  (antes : option Vacation) (despues : Vacation) :
  sinAtajos r = true ->
  escribe db r id antes despues ->
  decisionRegistrada despues.
Proof.
  intros Hr [_ Hw].
  destruct r as [env user b|user id0 u|env user id0|env user id0 m|env user id0];
    cbn [sinAtajos] in Hr; try discriminate Hr.
  - destruct Hw as (_ & _ & -> & _).
    assert (Hest : estado (creada env user b) = pendiente).
    { unfold creada. rewrite preSaveDias_estado. cbn [nuevaVacation estado].
      destruct (b_estado b); [discriminate Hr|reflexivity]. }
    split; rewrite Hest; [intros [H|H]; discriminate H|intros H; discriminate H].
  - destruct Hw as (_ & v & _ & _ & _ & ->).
    assert (Hest : estado (aprobar env user v) = aprobada)
      by (unfold aprobar; now rewrite preSaveDias_estado).
    split; rewrite Hest; [intros _|intros H; discriminate H].
    unfold aprobar. rewrite preSaveDias_aprobadoPor.
    erewrite preSaveDias_fechaAprobacion_set by reflexivity.
    split; discriminate.
  - destruct Hw as (_ & v & _ & _ & _ & Hm & ->).
    split; intros _.
    + unfold rechazar. rewrite preSaveDias_aprobadoPor.
      erewrite preSaveDias_fechaAprobacion_set by reflexivity.
      split; discriminate.
    + exists (Str.trim (Str.orEmpty m)).
      apply validarReject_spec in Hm as [Hne Hlen].
      split; [|split; assumption].
      unfold rechazar. rewrite preSaveDias_motivoRechazo.
      cbn [motivoRechazo set_modificadoPor set_fechaAprobacion set_aprobadoPor
             set_motivoRechazo].
      now rewrite trim_idem.
  - destruct Hw as (_ & v & _ & _ & _ & ->).
    assert (Hest : estado (cancelar env user v) = cancelada)
      by (unfold cancelar; now rewrite preSaveDias_estado).
    split; rewrite Hest; [intros [H|H]; discriminate H|intros H; discriminate H].
Qed.

(** X27: Through every sequence of approve, reject and cancel requests and
    of creates whose body carries no estado, decisions stay on record:
    every approved or rejected document names who decided and when,
    and every rejected document has a non-empty reason of at most 500
    characters. *)
Theorem decisions_are_recorded (rs : list Request) (db : Db) :
  forallb sinAtajos rs = true ->
  (forall (id : Id) (v : Vacation), vacations db !! id = Some v -> decisionRegistrada v) ->
  forall (id : Id) (v : Vacation),
    vacations (serve rs db) !! id = Some v -> decisionRegistrada v.
Proof.
  unfold serve. revert db.
  induction rs as [|r rs IH]; intros db Hrs Hinv; [exact Hinv|].
  cbn [forallb fold_left] in *. apply andb_true_iff in Hrs as [Hr Hrs].
  apply IH; [exact Hrs|].
  intros id v Hv.
  destruct (handle_cases db r) as [(e & _ & Hsame)|(_ & id0 & antes & despues & Hw & Heq)].
  - rewrite Hsame in Hv. eauto.
  - rewrite Heq in Hv. cbn [conVacations vacations] in Hv.
    apply lookup_insert_Some in Hv as [[_ <-]|[_ Hv]]; [|eauto].
    exact (decisionRegistrada_despues db r id0 antes despues Hr Hw).
Qed.

Lemma decisions_are_recorded_witness :
  let rs := dosSolicitudes ++
            [ ReqApprove (mkEnv (utc 2024 7 2) 102) rosa 100;
              ReqReject (mkEnv (utc 2024 7 3) 103) rosa 101 (Some " Sin cobertura "%string) ] in
  exists v : Vacation,
    vacations (serve rs (dbCon ∅)) !! 101%nat = Some v /\
    estado v = rechazada /\
    motivoRechazo v = Some "Sin cobertura"%string /\
    decisionRegistrada v.
Proof.
  intros rs.
  destruct (vacations (serve rs (dbCon ∅)) !! 101%nat) as [v|] eqn:Hv;
    [|vm_compute in Hv; discriminate Hv].
  exists v. split; [reflexivity|].
  assert (Hd : decisionRegistrada v).
  { apply (decisions_are_recorded rs (dbCon ∅) eq_refl) with (id := 101%nat);
      [|exact Hv].
    intros id w Hw. cbn in Hw. rewrite lookup_empty in Hw. discriminate Hw. }
  vm_compute in Hv. injection Hv as <-.
  split; [reflexivity|]. split; [reflexivity|]. exact Hd.
Defined.

(** ** The day counts of a new request, on the calendar *)

Lemma Day_nextDay (t : Z) : Day (nextDay t) = Day t + 1.
Proof.
  unfold Day, nextDay. pose proof MS_PER_DAY_pos.
  replace (t + MS_PER_DAY) with (t + 1 * MS_PER_DAY) by ring.
  now rewrite Z.div_add by lia.
Qed.

(** The loop steps through consecutive calendar days. *)
Lemma Day_diasDesde (n : nat) :
  forall t : Z,
    List.map Day (diasDesde n t) =
    List.map (fun k => Day t + Z.of_nat k) (seq 0 n).
Proof.
  induction n as [|n IH]; intros t; [reflexivity|].
  cbn [diasDesde List.map seq]. rewrite IH, <- seq_shift, List.map_map, Day_nextDay.
  f_equal; [lia|]. apply List.map_ext. intros k. lia.
Qed.

Lemma length_filter_map {A B : Type} (f : A -> B) (p : B -> bool) (l : list A) :
  length (List.filter (fun x => p (f x)) l) = length (List.filter p (List.map f l)).
Proof.
  induction l as [|x l IH]; [reflexivity|].
  cbn [List.filter List.map]. destruct (p (f x)); cbn [length]; now rewrite IH.
Qed.

(** Between dates a whole number of days apart, the loop of
    [diasHabilesCalculados] visits each calendar day of the span
    once. *)
Lemma spanDays_diasDelCalendario (start end_ : Z) :
  start <= end_ ->
  (end_ - start) mod MS_PER_DAY = 0 ->
  List.map Day (spanDays start end_) = diasDelCalendario start end_.
Proof.
  intros Hle Hmod. pose proof MS_PER_DAY_pos as Hpos.
  unfold spanDays, diasDelCalendario. rewrite Day_diasDesde.
  assert (Hdays : Day end_ - Day start = (end_ - start) / MS_PER_DAY).
  { unfold Day.
    replace end_ with (start + (end_ - start) / MS_PER_DAY * MS_PER_DAY) at 1.
    - rewrite Z.div_add by lia. lia.
    - pose proof (Z.div_mod (end_ - start) MS_PER_DAY). lia. }
  now rewrite Hdays.
Qed.

Lemma diasHabilesCalculados_diasLaborables (start end_ : Z) :
  start <= end_ ->
  (end_ - start) mod MS_PER_DAY = 0 ->
  diasHabilesCalculados start end_ = diasLaborables start end_.
Proof.
  intros Hle Hmod.
  rewrite diasHabilesCalculados_businessDaySpan.
  unfold businessDaySpan, diasLaborables.
  rewrite <- (spanDays_diasDelCalendario start end_ Hle Hmod).
  f_equal. rewrite <- length_filter_map. reflexivity.
Qed.

Lemma diasTotales_diasDelCalendario (start end_ : Z) :
  start <= end_ ->
  (end_ - start) mod MS_PER_DAY = 0 ->
  diasTotales start end_ = Z.of_nat (length (diasDelCalendario start end_)).
Proof.
  intros Hle Hmod. pose proof MS_PER_DAY_pos as Hpos.
  rewrite <- (spanDays_diasDelCalendario start end_ Hle Hmod), length_map,
    length_spanDays by exact Hle.
  unfold diasTotales. now rewrite ceilDiv_exact.
Qed.

(** X28: for every create that is accepted, whose body leaves out the
    day counts and whose dates are a whole number of days apart (as
    when both are at midnight), the stored document, which is also what
    [GET /:id] then returns to the requester, has diasSolicitados
    equal to the number of calendar days from the day of fechaInicio to
    the day of fechaFin and diasHabiles equal to the number of those
    days that are neither Saturday nor Sunday, whatever else the body
    carries. *)
Theorem create_derives_day_counts
  (env : Env) (user : User) (b : CreateBody) (db : Db) :
  createAceptable env user b db ->
  b_diasSolicitados b = None ->
  b_diasHabiles b = None ->
  (b_fechaFin b - b_fechaInicio b) mod MS_PER_DAY = 0 ->
  exists (v : Vacation) (db' : Db),
    create env user b db = (Ok (newId env, v), db') /\
    findById user (newId env) db' = Ok v /\
    diasSolicitados v =
      Some (Z.of_nat (length (diasDelCalendario (b_fechaInicio b) (b_fechaFin b)))) /\
    diasSolicitados v = Some (Day (b_fechaFin b) - Day (b_fechaInicio b) + 1) /\
    diasHabiles v = Some (diasLaborables (b_fechaInicio b) (b_fechaFin b)).
Proof.
  intros Hok Hds Hdh Hmod.
  assert (Hle : b_fechaInicio b <= b_fechaFin b).
  { destruct Hok as ((_ & _ & _ & Hlt) & _). lia. }
  exists (creada env user b),
    (conVacations (<[newId env := creada env user b]> (vacations db)) db).
  assert (Hs : diasSolicitados (creada env user b) =
               Some (diasTotales (b_fechaInicio b) (b_fechaFin b))).
  { unfold creada. now rewrite preSaveDias_diasSolicitados. }
  assert (Hh : diasHabiles (creada env user b) =
               Some (diasHabilesCalculados (b_fechaInicio b) (b_fechaFin b))).
  { unfold creada. now rewrite preSaveDias_diasHabiles. }
  split; [apply create_ok; exact Hok|].
  split; [apply findById_created|].
  split; [now rewrite Hs, diasTotales_diasDelCalendario|].
  split.
  - rewrite Hs, diasTotales_diasDelCalendario by assumption.
    unfold diasDelCalendario. rewrite length_map, length_seq.
    f_equal. pose proof MS_PER_DAY_pos.
    assert (Day (b_fechaInicio b) <= Day (b_fechaFin b))
      by (apply Z.div_le_mono; lia).
    lia.
  - now rewrite Hh, diasHabilesCalculados_diasLaborables.
Qed.

Lemma create_derives_day_counts_witness :
  let env := mkEnv (utc 2024 7 1) 101 in
  let b := solicitud (utc 2024 7 15) (utc 2024 7 29) in
  let db := dbCon ∅ in
  createAceptable env ana b db /\
  (b_fechaFin b - b_fechaInicio b) mod MS_PER_DAY = 0 /\
  diasLaborables (b_fechaInicio b) (b_fechaFin b) = 11 /\
  exists (v : Vacation) (db' : Db),
    create env ana b db = (Ok (101%nat, v), db') /\
    findById ana 101 db' = Ok v /\
    diasSolicitados v = Some 15 /\ diasHabiles v = Some 11.
Proof.
  intros env b db.
  assert (Hok : createAceptable env ana b db).
  { repeat split; try reflexivity; try (intros r Hr; discriminate Hr).
    vm_compute. discriminate. }
  split; [exact Hok|]. split; [reflexivity|]. split; [reflexivity|].
  destruct (create_derives_day_counts env ana b db Hok eq_refl eq_refl eq_refl)
    as (v & db' & Hcreate & Hfind & _ & Hs & Hh).
  exists v, db'. repeat split; assumption.
Defined.

(** Without the whole number of days the stored diasHabiles can miss a
    working day of the calendar: from Friday 2024-07-19 12:00 to Monday
    2024-07-22 06:00 the loop stops at Sunday 12:00, so the document
    has diasSolicitados 4 and diasHabiles 1, while Friday and Monday are
    both working days of the span. *)
Example create_partial_day_counts :
  let env := mkEnv (utc 2024 7 1) 101 in
  let b := solicitud (utcHour 2024 7 19 12) (utcHour 2024 7 22 6) in
  diasSolicitados (creada env ana b) = Some 4 /\
  diasHabiles (creada env ana b) = Some 1 /\
  diasLaborables (b_fechaInicio b) (b_fechaFin b) = 2.
Proof. repeat split; vm_compute; reflexivity. Qed.

(** ** Documents that the schema refuses *)

(** A save that succeeds has validated the document. *)
Lemma save_valid ahora isNew self this vs r :
  save ahora isNew self this vs = Some r -> validarDocumento this = true.
Proof.
  unfold save. destruct (validarDocumento this); [reflexivity|discriminate].
Qed.

Lemma validarDocumento_dentro (v : Vacation) :
  validarDocumento v = true -> ~ fueraDeEsquema v.
Proof.
  unfold validarDocumento. rewrite !andb_true_iff.
  intros [[[[[[[Hf _] _] _] _] _] Hd] _] [H|H]; congruence.
Qed.

(** A request other than an update that writes over a stored document
    has passed the validation of that document's dates and
    diasSolicitados, which it does not assign. *)
Lemma escribe_dentro (db : Db) (r : Request) (id : Id) (v v' : Vacation) :
  esUpdate r = false ->
  respuesta db r = None ->
  escribe db r id (Some v) v' ->
  ~ fueraDeEsquema v.
Proof.
  intros Hnu Hok [Hv Hw].
  destruct r as [env user b|user id0 u|env user id0|env user id0 m|env user id0];
    cbn [respuesta] in Hok.
  - destruct Hw as (_ & Hnone & _). discriminate Hnone.
  - discriminate Hnu.
  - destruct Hw as (-> & _). unfold approve in Hok.
    destruct (negb (authorizeRoles _ user)); [discriminate Hok|].
    rewrite Hv in Hok.
    destruct (negb (Estado_eqb _ _)); [discriminate Hok|].
    destruct (save _ _ _ _ _) as [[saved vs]|] eqn:Hsave; [|discriminate Hok].
    apply save_valid in Hsave. exact (validarDocumento_dentro _ Hsave).
  - destruct Hw as (-> & _). unfold reject in Hok.
    destruct (negb (authorizeRoles _ user)); [discriminate Hok|].
    destruct (negb (validarReject m)); [discriminate Hok|].
    rewrite Hv in Hok.
    destruct (negb (Estado_eqb _ _)); [discriminate Hok|].
    destruct (save _ _ _ _ _) as [[saved vs]|] eqn:Hsave; [|discriminate Hok].
    apply save_valid in Hsave. exact (validarDocumento_dentro _ Hsave).
  - destruct Hw as (-> & _). unfold cancel in Hok. rewrite Hv in Hok.
    destruct (esEmpleado user && _); [discriminate Hok|].
    destruct (negb (existsb _ _)); [discriminate Hok|].
    destruct (save _ _ _ _ _) as [[saved vs]|] eqn:Hsave; [|discriminate Hok].
    apply save_valid in Hsave. exact (validarDocumento_dentro _ Hsave).
Qed.

(** X29: a stored document whose fechaFin is not after its fechaInicio,
    or whose diasSolicitados is outside the schema's bounds, is never
    approved, rejected or cancelled: every such request on it is
    answered with an error, and after any sequence of create, approve,
    reject and cancel requests the document is stored exactly as it
    was.  Only an update can change it. *)
Theorem invalid_document_is_stuck (rs : list Request) (db : Db) (id : Id) (v : Vacation) :
  vacations db !! id = Some v ->
  fueraDeEsquema v ->
  forallb (fun r => negb (esUpdate r)) rs = true ->
  vacations (serve rs db) !! id = Some v /\
  (forall (env : Env) (user : User) (m : option string),
     respuesta db (ReqApprove env user id) <> None /\
     respuesta db (ReqReject env user id m) <> None /\
     respuesta db (ReqCancel env user id) <> None).
Proof.
  intros Hv Hfuera Hrs. split.
  - unfold serve. revert db Hv Hrs.
    induction rs as [|r rs IH]; intros db Hv Hrs; [exact Hv|].
    cbn [forallb] in Hrs. apply andb_true_iff in Hrs as [Hr Hrs].
    apply negb_true_iff in Hr.
    cbn [fold_left]. apply IH; [|exact Hrs].
    destruct (handle_lookup db r id v Hv) as [Hsame|(v' & Hok & Hw & _)];
      [exact Hsame|].
    contradiction (escribe_dentro db r id v v' Hr Hok Hw).
  - assert (Hno : forall r : Request,
               esUpdate r = false ->
               (forall antes despues i, escribe db r i antes despues -> i = id) ->
               respuesta db r <> None).
    { intros r Hr Hid Hok.
      destruct (handle_cases db r) as [(e & He & _)|(_ & i & antes & despues & Hw & _)];
        [congruence|].
      pose proof (Hid _ _ _ Hw) as ->.
      pose proof (proj1 Hw) as Hantes. rewrite Hv in Hantes. subst antes.
      exact (escribe_dentro db r id v despues Hr Hok Hw Hfuera). }
    intros env user m.
    split; [|split]; apply Hno; try reflexivity;
      intros antes despues i [_ [-> _]]; reflexivity.
Qed.

Lemma invalid_document_is_stuck_witness :
  let db := serve [unAnoYUnDia] (dbCon ∅) in
  let env := mkEnv (utc 2024 7 2) 102 in
  let rs := [ReqApprove env rosa 100; ReqReject env rosa 100 (Some "No"%string);
             ReqCancel env ana 100] in
  exists v : Vacation,
    vacations db !! 100%nat = Some v /\
    estado v = pendiente /\ diasSolicitados v = Some 366 /\
    fueraDeEsquema v /\
    vacations (serve rs db) !! 100%nat = Some v /\
    respuesta db (ReqApprove env rosa 100) = Some ErrorInternoDelServidor /\
    respuesta db (ReqCancel env ana 100) = Some ErrorInternoDelServidor.
Proof.
  intros db env rs.
  set (v := creada (mkEnv (utc 2024 7 1) 100) ana (solicitud (utc 2025 1 1) (utc 2026 1 1))).
  assert (Hv : vacations db !! 100%nat = Some v) by (vm_compute; reflexivity).
  assert (Hfuera : fueraDeEsquema v) by (right; vm_compute; reflexivity).
  exists v.
  split; [exact Hv|]. split; [reflexivity|]. split; [vm_compute; reflexivity|].
  split; [exact Hfuera|].
  split; [exact (proj1 (invalid_document_is_stuck rs db 100 v Hv Hfuera eq_refl))|].
  split; vm_compute; reflexivity.
Defined.
